(** * The storage engine of the browser file vault

    A shallow embedding of the three classes of the storage script:
    [StorageManager], [IndexedDBBackend] and [LocalStorageBackend], and
    of the parts of the page script that call them: the upload of
    [IntelligentDataProcessor], the admission check of a batch and the
    labels of the file cards.

    Conventions of the embedding.
    - Byte counts are JavaScript numbers holding integers; they are [Z].
      The two places where the script leaves the integers
      ([formatFileSize] and [toFixed]) are computed over [Q]; for the byte
      counts that occur the double-precision results are the exact ones
      (a division by a power of two, and a product below 2^53). The
      exponent in [formatFileSize] is the exact one, which the quotient
      of logarithms yields up to 2^50 - 4.
    - A promise is an [outcome]: it resolves, rejects with the message of
      the error, or never settles.
    - What the browser decides (the clock, the random suffix of an id,
      whether a write is denied, what the canvas encoder produces) is read
      from a [Host] record passed to the operation.
    - A JavaScript object with a fixed shape is a record; an object built
      by spreading ([{...a, ...b}]) is a [gmap string value].
    - localStorage holds JSON text. The state of the localStorage backend
      is what [JSON.parse] returns from its two items, and an element
      enters it as [JSON.stringify] followed by [JSON.parse] leaves it.
      The parsed items are plain objects: a key they do not own can still
      reach a property of [Object.prototype]. *)

From stdpp Require Import gmap strings list fin_maps pretty sorting.
From Stdlib Require Import ZArith QArith Qround Qminmax Qabs.

#[local] Open Scope Z_scope.
#[local] Set Warnings "-register-all".

(** ** JavaScript values and promises *)

Module JS.

Inductive value :=
  | VNull
  | VNum (z : Z)
  | VStr (s : string)
  | VBool (b : bool)
  | VArr (l : list value)
  | VObj (o : gmap string value)
  | VBytes (b : list Byte.byte)   (* an ArrayBuffer *)
  | VBlob (b : list Byte.byte).   (* a Blob *)

Inductive outcome (A : Type) :=
  | Resolved (a : A)
  | Rejected (message : string)
  | Pending.
Arguments Resolved {A} a.
Arguments Rejected {A} message.
Arguments Pending {A}.

(** [s.startsWith(p)] and [s.includes(p)]. *)
Definition startsWith (s p : string) : bool := String.prefix p s.

Fixpoint includes (s p : string) : bool :=
  String.prefix p s ||
  match s with
  | EmptyString => false
  | String _ rest => includes rest p
  end.

(** [{...a, ...b}]: the keys of [b] win. *)
Definition spread (a b : gmap string value) : gmap string value := b ∪ a.

(** [JSON.parse(JSON.stringify(v))]: a Blob and an ArrayBuffer have no own
    enumerable property and are written as [{}]; null, a number, a string
    and a boolean come back as they were, an array and an object member
    by member. *)
Fixpoint json (v : value) : value :=
  match v with
  | VArr l => VArr (json <$> l)
  | VObj o => VObj (json <$> o)
  | VBytes _ | VBlob _ => VObj ∅
  | VNull | VNum _ | VStr _ | VBool _ => v
  end.

(** The names under which every object finds a property of
    [Object.prototype]: eleven functions and, under '__proto__', the
    prototype itself. All of them count as true in a condition, and none
    of them is an array. *)
Definition Object_prototype_keys : list string :=
  ["constructor"; "__defineGetter__"; "__defineSetter__"; "hasOwnProperty";
   "__lookupGetter__"; "__lookupSetter__"; "isPrototypeOf";
   "propertyIsEnumerable"; "toString"; "valueOf"; "__proto__";
   "toLocaleString"].

(** [obj[key]] of an object without an own property [key] is inherited. *)
Definition inherited (key : string) : bool :=
  bool_decide (key ∈ Object_prototype_keys).

Fixpoint zeros (k : nat) : string :=
  match k with O => "" | S k' => "0" +:+ zeros k' end.

Definition pad (width : nat) (s : string) : string :=
  zeros (width - String.length s) +:+ s.

(** The integer [n] of [Number.prototype.toFixed]: [n / 10^f] is as
    close to [|x|] as possible, and of two candidates the larger. *)
Definition fixed_digits (f : nat) (x : Q) : Z :=
  Qfloor (Qabs x * inject_Z (10 ^ Z.of_nat f) + (1 # 2)).

Definition toFixed (x : Q) (f : nat) : string :=
  let n := fixed_digits f x in
  let scale := 10 ^ Z.of_nat f in
  (if Qlt_le_dec x 0 then "-" else "") +:+ pretty (n / scale) +:+
  match f with
  | O => ""
  | S _ => "." +:+ pad f (pretty (n mod scale))
  end.

(** [parseFloat(x.toFixed(2)) + ''] for [0 <= x]: the two decimals
    without their trailing zeros. *)
Definition parseFloat_toFixed2 (x : Q) : string :=
  let n := fixed_digits 2 x in
  let whole := pretty (n / 100) in
  let frac := n mod 100 in
  if frac =? 0 then whole
  else if frac mod 10 =? 0 then whole +:+ "." +:+ pretty (frac / 10)
  else whole +:+ "." +:+ pad 2 (pretty frac).

End JS.
Import JS.

(** ** What the browser supplies *)

(** A [File]: its [name], [type] and [size] properties and the bytes a
    [FileReader] delivers. *)
Record File := {
  file_name : string;
  file_type : string;
  file_size : Z;
  file_bytes : list Byte.byte
}.

(** The blob handed to the callback of [canvas.toBlob]. *)
Record CanvasBlob := {
  blob_size : Z;
  blob_bytes : list Byte.byte
}.

(** What becomes of [img.src = ...]: [onerror] fires, or [onload] fires and
    [toBlob] calls back with a blob or with [null]. *)
Inductive ImageOutcome :=
  | ImageError
  | ToBlob (blob : option CanvasBlob).

Record DOMException := {
  exn_name : string;
  exn_code : Z;
  exn_message : string
}.

Record Host := {
  h_image : ImageOutcome;
  h_now : string;                       (* Date.now() *)
  h_random : string;                    (* Math.random().toString(36).substr(2, 9) *)
  h_date : nat -> string;               (* k-th new Date().toISOString() *)
  h_reader : option DOMException;       (* reader.error, when the FileReader fails *)
  h_request : nat -> option DOMException; (* error of the k-th write request of a transaction *)
  h_setItem : nat -> option DOMException; (* exception of the k-th localStorage.setItem *)
  h_url : string                        (* URL.createObjectURL(blob) *)
}.

(** [reader.readAsDataURL(file)] and [fetch(dataURL).blob()]: the browser
    decodes what it encoded. *)
Class DataURL := {
  readAsDataURL : File -> string;
  fetch_blob : string -> list Byte.byte;
  fetch_readAsDataURL : forall f, fetch_blob (readAsDataURL f) = file_bytes f
}.

Definition quota_message : string :=
  "Storage quota exceeded. Please delete some files or try a smaller file.".

Definition is_quota_error (e : DOMException) : bool :=
  bool_decide (exn_name e = "QuotaExceededError") || (exn_code e =? 22).

(** [formatFileSize], the same method in [StorageManager] and in
    [LocalStorageBackend]. [Math.floor(Math.log(bytes) / Math.log(k))] is
    taken as the number of whole powers of 1024 in [bytes]. The script
    divides two double-precision logarithms, and the quotient floors to
    that number as long as [bytes] is not within a few units below 2^50:
    from 2^50 - 3 to 2^50 - 1 the quotient rounds to 5 and the script
    prints '1 undefined' where this definition gives '1024 undefined'.
    [Math.log] of a negative number is [NaN], which every later step hands
    on: the text is 'NaN undefined'. *)
Definition sizes : list string := ["Bytes"; "KB"; "MB"; "GB"].

Definition formatFileSize (bytes : Z) : string :=
  if bytes =? 0 then "0 Bytes"
  else if bytes <? 0 then "NaN undefined"
  else
    let k := 1024 in
    let i := Z.log2 bytes / Z.log2 k in
    parseFloat_toFixed2 (inject_Z bytes / inject_Z (k ^ i)) +:+ " " +:+
    default "undefined" (sizes !! Z.to_nat i).

(** ** The record a backend returns from [storeFile] *)

Record StoredFile := {
  sf_id : string;
  sf_filename : string;
  sf_filetype : string;
  sf_size : Z;
  sf_category : string;
  sf_uploadDate : string;
  sf_username : string;
  sf_metadata : gmap string value;
  sf_data : option string;              (* present in the localStorage record only *)
  sf_storage : string
}.

(** [{...metadata, filename: file.name, size: file.size, filetype: file.type}],
    the metadata both backends record. *)
Definition record_metadata (metadata : gmap string value) (file : File)
  : gmap string value :=
  <["filetype" := VStr (file_type file)]>
    (<["size" := VNum (file_size file)]>
       (<["filename" := VStr (file_name file)]> metadata)).

(** ** IndexedDBBackend *)

Module IndexedDBBackend.

Definition maxSize : Z := 200 * 1024 * 1024 * 1024.
Definition type : string := "indexedDB".

(** A record of the object store 'files'. *)
Record FileData := {
  fd_id : string;
  fd_filename : string;
  fd_filetype : string;
  fd_size : Z;
  fd_category : string;
  fd_uploadDate : string;
  fd_username : string;
  fd_data : list Byte.byte
}.

(** A record of the object store 'metadata'. *)
Record MetadataRecord := {
  mr_id : string;
  mr_username : string;
  mr_metadata : gmap string value;
  mr_category : string;
  mr_uploadDate : string
}.

(** The database: two object stores, both with key path 'id'. *)
Record state := {
  os_files : gmap string FileData;
  os_metadata : gmap string MetadataRecord
}.

Definition empty : state := {| os_files := ∅; os_metadata := ∅ |}.

Definition constraint_error : DOMException :=
  {| exn_name := "ConstraintError"; exn_code := 0;
     exn_message := "Key already exists in the object store." |}.

(** [store.add(record)]: the request fails when the host refuses the
    write or when the key is taken. *)
Definition add {R : Type} (key : R -> string) (record : R)
    (denied : option DOMException) (store : gmap string R)
  : DOMException + gmap string R :=
  match denied with
  | Some e => inl e
  | None =>
      match store !! key record with
      | Some _ => inl constraint_error
      | None => inr (<[key record := record]> store)
      end
  end.

Definition generateFileId (h : Host) : string :=
  "idb_" +:+ h_now h +:+ "_" +:+ h_random h.

(** The message of the rejection raised by a request's [onerror]. *)
Definition request_error (what : string) (e : DOMException) : string :=
  if bool_decide (exn_name e = "QuotaExceededError") then quota_message
  else "Failed to store " +:+ what +:+ " in IndexedDB: " +:+ exn_message e.

(** [storeFile]. Both [add] requests belong to one 'readwrite'
    transaction; a failed request aborts it, which undoes the requests
    made before. The promise resolves in the success handler of the
    second request. *)
Definition storeFile (db : state) (username : string) (file : File)
    (category : string) (metadata : gmap string value) (h : Host)
  : outcome StoredFile * state :=
  match h_reader h with
  | Some e => (Rejected (exn_message e), db)
  | None =>
      let fileArrayBuffer := file_bytes file in
      let fileId := generateFileId h in
      let fileData :=
        {| fd_id := fileId; fd_filename := file_name file;
           fd_filetype := file_type file; fd_size := file_size file;
           fd_category := category; fd_uploadDate := h_date h 0%nat;
           fd_username := username; fd_data := fileArrayBuffer |} in
      let metadataRecord :=
        {| mr_id := fileId; mr_username := username;
           mr_metadata := record_metadata metadata file;
           mr_category := category; mr_uploadDate := h_date h 1%nat |} in
      match add fd_id fileData (h_request h 0%nat) (os_files db) with
      | inl e => (Rejected (request_error "file" e), db)
      | inr fileStore =>
          match add mr_id metadataRecord (h_request h 1%nat) (os_metadata db) with
          | inl e => (Rejected (request_error "metadata" e), db)
          | inr metadataStore =>
              (Resolved
                 {| sf_id := fileId; sf_filename := file_name file;
                    sf_filetype := file_type file; sf_size := file_size file;
                    sf_category := category; sf_uploadDate := h_date h 2%nat;
                    sf_username := username; sf_metadata := metadata;
                    sf_data := None; sf_storage := "IndexedDB" |},
               {| os_files := fileStore; os_metadata := metadataStore |})
          end
      end
  end.

(** The own properties of a 'files' record, for [{...fileData}]. *)
Definition fileData_fields (fd : FileData) : gmap string value :=
  <["id" := VStr (fd_id fd)]>
    (<["filename" := VStr (fd_filename fd)]>
       (<["filetype" := VStr (fd_filetype fd)]>
          (<["size" := VNum (fd_size fd)]>
             (<["category" := VStr (fd_category fd)]>
                (<["uploadDate" := VStr (fd_uploadDate fd)]>
                   (<["username" := VStr (fd_username fd)]>
                      (<["data" := VBytes (fd_data fd)]> ∅))))))).

(** [getFile]. A missing 'files' record rejects. With the 'files' record
    present and the 'metadata' record missing, [metadata.metadata] throws
    inside the success handler, where nothing catches it: the promise is
    never settled. *)
Definition getFile (db : state) (fileId : string) (h : Host)
  : outcome (gmap string value) :=
  match os_files db !! fileId with
  | None => Rejected "File not found in IndexedDB"
  | Some fileData =>
      match os_metadata db !! fileId with
      | None => Pending
      | Some metadataRecord =>
          Resolved
            (<["blob" := VBlob (fd_data fileData)]>
               (<["url" := VStr (h_url h)]>
                  (spread (fileData_fields fileData)
                     (mr_metadata metadataRecord))))
      end
  end.

(** [deleteFile]: two [delete] requests in one 'readwrite' transaction.
    Deleting a key that is not in the store is not an error; the promise
    resolves when the transaction completes. *)
Definition deleteFile (db : state) (fileId : string) (h : Host)
  : outcome bool * state :=
  match h_request h 0%nat, h_request h 1%nat with
  | None, None =>
      (Resolved true,
       {| os_files := delete fileId (os_files db);
          os_metadata := delete fileId (os_metadata db) |})
  | _, _ => (Rejected "Failed to delete file from IndexedDB", db)
  end.

End IndexedDBBackend.

(** ** LocalStorageBackend *)

Module LocalStorageBackend.

Definition maxSize : Z := 10 * 1024 * 1024.
Definition maxFileSize : Z := 5 * 1024 * 1024.
Definition type : string := "localStorage".

(** An element of the array kept per user under 'data_bhandaar_files'. *)
Record FileData := {
  fd_id : string;
  fd_filename : string;
  fd_filetype : string;
  fd_size : Z;
  fd_category : string;
  fd_uploadDate : string;
  fd_username : string;
  fd_metadata : gmap string value;
  fd_data : string                    (* the file as a data URL *)
}.

(** An entry of 'data_bhandaar_file_index'. *)
Record IndexEntry := {
  ie_username : string;
  ie_backend : string
}.

(** The two localStorage items as [JSON.parse] returns them. An absent
    item reads as [{}]. *)
Record state := {
  ls_files : gmap string (list FileData);
  ls_index : gmap string IndexEntry
}.

Definition empty : state := {| ls_files := ∅; ls_index := ∅ |}.

Definition generateFileId (h : Host) : string :=
  "ls_" +:+ h_now h +:+ "_" +:+ h_random h.

(** The [catch] blocks of [storeFile] and [saveToLocalStorage]. *)
Definition rethrow (e : DOMException) : string :=
  if is_quota_error e then quota_message else exn_message e.

(** An element as it is read back once [JSON.stringify(files)] was
    stored: of its fields only the metadata can hold a value that JSON
    has no notation for. *)
Definition stringified (fileData : FileData) : FileData :=
  {| fd_id := fd_id fileData; fd_filename := fd_filename fileData;
     fd_filetype := fd_filetype fileData; fd_size := fd_size fileData;
     fd_category := fd_category fileData;
     fd_uploadDate := fd_uploadDate fileData;
     fd_username := fd_username fileData;
     fd_metadata := json <$> fd_metadata fileData;
     fd_data := fd_data fileData |}.

(** Whether [files[username]] is an inherited property: [username] is no
    key of the parsed object itself but a name of [Object.prototype].
    What is found then is true in a condition and has none of the methods
    of an array. *)
Definition shadowed (files : gmap string (list FileData)) (username : string)
  : bool :=
  match files !! username with
  | Some _ => false
  | None => inherited username
  end.

(** [saveToLocalStorage]. For a user name that only reaches an inherited
    property, [files[username].push] is not a function and the [TypeError]
    is thrown before anything is written. Otherwise the two items are
    written one after the other, as JSON text, and either [setItem] can
    throw. The result is the message of the exception thrown, if any, and
    the items as they are left. *)
Definition saveToLocalStorage (st : state) (fileId : string)
    (fileData : FileData) (username : string) (h : Host)
  : option string * state :=
  if shadowed (ls_files st) username
  then (Some "files[username].push is not a function", st)
  else
    let files :=
      <[username :=
          default [] (ls_files st !! username) ++ [stringified fileData]]>
        (ls_files st) in
    let index :=
      <[fileId := {| ie_username := username; ie_backend := "localStorage" |}]>
        (ls_index st) in
    match h_setItem h 0%nat with
    | Some e => (Some (rethrow e), st)
    | None =>
        match h_setItem h 1%nat with
        | Some e =>
            (Some (rethrow e),
             {| ls_files := files; ls_index := ls_index st |})
        | None => (None, {| ls_files := files; ls_index := index |})
        end
    end.

(** The own properties of a stored element, for [{...fileData}]. *)
Definition fileData_fields (fd : FileData) : gmap string value :=
  <["id" := VStr (fd_id fd)]>
    (<["filename" := VStr (fd_filename fd)]>
       (<["filetype" := VStr (fd_filetype fd)]>
          (<["size" := VNum (fd_size fd)]>
             (<["category" := VStr (fd_category fd)]>
                (<["uploadDate" := VStr (fd_uploadDate fd)]>
                   (<["username" := VStr (fd_username fd)]>
                      (<["metadata" := VObj (fd_metadata fd)]>
                         (<["data" := VStr (fd_data fd)]> ∅)))))))).

Definition not_found : string := "File not found in localStorage".

(** [userFiles.find(f => f.id === fileId)]. *)
Definition find_by_id (userFiles : list FileData) (fileId : string)
  : option FileData :=
  List.find (fun f => bool_decide (fd_id f = fileId)) userFiles.

(** [deleteFile]. An id that is not in the index throws; so does
    [filter] on the inherited property that a user name without an array
    can reach. *)
Definition deleteFile (st : state) (fileId : string) (h : Host)
  : outcome bool * state :=
  match ls_index st !! fileId with
  | None => (Rejected not_found, st)
  | Some fileInfo =>
      if negb (bool_decide (ie_backend fileInfo = "localStorage"))
      then (Rejected not_found, st)
      else if shadowed (ls_files st) (ie_username fileInfo)
      then (Rejected "files[fileInfo.username].filter is not a function", st)
      else
        let files :=
          match ls_files st !! ie_username fileInfo with
          | Some userFiles =>
              <[ie_username fileInfo :=
                  List.filter
                    (fun f => negb (bool_decide (fd_id f = fileId)))
                    userFiles]> (ls_files st)
          | None => ls_files st
          end in
        let index := delete fileId (ls_index st) in
        match h_setItem h 0%nat with
        | Some e => (Rejected (exn_message e), st)
        | None =>
            match h_setItem h 1%nat with
            | Some e =>
                (Rejected (exn_message e),
                 {| ls_files := files; ls_index := ls_index st |})
            | None => (Resolved true, {| ls_files := files; ls_index := index |})
            end
        end
  end.

Section WithDataURL.
Context `{DataURL}.

(** [storeFile]. The size test comes before anything else is done. *)
Definition storeFile (st : state) (username : string) (file : File)
    (category : string) (metadata : gmap string value) (h : Host)
  : outcome StoredFile * state :=
  if file_size file >? maxFileSize then
    (Rejected ("File too large for localStorage. Max: " +:+
               formatFileSize maxFileSize), st)
  else
    match h_reader h with
    | Some e => (Rejected (rethrow e), st)
    | None =>
        let fileId := generateFileId h in
        let fileData :=
          {| fd_id := fileId; fd_filename := file_name file;
             fd_filetype := file_type file; fd_size := file_size file;
             fd_category := category; fd_uploadDate := h_date h 0%nat;
             fd_username := username;
             fd_metadata := record_metadata metadata file;
             fd_data := readAsDataURL file |} in
        match saveToLocalStorage st fileId fileData username h with
        | (None, st') =>
            (Resolved
               {| sf_id := fileId; sf_filename := file_name file;
                  sf_filetype := file_type file; sf_size := file_size file;
                  sf_category := category; sf_uploadDate := h_date h 0%nat;
                  sf_username := username;
                  sf_metadata := record_metadata metadata file;
                  sf_data := Some (readAsDataURL file);
                  sf_storage := "LocalStorage" |}, st')
        | (Some e, st') => (Rejected e, st')
        end
    end.

(** [getFile]. [files[fileInfo.username]] of a user without an array is
    [undefined], or an inherited property without a [find]; calling
    [find] on either throws a [TypeError]. *)
Definition getFile (st : state) (fileId : string) (h : Host)
  : outcome (gmap string value) :=
  match ls_index st !! fileId with
  | None => Rejected not_found
  | Some fileInfo =>
      if negb (bool_decide (ie_backend fileInfo = "localStorage"))
      then Rejected not_found
      else
        match ls_files st !! ie_username fileInfo with
        | None =>
            if inherited (ie_username fileInfo)
            then Rejected "userFiles.find is not a function"
            else
              Rejected "Cannot read properties of undefined (reading 'find')"
        | Some userFiles =>
            match find_by_id userFiles fileId with
            | None => Rejected not_found
            | Some fileData =>
                Resolved
                  (<["blob" := VBlob (fetch_blob (fd_data fileData))]>
                     (<["url" := VStr (h_url h)]>
                        (fileData_fields fileData)))
            end
        end
  end.

End WithDataURL.

End LocalStorageBackend.

(** ** StorageManager *)

Module StorageManager.

(** The elements of [this.backends]. *)
Inductive backend :=
  | IndexedDB (db : IndexedDBBackend.state)
  | LocalStorage (ls : LocalStorageBackend.state).

Definition backend_type (b : backend) : string :=
  match b with
  | IndexedDB _ => IndexedDBBackend.type
  | LocalStorage _ => LocalStorageBackend.type
  end.

Definition backend_maxSize (b : backend) : Z :=
  match b with
  | IndexedDB _ => IndexedDBBackend.maxSize
  | LocalStorage _ => LocalStorageBackend.maxSize
  end.

(** What the browser offers when the manager starts. *)
Inductive IndexedDBSupport :=
  | NoIndexedDB                               (* 'indexedDB' in window is false *)
  | OpenFails                                 (* indexedDB.open fires onerror *)
  | Opens (db : IndexedDBBackend.state).

(** [initializeBackends]: IndexedDB is pushed first, localStorage second.
    When opening the database fails, the [await] throws before anything
    is pushed. *)
Definition initializeBackends (idb : IndexedDBSupport)
    (ls : option LocalStorageBackend.state) : list backend :=
  let localStorageBackend :=
    match ls with Some st => [LocalStorage st] | None => [] end in
  match idb with
  | NoIndexedDB => localStorageBackend
  | OpenFails => []
  | Opens db => IndexedDB db :: localStorageBackend
  end.

Definition determineDirectory (category : string)
    (metadata : gmap string value) : string :=
  if includes category "JSON" then
    match metadata !! "jsonFormat" with
    | Some (VStr "sql") => "/json-sql/"
    | Some (VStr "nosql") => "/json-nosql/"
    | _ => "/json/"
    end
  else if includes category "MEDIA" then
    if includes category "IMAGE" then "/media/images/"
    else if includes category "VIDEO" then "/media/videos/"
    else if includes category "AUDIO" then "/media/audio/"
    else "/media/"
  else "/files/".

(** [new File([blob], file.name, {type: 'image/jpeg', ...})]. *)
Definition compressedFile (file : File) (blob : CanvasBlob) : File :=
  {| file_name := file_name file; file_type := "image/jpeg";
     file_size := blob_size blob; file_bytes := blob_bytes blob |}.

(** [compressImage]. The promise rejects ([inl]) or resolves ([inr]) with
    a file; the boolean tells whether that file is a new object or the
    argument itself, which is what [processedFile !== file] observes. *)
Definition compressImage (file : File) (h : Host) : string + File * bool :=
  match h_image h with
  | ImageError => inl "Failed to load image for compression"
  | ToBlob (Some blob) =>
      if blob_size blob <? file_size file
      then inr (compressedFile file blob, true)
      else inr (file, false)
  | ToBlob None => inr (file, false)
  end.

(** The first statement of [storeFile]: the file handed to the backend,
    and whether it differs from the incoming one. *)
Definition processedFile (file : File) (h : Host) : File * bool :=
  if startsWith (file_type file) "image/" && (file_size file >? 500 * 1024)
  then
    match compressImage file h with
    | inr processed => processed
    | inl _ => (file, false)
    end
  else (file, false).

Definition defined {A : Type} (x : option A) : bool :=
  match x with Some _ => true | None => false end.

(** [selectBackendForFile]; the result is the position in
    [this.backends] of the backend returned, [None] for [undefined]. *)
Definition selectBackendForFile (backends : list backend) (file : File)
  : option nat :=
  if defined (backends !! 0%nat) then Some 0%nat
  else if defined (backends !! 1%nat) && (file_size file <? 5 * 1024 * 1024)
  then Some 1%nat
  else if defined (backends !! 0%nat) then Some 0%nat
  else if defined (backends !! 1%nat) then Some 1%nat
  else None.

(** [{...metadata, originalSize: file.size, compressed: ..., directory}]. *)
Definition store_metadata (metadata : gmap string value) (file : File)
    (compressed : bool) (directory : string) : gmap string value :=
  <["directory" := VStr directory]>
    (<["compressed" := VBool compressed]>
       (<["originalSize" := VNum (file_size file)]> metadata)).

(** What [navigator.storage.estimate()] comes to: no Storage API, a
    rejected promise, or the two numbers. *)
Inductive StorageEstimate :=
  | NoStorageAPI
  | EstimateFails
  | Estimate (usage quota : Z).

Record QuotaInfo := {
  qi_usage : Z;
  qi_quota : Z;
  qi_available : Z
}.

(** [checkStorageQuota]; [percentUsed], which is only logged, is left
    out. *)
Definition checkStorageQuota (host : StorageEstimate) : option QuotaInfo :=
  match host with
  | Estimate usage quota =>
      Some {| qi_usage := usage; qi_quota := quota;
              qi_available := quota - usage |}
  | EstimateFails => None
  | NoStorageAPI => None
  end.

Record Admission := {
  canStore : bool;
  reason : option string
}.

Definition canStoreFile (host : StorageEstimate) (fileSize : Z) : Admission :=
  match checkStorageQuota host with
  | None => {| canStore := true; reason := None |}
  | Some quotaInfo =>
      let safetyMargin := 10 * 1024 * 1024 in
      let requiredSpace := fileSize + safetyMargin in
      if qi_available quotaInfo <? requiredSpace then
        {| canStore := false;
           reason :=
             Some ("Insufficient storage. File size: " +:+
                   formatFileSize fileSize +:+ ", Available: " +:+
                   formatFileSize (qi_available quotaInfo)) |}
      else {| canStore := true; reason := None |}
  end.

Section Operations.
Context `{DataURL}.

Definition backend_storeFile (b : backend) (username : string)
    (file : File) (category : string) (metadata : gmap string value)
    (h : Host) : outcome StoredFile * backend :=
  match b with
  | IndexedDB db =>
      let '(r, db') :=
        IndexedDBBackend.storeFile db username file category metadata h in
      (r, IndexedDB db')
  | LocalStorage st =>
      let '(r, st') :=
        LocalStorageBackend.storeFile st username file category metadata h in
      (r, LocalStorage st')
  end.

Definition backend_getFile (b : backend) (fileId : string) (h : Host)
  : outcome (gmap string value) :=
  match b with
  | IndexedDB db => IndexedDBBackend.getFile db fileId h
  | LocalStorage st => LocalStorageBackend.getFile st fileId h
  end.

Definition backend_deleteFile (b : backend) (fileId : string) (h : Host)
  : outcome bool * backend :=
  match b with
  | IndexedDB db =>
      let '(r, db') := IndexedDBBackend.deleteFile db fileId h in
      (r, IndexedDB db')
  | LocalStorage st =>
      let '(r, st') := LocalStorageBackend.deleteFile st fileId h in
      (r, LocalStorage st')
  end.

(** [storeFile]. With no backend at all, [backend.storeFile] is a
    property access on [undefined]. *)
Definition undefined_backend : string :=
  "Cannot read properties of undefined (reading 'storeFile')".

Definition storeFile (backends : list backend) (username : string)
    (file : File) (category : string) (metadata : gmap string value)
    (h : Host) : outcome StoredFile * list backend :=
  let '(processed, compressed) := processedFile file h in
  let directory := determineDirectory category metadata in
  match selectBackendForFile backends processed with
  | Some i =>
      match backends !! i with
      | Some backend =>
          let '(r, backend') :=
            backend_storeFile backend username processed category
              (store_metadata metadata file compressed directory) h in
          (r, <[i := backend']> backends)
      | None => (Rejected undefined_backend, backends)
      end
  | None => (Rejected undefined_backend, backends)
  end.

(** [getFile]: the loop over [this.backends]. *)
Fixpoint getFile (backends : list backend) (fileId : string) (h : Host)
  : outcome (gmap string value) :=
  match backends with
  | [] => Rejected "File not found in any storage backend"
  | backend :: rest =>
      match backend_getFile backend fileId h with
      | Resolved file => Resolved file
      | Rejected _ => getFile rest fileId h
      | Pending => Pending
      end
  end.

(** [deleteFile]: the loop over [this.backends], with its flag; the
    result is the flag and the backends as the loop leaves them. *)
Fixpoint deleteFile_loop (backends : list backend) (fileId : string)
    (h : Host) (deleted : bool) : outcome bool * list backend :=
  match backends with
  | [] => (Resolved deleted, [])
  | backend :: rest =>
      match backend_deleteFile backend fileId h with
      | (Resolved _, backend') =>
          let '(r, rest') := deleteFile_loop rest fileId h true in
          (r, backend' :: rest')
      | (Rejected _, backend') =>
          let '(r, rest') := deleteFile_loop rest fileId h deleted in
          (r, backend' :: rest')
      | (Pending, backend') => (Pending, backend' :: rest)
      end
  end.

Definition deleteFile (backends : list backend) (fileId : string)
    (h : Host) : outcome bool * list backend :=
  deleteFile_loop backends fileId h false.

End Operations.

(** A file as [getUserFiles] lists it (no payload). *)
Record Summary := {
  s_id : string;
  s_filename : string;
  s_filetype : string;
  s_size : Z;
  s_category : string;
  s_uploadDate : string;
  s_username : string;
  s_metadata : gmap string value
}.

Record BackendStats := {
  bs_type : string;
  bs_fileCount : nat;
  bs_totalSize : Z;
  bs_maxSize : Z
}.

Record StorageStats := {
  fileCount : nat;
  totalSize : Z;
  usedPercentage : string;
  categories : list string;
  backendStats : list BackendStats
}.

(** [[...new Set(xs)]]: the first occurrence of each element, in order. *)
Definition set_order (xs : list string) : list string :=
  fold_left (fun acc x => if bool_decide (x ∈ acc) then acc else acc ++ [x])
    xs [].

(** [files.reduce((sum, file) => sum + file.size, 0)]. *)
Definition sum_sizes (files : list Summary) : Z :=
  fold_left (fun sum file => sum + s_size file) files 0.

Section Listing.
(** [backend.getUserFiles(username)] of either backend: it throws
    ([inl]) or returns the user's summaries ([inr]). *)
Variable backend_getUserFiles : backend -> string -> string + list Summary.

(** The body of the inner loop of [getUserFiles], on the pair
    [(allFiles, seenFileIds)]. *)
Definition add_unseen (acc : list Summary * gset string) (file : Summary)
  : list Summary * gset string :=
  if bool_decide (s_id file ∈ acc.2) then acc
  else (acc.1 ++ [file], {[s_id file]} ∪ acc.2).

(** The body of the outer loop: a backend that throws is skipped. *)
Definition add_backend (username : string)
    (acc : list Summary * gset string) (b : backend)
  : list Summary * gset string :=
  match backend_getUserFiles b username with
  | inr files => fold_left add_unseen files acc
  | inl _ => acc
  end.

Definition getUserFiles (backends : list backend) (username : string)
  : list Summary :=
  (fold_left (add_backend username) backends ([], ∅)).1.

(** [getStats] of either backend. *)
Definition backend_getStats (b : backend) (username : string)
  : string + BackendStats :=
  match backend_getUserFiles b username with
  | inr files =>
      inr {| bs_type := backend_type b; bs_fileCount := length files;
             bs_totalSize := sum_sizes files;
             bs_maxSize := backend_maxSize b |}
  | inl e => inl e
  end.

Definition getStorageStats (backends : list backend) (username : string)
  : StorageStats :=
  let files := getUserFiles backends username in
  let totalSize := sum_sizes files in
  {| fileCount := length files;
     totalSize := totalSize;
     usedPercentage :=
       toFixed
         (Qmin (inject_Z totalSize / inject_Z (1024 * 1024 * 1024) * 100)
            100) 1;
     categories := set_order (map s_category files);
     backendStats :=
       omap (fun b =>
               match backend_getStats b username with
               | inr stats => Some stats
               | inl _ => None
               end) backends |}.

End Listing.

End StorageManager.

(** ** The caller's admission check *)

(** [Array.from(files).reduce((sum, file) => sum + file.size, 0)], the total
    [storeAndProcessFiles] hands to [canStoreFile]. *)
Definition batch_totalSize (files : list File) : Z :=
  fold_left (fun sum file => sum + file_size file) files 0.

(** ** Conditions on values *)

Module Conditions.

(** Whether a value counts as true in a condition. *)
Definition truthy (v : value) : bool :=
  match v with
  | VNull => false
  | VNum z => negb (z =? 0)
  | VStr s => negb (bool_decide (s = ""))
  | VBool b => b
  | VArr _ | VObj _ | VBytes _ | VBlob _ => true
  end.

(** [a?.key] for the keys read by the listings ('intelligentAnalysis',
    'filename', 'mainType', 'filetype', 'size'); [None] is [undefined].
    Of the values other than plain objects only a Blob has one of them,
    its 'size'; [blobs] tells whether the store can hold a Blob at all
    (IndexedDB can; what [JSON.parse] returns holds none). *)
Definition prop (blobs : bool) (a : option value) (key : string)
  : option value :=
  match a with
  | Some (VObj fields) => fields !! key
  | Some (VBlob bytes) =>
      if blobs && bool_decide (key = "size")
      then Some (VNum (Z.of_nat (length bytes)))
      else None
  | _ => None
  end.

(** [a || b]. *)
Definition or_else (a b : option value) : option value :=
  match a with
  | Some v => if truthy v then a else b
  | None => b
  end.

(** [a || b] with a constant [b]. *)
Definition or_value (a : option value) (b : value) : value :=
  match a with
  | Some v => if truthy v then v else b
  | None => b
  end.

End Conditions.

(** ** Listing a user's files *)

(** An element of the array [getUserFiles] of a backend resolves with. *)
Record ListedFile := {
  l_id : string;
  l_filename : value;
  l_filetype : value;
  l_size : value;
  l_category : string;
  l_uploadDate : string;
  l_username : string;
  l_metadata : gmap string value
}.

Module IndexedDBListing.

(** The order of the keys of an object store. *)
Definition key_le (a b : string * IndexedDBBackend.MetadataRecord) : Prop :=
  String.leb a.1 b.1 = true.

#[global] Instance key_le_dec : RelDecision key_le :=
  fun a b => decide (String.leb a.1 b.1 = true).

(** [store.index('username').getAll(username)]: the records of the user,
    by ascending key. The ids the backend generates are ASCII, and on
    those the order of the bytes is the order IndexedDB gives its keys. *)
Definition getAll (store : gmap string IndexedDBBackend.MetadataRecord)
    (username : string) : list IndexedDBBackend.MetadataRecord :=
  List.filter
    (fun item => bool_decide (IndexedDBBackend.mr_username item = username))
    (snd <$> merge_sort key_le (map_to_list store)).

(** The body of the [map] in [getUserFiles]. *)
Definition listed (item : IndexedDBBackend.MetadataRecord) : ListedFile :=
  let metadata := IndexedDBBackend.mr_metadata item in
  let analysis := metadata !! "intelligentAnalysis" in
  {| l_id := IndexedDBBackend.mr_id item;
     l_filename :=
       Conditions.or_value
         (Conditions.or_else (Conditions.prop true analysis "filename")
            (metadata !! "filename"))
         (VStr "file");
     l_filetype :=
       Conditions.or_value
         (Conditions.or_else (Conditions.prop true analysis "mainType")
            (metadata !! "filetype"))
         (VStr "unknown");
     l_size :=
       Conditions.or_value
         (Conditions.or_else (Conditions.prop true analysis "size")
            (metadata !! "size"))
         (VNum 0);
     l_category := IndexedDBBackend.mr_category item;
     l_uploadDate := IndexedDBBackend.mr_uploadDate item;
     l_username := IndexedDBBackend.mr_username item;
     l_metadata := metadata |}.

Definition getUserFiles (db : IndexedDBBackend.state) (username : string)
  : list ListedFile :=
  listed <$> getAll (IndexedDBBackend.os_metadata db) username.

End IndexedDBListing.

Module LocalStorageListing.

(** The body of the [map] in [getUserFiles]. *)
Definition listed (file : LocalStorageBackend.FileData) : ListedFile :=
  let metadata := LocalStorageBackend.fd_metadata file in
  let analysis := metadata !! "intelligentAnalysis" in
  {| l_id := LocalStorageBackend.fd_id file;
     l_filename :=
       Conditions.or_value
         (Conditions.or_else
            (Conditions.or_else (Conditions.prop false analysis "filename")
               (metadata !! "filename"))
            (Some (VStr (LocalStorageBackend.fd_filename file))))
         (VStr "file");
     l_filetype :=
       Conditions.or_value
         (Conditions.or_else
            (Conditions.or_else (Conditions.prop false analysis "mainType")
               (metadata !! "filetype"))
            (Some (VStr (LocalStorageBackend.fd_filetype file))))
         (VStr "unknown");
     l_size :=
       Conditions.or_value
         (Conditions.or_else
            (Conditions.or_else (Conditions.prop false analysis "size")
               (metadata !! "size"))
            (Some (VNum (LocalStorageBackend.fd_size file))))
         (VNum 0);
     l_category := LocalStorageBackend.fd_category file;
     l_uploadDate := LocalStorageBackend.fd_uploadDate file;
     l_username := LocalStorageBackend.fd_username file;
     l_metadata := metadata |}.

(** [getUserFiles]: a user without an array has no files, unless the
    name reaches an inherited property, which has no [map]: the call
    throws ([inl]). *)
Definition getUserFiles (st : LocalStorageBackend.state) (username : string)
  : string + list ListedFile :=
  match LocalStorageBackend.ls_files st !! username with
  | Some userFiles => inr (listed <$> userFiles)
  | None =>
      if inherited username then inl "userFiles.map is not a function"
      else inr []
  end.

End LocalStorageListing.

(** What [getUserFiles] of either backend lists; nothing if it throws. *)
Definition backend_listing (b : StorageManager.backend) (username : string)
  : list ListedFile :=
  match b with
  | StorageManager.IndexedDB db => IndexedDBListing.getUserFiles db username
  | StorageManager.LocalStorage st =>
      match LocalStorageListing.getUserFiles st username with
      | inr files => files
      | inl _ => []
      end
  end.

(** ** Searching *)

Module Search.

Section WithLowerCase.
(** [String.prototype.toLowerCase]. *)
Variable toLowerCase : string -> string.
Variable backend_getUserFiles :
  StorageManager.backend -> string -> string + list StorageManager.Summary.

(** The predicate of the [filter] of [searchFiles]. The description is
    looked at only when neither name nor category matches; a description
    that is true in a condition and not a string has no [toLowerCase], and
    calling it throws ([inl]). *)
Definition matches (searchTerm : string) (file : StorageManager.Summary)
  : string + bool :=
  if includes (toLowerCase (StorageManager.s_filename file)) searchTerm
  then inr true
  else if includes (toLowerCase (StorageManager.s_category file)) searchTerm
  then inr true
  else
    match StorageManager.s_metadata file !! "description" with
    | None => inr false
    | Some description =>
        if Conditions.truthy description then
          match description with
          | VStr text => inr (includes (toLowerCase text) searchTerm)
          | _ =>
              inl "file.metadata.description.toLowerCase is not a function"
          end
        else inr false
    end.

(** [files.filter(...)]: the first exception ends it. *)
Fixpoint filter_matches (searchTerm : string)
    (files : list StorageManager.Summary)
  : string + list StorageManager.Summary :=
  match files with
  | [] => inr []
  | file :: rest =>
      match matches searchTerm file with
      | inl e => inl e
      | inr keep =>
          match filter_matches searchTerm rest with
          | inl e => inl e
          | inr kept => inr (if keep then file :: kept else kept)
          end
      end
  end.

Definition searchFiles (backends : list StorageManager.backend)
    (username query : string) : string + list StorageManager.Summary :=
  let files :=
    StorageManager.getUserFiles backend_getUserFiles backends username in
  let searchTerm := toLowerCase query in
  filter_matches searchTerm files.

End WithLowerCase.

End Search.

(** ** IntelligentDataProcessor *)

Module IntelligentDataProcessor.

Section WithAnalyzers.
Context `{DataURL}.

(** What the analysis reads off the file's type, name and content, and the
    clock and the case conversion of the browser. *)
Variable detectFileType : File -> gmap string value.
Variable analyzeJsonContent : File -> gmap string value.
Variable analyzeMediaContent : File -> gmap string value -> gmap string value.
Variable lastModified : File -> value.
Variable toUpperCase : string -> string.
Variable uploadedAt : string.

(** [analyzeFile]. *)
Definition analyzeFile (file : File) : gmap string value :=
  let fileType := detectFileType file in
  let detailedAnalysis :=
    match fileType !! "mainType" with
    | Some (VStr "json") => analyzeJsonContent file
    | Some (VStr "media") => analyzeMediaContent file fileType
    | _ => ∅
    end in
  <["lastModified" := lastModified file]>
    (<["size" := VNum (file_size file)]>
       (<["filename" := VStr (file_name file)]>
          (spread fileType detailedAnalysis))).

(** [analysis.<what>.toUpperCase()]; only a string has the method. *)
Definition upper (what : string) (v : option value) : string + string :=
  match v with
  | Some (VStr s) => inr (toUpperCase s)
  | Some VNull => inl "Cannot read properties of null (reading 'toUpperCase')"
  | Some _ => inl ("analysis." +:+ what +:+ ".toUpperCase is not a function")
  | None => inl "Cannot read properties of undefined (reading 'toUpperCase')"
  end.

(** [generateCategory]. *)
Definition generateCategory (analysis : gmap string value) : string + string :=
  let subType := upper "subType" (analysis !! "subType") in
  let tagged (tag : string) : string + string :=
    match subType with
    | inr s => inr (tag +:+ "_" +:+ s)
    | inl e => inl e
    end in
  match analysis !! "mainType" with
  | Some (VStr "media") => tagged "MEDIA"
  | Some (VStr "json") =>
      match subType with
      | inr s =>
          match upper "contentCategory" (analysis !! "contentCategory") with
          | inr c => inr ("JSON_" +:+ s +:+ "_" +:+ c)
          | inl e => inl e
          end
      | inl e => inl e
      end
  | Some (VStr "database") => tagged "DATABASE"
  | Some (VStr "document") => tagged "DOCUMENT"
  | Some (VStr "archive") => tagged "ARCHIVE"
  | _ => tagged "UNKNOWN"
  end.

(** [storeFile]: an exception of [generateCategory] rejects before the
    storage system is called. *)
Definition storeFile (backends : list StorageManager.backend)
    (username : string) (file : File) (metadata : gmap string value)
    (h : Host) : outcome StoredFile * list StorageManager.backend :=
  let analysis := analyzeFile file in
  match generateCategory analysis with
  | inl message => (Rejected message, backends)
  | inr category =>
      StorageManager.storeFile backends username file category
        (<["uploadedAt" := VStr uploadedAt]>
           (<["intelligentAnalysis" := VObj analysis]> metadata)) h
  end.

End WithAnalyzers.

End IntelligentDataProcessor.

(** ** The file cards *)

Section FileCards.

(** The last line of [formatCategoryLabel]: underscores to spaces, lower
    case, first letter of each word in upper case. *)
Variable titleCase : string -> string.

(** [formatCategoryLabel]: the first rule whose text the category contains
    gives the label. *)
Definition formatCategoryLabel (category : string) : string :=
  if includes category "MEDIA_IMAGE" then "Image"
  else if includes category "MEDIA_VIDEO" then "Video"
  else if includes category "MEDIA_AUDIO" then "Audio"
  else if includes category "MEDIA_" then "Media"
  else if includes category "JSON_SQL" then "JSON (SQL Format)"
  else if includes category "JSON_NOSQL" then "JSON (NoSQL Format)"
  else if includes category "JSON_GENERIC" then "JSON (Generic)"
  else if includes category "JSON_UNKNOWN" then "JSON"
  else if includes category "JSON_" then "JSON"
  else if includes category "DATABASE_SQL" then "SQL Database"
  else if includes category "DATABASE_SQLITE" then "SQLite Database"
  else if includes category "DATABASE_" then "Database"
  else if includes category "DOCUMENT_PDF" then "PDF Document"
  else if includes category "DOCUMENT_TEXT" then "Text File"
  else if includes category "DOCUMENT_CSV" then "CSV File"
  else if includes category "DOCUMENT_WORD" then "Word Document"
  else if includes category "DOCUMENT_" then "Document"
  else if includes category "ARCHIVE_ZIP" then "ZIP Archive"
  else if includes category "ARCHIVE_RAR" then "RAR Archive"
  else if includes category "ARCHIVE_TAR" then "TAR Archive"
  else if includes category "ARCHIVE_GZIP" then "GZIP Archive"
  else if includes category "ARCHIVE_" then "Archive"
  else if includes category "UNKNOWN" then "Unknown File"
  else titleCase category.

End FileCards.

(** ** Inputs of the worked examples *)

(** A data-URL codec with one character per byte. *)
Definition raw_DataURL : DataURL :=
  {| readAsDataURL := fun f => String.string_of_list_byte (file_bytes f);
     fetch_blob := String.list_byte_of_string;
     fetch_readAsDataURL :=
       fun f => String.list_byte_of_string_of_list_byte (file_bytes f) |}.

(** A browser in which nothing fails and the canvas yields [blob]. *)
Definition host_with (blob : option CanvasBlob) (now random : string) : Host :=
  {| h_image := ToBlob blob; h_now := now; h_random := random;
     h_date := fun _ => "2024-01-01T00:00:00.000Z";
     h_reader := None; h_request := fun _ => None; h_setItem := fun _ => None;
     h_url := "blob:vault" |}.

Definition quiet_host : Host := host_with None "1700000000000" "k3x9q2m1z".

Definition notes_txt : File :=
  {| file_name := "notes.txt"; file_type := "text/plain"; file_size := 3;
     file_bytes := [Byte.x61; Byte.x62; Byte.x63] |}.

(** A photo of 600 KiB and the 200 KiB the encoder makes of it; of the
    bytes only the first few are written out. *)
Definition photo_png : File :=
  {| file_name := "photo.png"; file_type := "image/png";
     file_size := 600 * 1024; file_bytes := [Byte.x89; Byte.x50; Byte.x4e; Byte.x47] |}.

Definition photo_jpeg : CanvasBlob :=
  {| blob_size := 200 * 1024; blob_bytes := [Byte.xff; Byte.xd8; Byte.xff] |}.

(** A video of 6 MiB, likewise. *)
Definition clip_mp4 : File :=
  {| file_name := "clip.mp4"; file_type := "video/mp4";
     file_size := 6 * 1024 * 1024; file_bytes := [Byte.x00; Byte.x00; Byte.x00; Byte.x18] |}.

(** A manager started in a browser that has both stores, both empty. *)
Definition fresh_vault : list StorageManager.backend :=
  StorageManager.initializeBackends
    (StorageManager.Opens IndexedDBBackend.empty)
    (Some LocalStorageBackend.empty).

(** A manager started in a browser without IndexedDB. *)
Definition localStorage_vault : list StorageManager.backend :=
  StorageManager.initializeBackends StorageManager.NoIndexedDB
    (Some LocalStorageBackend.empty).

(** The browser in which the encoder turns the photo into [photo_jpeg]. *)
Definition photo_host : Host :=
  host_with (Some photo_jpeg) "1700000000000" "k3x9q2m1z".

Definition summary (fileId filename : string) (size : Z)
  : StorageManager.Summary :=
  {| StorageManager.s_id := fileId; StorageManager.s_filename := filename;
     StorageManager.s_filetype := "document"; StorageManager.s_size := size;
     StorageManager.s_category := "DOCUMENT_TXT";
     StorageManager.s_uploadDate := "2024-01-01T00:00:00.000Z";
     StorageManager.s_username := "asha"; StorageManager.s_metadata := ∅ |}.

(** Listings in which the file "ls_1_b" shows up in both backends. *)
Definition two_copies (b : StorageManager.backend) (username : string)
  : string + list StorageManager.Summary :=
  match b with
  | StorageManager.IndexedDB _ =>
      inr [summary "idb_1_a" "movie.mkv" (64 * 1024 * 1024 - 13);
           summary "ls_1_b" "notes (migrated).txt" 10]
  | StorageManager.LocalStorage _ =>
      inr [summary "ls_1_b" "notes.txt" 10; summary "ls_2_c" "todo.txt" 3]
  end.

(** The manager of [fresh_vault] after the photo was stored. *)
Definition vault_with_photo : list StorageManager.backend :=
  (@StorageManager.storeFile raw_DataURL fresh_vault "asha" photo_png
     "MEDIA_IMAGE" ∅ photo_host).2.

(** The manager of [localStorage_vault] after the text file was stored. *)
Definition vault_with_notes : list StorageManager.backend :=
  (@StorageManager.storeFile raw_DataURL localStorage_vault "asha" notes_txt
     "DOCUMENT_TXT" ∅ quiet_host).2.

(** The exception of a browser whose storage is full. *)
Definition quota_exceeded : DOMException :=
  {| exn_name := "QuotaExceededError"; exn_code := 22;
     exn_message := "The quota has been exceeded." |}.

(** A browser that refuses every write for lack of space. *)
Definition full_disk_host : Host :=
  {| h_image := ToBlob None; h_now := "1700000000000"; h_random := "k3x9q2m1z";
     h_date := fun _ => "2024-01-01T00:00:00.000Z";
     h_reader := None; h_request := fun _ => Some quota_exceeded;
     h_setItem := fun _ => Some quota_exceeded; h_url := "blob:vault" |}.

(** A browser that accepts the first [setItem] and refuses the second. *)
Definition nearly_full_host : Host :=
  {| h_image := ToBlob None; h_now := "1700000000000"; h_random := "k3x9q2m1z";
     h_date := fun _ => "2024-01-01T00:00:00.000Z";
     h_reader := None; h_request := fun _ => None;
     h_setItem := fun k => match k with O => None | S _ => Some quota_exceeded end;
     h_url := "blob:vault" |}.


(** Upper case for the letters a to z, which is what [toUpperCase] does to
    the sub-types the analysis produces. *)
Definition upper_letter (c : Ascii.ascii) : Ascii.ascii :=
  let n := Ascii.nat_of_ascii c in
  if (97 <=? n)%nat && (n <=? 122)%nat then Ascii.ascii_of_nat (n - 32) else c.

Fixpoint upper_letters (s : string) : string :=
  match s with
  | EmptyString => EmptyString
  | String c rest => String (upper_letter c) (upper_letters rest)
  end.

(** An analysis that finds an image, as [detectFileType] does for a file
    of type 'image/png'. *)
Definition image_analysis (file : File) : gmap string value :=
  <["mainType" := VStr "media"]>
    (<["subType" := VStr "image"]>
       (<["confidence" := VNum 95]>
          (<["filename" := VStr (file_name file)]>
             (<["size" := VNum (file_size file)]> ∅)))).

(** The media analysis of an image that the browser could not load. *)
Definition unloaded_image (file : File) (fileType : gmap string value)
  : gmap string value :=
  <["subType" := default VNull (fileType !! "subType")]>
    (<["size" := VNum (file_size file)]>
       (<["dimensions" := VNull]> (<["duration" := VNull]> ∅))).
(** ** Vocabulary of the properties *)

(** The margin of [canStoreFile]. *)
Definition safetyMargin : Z := 10 * 1024 * 1024.

(** Some user's array in localStorage holds an element with the id. *)
Definition held_in_localStorage (st : LocalStorageBackend.state)
    (fileId : string) : Prop :=
  exists username userFiles fileData,
    LocalStorageBackend.ls_files st !! username = Some userFiles
    /\ fileData ∈ userFiles
    /\ LocalStorageBackend.fd_id fileData = fileId.

(** The id is new to the backend that takes the file: a localStorage
    backend at the head of [this.backends] holds no element with it. (An
    IndexedDB backend refuses a key that is taken, so nothing is asked of
    it.) *)
Definition new_id (backends : list StorageManager.backend) (fileId : string)
  : Prop :=
  forall st,
    backends !! 0%nat = Some (StorageManager.LocalStorage st) ->
    ~ held_in_localStorage st fileId.

(** Where a fetched file carries the metadata recorded with it: IndexedDB
    spreads it over the result, localStorage keeps it under 'metadata'. *)
Definition fetched_metadata (storage : string) (got : gmap string value)
    (key : string) : option value :=
  if bool_decide (storage = "IndexedDB") then got !! key
  else
    match got !! "metadata" with
    | Some (VObj metadata) => metadata !! key
    | _ => None
    end.

(** A value of the metadata as the backend keeps it. IndexedDB stores a
    structured clone, which is the value. localStorage stores JSON text:
    a Blob or an ArrayBuffer is read back as [{}], null, a number, a
    string and a boolean as they were, an array or an object with its
    members treated likewise. *)
Definition as_stored (storage : string) (v : value) : value :=
  if bool_decide (storage = "IndexedDB") then v
  else
    match v with
    | VBlob _ | VBytes _ => VObj ∅
    | VNull | VNum _ | VStr _ | VBool _ => v
    | VArr _ | VObj _ => json v
    end.

(** The backend has no file under the id: no record in 'files', or no
    entry in the index. *)
Definition absent (b : StorageManager.backend) (fileId : string) : Prop :=
  match b with
  | StorageManager.IndexedDB db => IndexedDBBackend.os_files db !! fileId = None
  | StorageManager.LocalStorage st =>
      LocalStorageBackend.ls_index st !! fileId = None
  end.

(** The backend's [getFile] rejects. *)
Definition rejects `{DataURL} (b : StorageManager.backend) (fileId : string)
    (h : Host) : Prop :=
  exists message, StorageManager.backend_getFile b fileId h = Rejected message.

(** The promise resolved. *)
Definition resolves {A : Type} (p : outcome A) : bool :=
  match p with Resolved _ => true | _ => false end.

(** Every id of 'files' has a record in 'metadata' with that id. *)
Definition paired (db : IndexedDBBackend.state) : Prop :=
  forall fileId,
    is_Some (IndexedDBBackend.os_files db !! fileId) ->
    exists metadataRecord,
      IndexedDBBackend.os_metadata db !! fileId = Some metadataRecord
      /\ IndexedDBBackend.mr_id metadataRecord = fileId.

(** One state-changing operation of the IndexedDB backend, with any
    arguments and in any browser. *)
Inductive indexedDB_step : relation IndexedDBBackend.state :=
  | step_storeFile db username file category metadata h :
      indexedDB_step db
        (IndexedDBBackend.storeFile db username file category metadata h).2
  | step_deleteFile db fileId h :
      indexedDB_step db (IndexedDBBackend.deleteFile db fileId h).2.

(** What a backend lists; nothing if its [getUserFiles] throws. *)
Definition listed
    (backend_getUserFiles :
       StorageManager.backend -> string -> string + list StorageManager.Summary)
    (b : StorageManager.backend) (username : string)
  : list StorageManager.Summary :=
  match backend_getUserFiles b username with
  | inr files => files
  | inl _ => []
  end.

(** The files in the order in which the loops of [getUserFiles] come to
    them: backend after backend, each in the order it lists. *)
Definition visited
    (backend_getUserFiles :
       StorageManager.backend -> string -> string + list StorageManager.Summary)
    (backends : list StorageManager.backend) (username : string)
  : list StorageManager.Summary :=
  backends ≫= (fun b => listed backend_getUserFiles b username).

(** The first of [files] with the given id. *)
Definition first_with_id (files : list StorageManager.Summary)
    (fileId : string) : option StorageManager.Summary :=
  List.find (fun f => bool_decide (StorageManager.s_id f = fileId)) files.

(** A list without the later entries of a repeated id: a file stays, and
    the files with its id are struck from what follows it. *)
Fixpoint first_of_each_id (files : list StorageManager.Summary)
  : list StorageManager.Summary :=
  match files with
  | [] => []
  | file :: rest =>
      file
      :: List.filter
           (fun later =>
              negb (bool_decide
                      (StorageManager.s_id later = StorageManager.s_id file)))
           (first_of_each_id rest)
  end.

(** The bytes the files of a list hold together. *)
Definition total_bytes (files : list StorageManager.Summary) : Z :=
  foldr Z.add 0 (StorageManager.s_size <$> files).

(** The ids of a list of summaries. *)
Definition ids (files : list StorageManager.Summary) : list string :=
  StorageManager.s_id <$> files.

(** The loop state of [getUserFiles]: the set holds exactly the ids of the
    files collected, and no id was collected twice. *)
Definition collected (acc : list StorageManager.Summary * gset string) : Prop :=
  NoDup (ids acc.1) /\ forall fileId, fileId ∈ acc.2 <-> fileId ∈ ids acc.1.

(** No write is refused by the browser: neither a request of an IndexedDB
    transaction nor a [localStorage.setItem]. *)
Definition writes_succeed (h : Host) : Prop :=
  (forall k, h_request h k = None) /\ (forall k, h_setItem h k = None).

(** Every entry of the localStorage index names this backend and leads to
    an element with its id in the array of the user it names. *)
Definition indexed (st : LocalStorageBackend.state) : Prop :=
  forall fileId fileInfo,
    LocalStorageBackend.ls_index st !! fileId = Some fileInfo ->
    LocalStorageBackend.ie_backend fileInfo = "localStorage"
    /\ exists userFiles fileData,
         LocalStorageBackend.ls_files st
         !! LocalStorageBackend.ie_username fileInfo = Some userFiles
         /\ LocalStorageBackend.find_by_id userFiles fileId = Some fileData.

(** The keys the manager, the backends and [getFile] write themselves. *)
Definition reserved_keys : list string :=
  ["originalSize"; "compressed"; "directory"; "filename"; "size"; "filetype";
   "url"; "blob"].


(** Every record of 'metadata' is kept under its own id and has a record
    in 'files'. *)
Definition catalogued (db : IndexedDBBackend.state) : Prop :=
  forall fileId metadataRecord,
    IndexedDBBackend.os_metadata db !! fileId = Some metadataRecord ->
    IndexedDBBackend.mr_id metadataRecord = fileId
    /\ is_Some (IndexedDBBackend.os_files db !! fileId).
(** * Properties *)

(** ** Admission control *)

(** C4: [canStoreFile] admits exactly when no quota information is to be
    had, or when the available bytes are at least the candidate bytes plus
    the 10 MiB margin (equality included); it refuses exactly when it
    gives a reason. *)
Theorem canStoreFile_admission (host : StorageManager.StorageEstimate)
    (fileSize : Z) :
  (StorageManager.canStore (StorageManager.canStoreFile host fileSize) = true
   <-> StorageManager.checkStorageQuota host = None
       \/ exists quotaInfo,
            StorageManager.checkStorageQuota host = Some quotaInfo
            /\ fileSize + safetyMargin <= StorageManager.qi_available quotaInfo)
  /\ (StorageManager.canStore (StorageManager.canStoreFile host fileSize) = false
      <-> is_Some (StorageManager.reason
                     (StorageManager.canStoreFile host fileSize))).
Proof.
  unfold StorageManager.canStoreFile, safetyMargin.
  destruct (StorageManager.checkStorageQuota host) as [q|] eqn:Hq; cbn.
  - destruct (Z.ltb_spec (StorageManager.qi_available q)
                (fileSize + 10 * 1024 * 1024)) as [Hlt|Hge]; cbn.
    + repeat split; try done; eauto.
      intros [Hnone | (q' & Hq' & Hle)]; [done|].
      injection Hq' as <-. lia.
    + repeat split; try done.
      intros _. right. exists q. split; [done | lia].
  - repeat split; try done; eauto.
Qed.

(** The boundary of C4 on numbers: with exactly candidate + margin bytes
    available the file is admitted, with one byte less it is not. *)
Example canStoreFile_boundary :
  StorageManager.canStoreFile
    (StorageManager.Estimate 1000 (1000 + 4096 + safetyMargin)) 4096
  = {| StorageManager.canStore := true; StorageManager.reason := None |}
  /\ StorageManager.canStoreFile
       (StorageManager.Estimate 1001 (1000 + 4096 + safetyMargin)) 4096
     = {| StorageManager.canStore := false;
          StorageManager.reason :=
            Some "Insufficient storage. File size: 4 KB, Available: 10 MB" |}.
Proof. split; vm_compute; reflexivity. Qed.

(** ** The per-file cap of the localStorage backend *)

Lemma formatFileSize_maxFileSize :
  formatFileSize LocalStorageBackend.maxFileSize = "5 MB".
Proof. vm_compute. reflexivity. Qed.

(** Shared by the results on the cap and on backend selection. *)
Lemma oversized_rejected `{DataURL} (st : LocalStorageBackend.state)
    (username : string) (file : File) (category : string)
    (metadata : gmap string value) (h : Host) :
  LocalStorageBackend.maxFileSize < file_size file ->
  LocalStorageBackend.storeFile st username file category metadata h
  = (Rejected "File too large for localStorage. Max: 5 MB", st).
Proof.
  intros Hbig. unfold LocalStorageBackend.storeFile.
  rewrite formatFileSize_maxFileSize.
  destruct (Z.gtb_spec (file_size file) LocalStorageBackend.maxFileSize);
    [reflexivity | lia].
Qed.

(** C7: a file strictly larger than 5 MiB is refused by the localStorage
    backend with the message "File too large for localStorage. Max: 5 MB",
    whatever the browser would have done, and the two stored items are
    left as they were. *)
Theorem localStorage_rejects_oversized `{DataURL}
    (st : LocalStorageBackend.state) (username : string) (file : File)
    (category : string) (metadata : gmap string value) (h : Host) :
  5 * 1024 * 1024 < file_size file ->
  LocalStorageBackend.storeFile st username file category metadata h
  = (Rejected "File too large for localStorage. Max: 5 MB", st).
Proof.
  intros Hbig. unfold LocalStorageBackend.storeFile.
  change LocalStorageBackend.maxFileSize with (5 * 1024 * 1024).
  destruct (Z.gtb_spec (file_size file) (5 * 1024 * 1024)) as [_|Hsmall];
    [|lia].
  change (5 * 1024 * 1024) with LocalStorageBackend.maxFileSize.
  rewrite formatFileSize_maxFileSize. reflexivity.
Qed.

Lemma localStorage_rejects_oversized_witness :
  5 * 1024 * 1024 < file_size clip_mp4
  /\ @LocalStorageBackend.storeFile raw_DataURL LocalStorageBackend.empty
       "asha" clip_mp4 "MEDIA_VIDEO" ∅ quiet_host
     = (Rejected "File too large for localStorage. Max: 5 MB",
        LocalStorageBackend.empty).
Proof.
  split; [vm_compute; reflexivity|].
  apply (@localStorage_rejects_oversized raw_DataURL).
  vm_compute. reflexivity.
Defined.

(** At the cap itself the file is accepted: the test is [>]. *)
Example localStorage_accepts_at_cap :
  exists r st,
    @LocalStorageBackend.storeFile raw_DataURL LocalStorageBackend.empty
      "asha"
      {| file_name := "five.bin"; file_type := "application/octet-stream";
         file_size := 5 * 1024 * 1024; file_bytes := [Byte.x00] |}
      "UNKNOWN_UNKNOWN" ∅ quiet_host
    = (Resolved r, st)
    /\ sf_id r = "ls_1700000000000_k3x9q2m1z".
Proof. eexists _, _. split; reflexivity. Qed.

(** ** Backend selection *)

Lemma selectBackendForFile_first (backends : list StorageManager.backend)
    (file : File) :
  StorageManager.selectBackendForFile backends file
  = match backends with [] => None | _ :: _ => Some 0%nat end.
Proof. destruct backends as [|b [|b' rest]]; reflexivity. Qed.

(** Against C2 as it is worded: where IndexedDB is missing, the
    localStorage backend is selected for a file of 6 MiB, which is above
    its cap. *)
Lemma selection_ignores_cap :
  ~ (forall (backends : list StorageManager.backend) (file : File) i st,
       StorageManager.selectBackendForFile backends file = Some i ->
       backends !! i = Some (StorageManager.LocalStorage st) ->
       file_size file <= LocalStorageBackend.maxFileSize).
Proof.
  intros Hclaim.
  specialize
    (Hclaim
       (StorageManager.initializeBackends StorageManager.NoIndexedDB
          (Some LocalStorageBackend.empty))
       clip_mp4 0%nat LocalStorageBackend.empty eq_refl eq_refl).
  vm_compute in Hclaim. apply Hclaim. reflexivity.
Qed.

(** [storeFile] hands the file, compressed or not, to the first backend
    and to no other. *)
Lemma storeFile_first_backend `{DataURL} (b : StorageManager.backend)
    (rest : list StorageManager.backend) (username : string) (file : File)
    (category : string) (metadata : gmap string value) (h : Host) :
  StorageManager.storeFile (b :: rest) username file category metadata h
  = let '(r, b') :=
      StorageManager.backend_storeFile b username
        (StorageManager.processedFile file h).1 category
        (StorageManager.store_metadata metadata file
           (StorageManager.processedFile file h).2
           (StorageManager.determineDirectory category metadata)) h in
    (r, b' :: rest).
Proof.
  unfold StorageManager.storeFile.
  destruct (StorageManager.processedFile file h) as [processed compressed].
  rewrite selectBackendForFile_first. cbn [lookup list_lookup fst snd].
  by destruct (StorageManager.backend_storeFile _ _ _ _ _ _).
Qed.

Lemma storeFile_without_backend `{DataURL} (username : string) (file : File)
    (category : string) (metadata : gmap string value) (h : Host) :
  StorageManager.storeFile [] username file category metadata h
  = (Rejected "Cannot read properties of undefined (reading 'storeFile')", []).
Proof.
  unfold StorageManager.storeFile.
  by destruct (StorageManager.processedFile file h).
Qed.

(** C2, amended: the backend selected for the (possibly compressed) file
    is the first of [this.backends] whenever there is one, and [storeFile]
    hands the file to that backend and to no other. That is the IndexedDB
    backend if the browser has it; otherwise it is the localStorage
    backend, whatever the size of the file, and a file that is above the
    cap after compression is then refused by that backend's own
    [storeFile], which is what the manager's [storeFile] rejects with.
    With no backend nothing is selected and [storeFile] rejects. *)
Theorem selectBackendForFile_rule `{DataURL} (file : File) :
  (forall backends,
     StorageManager.selectBackendForFile backends file
     = match backends with [] => None | _ :: _ => Some 0%nat end)
  /\ (forall b rest username category metadata h,
        StorageManager.storeFile (b :: rest) username file category metadata h
        = let '(r, b') :=
            StorageManager.backend_storeFile b username
              (StorageManager.processedFile file h).1 category
              (StorageManager.store_metadata metadata file
                 (StorageManager.processedFile file h).2
                 (StorageManager.determineDirectory category metadata)) h in
          (r, b' :: rest))
  /\ (forall st username category metadata h,
        LocalStorageBackend.maxFileSize
        < file_size (StorageManager.processedFile file h).1 ->
        StorageManager.storeFile
          (StorageManager.initializeBackends StorageManager.NoIndexedDB
             (Some st))
          username file category metadata h
        = (Rejected "File too large for localStorage. Max: 5 MB",
           StorageManager.initializeBackends StorageManager.NoIndexedDB
             (Some st)))
  /\ (forall ls username category metadata h,
        StorageManager.storeFile
          (StorageManager.initializeBackends StorageManager.OpenFails ls)
          username file category metadata h
        = (Rejected "Cannot read properties of undefined (reading 'storeFile')",
           []))
  /\ (forall username category metadata h,
        StorageManager.storeFile
          (StorageManager.initializeBackends StorageManager.NoIndexedDB None)
          username file category metadata h
        = (Rejected "Cannot read properties of undefined (reading 'storeFile')",
           []))
  /\ (forall db ls,
        let backends :=
          StorageManager.initializeBackends (StorageManager.Opens db) ls in
        StorageManager.selectBackendForFile backends file
          ≫= (fun i => backends !! i)
        = Some (StorageManager.IndexedDB db))
  /\ (forall st,
        let backends :=
          StorageManager.initializeBackends StorageManager.NoIndexedDB
            (Some st) in
        StorageManager.selectBackendForFile backends file
          ≫= (fun i => backends !! i)
        = Some (StorageManager.LocalStorage st)
        /\ (LocalStorageBackend.maxFileSize < file_size file ->
            forall username category metadata h,
              StorageManager.backend_storeFile (StorageManager.LocalStorage st)
                username file category metadata h
              = (Rejected "File too large for localStorage. Max: 5 MB",
                 StorageManager.LocalStorage st)))
  /\ (forall ls,
        StorageManager.selectBackendForFile
          (StorageManager.initializeBackends StorageManager.OpenFails ls) file
        = None)
  /\ StorageManager.selectBackendForFile
       (StorageManager.initializeBackends StorageManager.NoIndexedDB None)
       file
     = None.
Proof.
  split; [intros; apply selectBackendForFile_first|].
  split; [intros; apply storeFile_first_backend|].
  split.
  { intros st username category metadata h Hbig.
    cbn [StorageManager.initializeBackends app].
    rewrite storeFile_first_backend. cbn [StorageManager.backend_storeFile].
    rewrite oversized_rejected by done. reflexivity. }
  split; [intros [st|] *; apply storeFile_without_backend|].
  split; [intros; apply storeFile_without_backend|].
  split; [intros db [st|]; reflexivity|].
  split; [|split; [intros [?|]|]; reflexivity].
  intros st backends. split; [reflexivity|].
  intros Hbig username category metadata h. cbn.
  rewrite oversized_rejected by done. reflexivity.
Qed.

(** ** Store, then fetch *)

Lemma indexedDB_store_then_get (db db' : IndexedDBBackend.state)
    (username : string) (file : File) (category : string)
    (metadata : gmap string value) (h h' : Host) (r : StoredFile) :
  IndexedDBBackend.storeFile db username file category metadata h
  = (Resolved r, db') ->
  exists fileData metadataRecord,
    IndexedDBBackend.os_files db' !! sf_id r = Some fileData
    /\ IndexedDBBackend.os_metadata db' !! sf_id r = Some metadataRecord
    /\ IndexedDBBackend.fd_data fileData = file_bytes file
    /\ IndexedDBBackend.mr_metadata metadataRecord
       = record_metadata metadata file
    /\ sf_size r = file_size file
    /\ sf_metadata r = metadata.
Proof.
  unfold IndexedDBBackend.storeFile, IndexedDBBackend.add.
  destruct (h_reader h); [discriminate|].
  destruct (h_request h 0%nat); [discriminate|].
  destruct (IndexedDBBackend.os_files db !! _); [discriminate|].
  destruct (h_request h 1%nat); [discriminate|].
  destruct (IndexedDBBackend.os_metadata db !! _); [discriminate|].
  intros [= <- <-]. cbn.
  eexists _, _. rewrite !lookup_insert_eq. repeat split; reflexivity.
Qed.

Lemma find_by_id_fresh (userFiles : list LocalStorageBackend.FileData)
    (fileData : LocalStorageBackend.FileData) :
  (forall f, f ∈ userFiles ->
             LocalStorageBackend.fd_id f <> LocalStorageBackend.fd_id fileData) ->
  LocalStorageBackend.find_by_id (userFiles ++ [fileData])
    (LocalStorageBackend.fd_id fileData)
  = Some fileData.
Proof.
  unfold LocalStorageBackend.find_by_id.
  induction userFiles as [|f rest IH]; intros Hfresh; cbn.
  - rewrite bool_decide_eq_true_2 by reflexivity. reflexivity.
  - rewrite bool_decide_eq_false_2 by (apply Hfresh; left).
    apply IH. intros g Hg. apply Hfresh. right. exact Hg.
Qed.

(** What [getFile] finds once [saveToLocalStorage] has written both
    items for an element with an unused id. *)
Lemma localStorage_get_saved `{DataURL} (st : LocalStorageBackend.state)
    (fileData : LocalStorageBackend.FileData) (username : string) (h' : Host) :
  ~ held_in_localStorage st (LocalStorageBackend.fd_id fileData) ->
  LocalStorageBackend.getFile
    {| LocalStorageBackend.ls_files :=
         <[username :=
             default [] (LocalStorageBackend.ls_files st !! username)
             ++ [fileData]]> (LocalStorageBackend.ls_files st);
       LocalStorageBackend.ls_index :=
         <[LocalStorageBackend.fd_id fileData :=
             {| LocalStorageBackend.ie_username := username;
                LocalStorageBackend.ie_backend := "localStorage" |}]>
           (LocalStorageBackend.ls_index st) |}
    (LocalStorageBackend.fd_id fileData) h'
  = Resolved
      (<["blob" := VBlob (fetch_blob (LocalStorageBackend.fd_data fileData))]>
         (<["url" := VStr (h_url h')]>
            (LocalStorageBackend.fileData_fields fileData))).
Proof.
  intros Hfresh. unfold LocalStorageBackend.getFile.
  cbn [LocalStorageBackend.ls_files LocalStorageBackend.ls_index].
  rewrite lookup_insert_eq.
  cbn [LocalStorageBackend.ie_backend LocalStorageBackend.ie_username].
  rewrite bool_decide_eq_true_2 by reflexivity.
  cbn [negb]. rewrite lookup_insert_eq, find_by_id_fresh; [reflexivity|].
  intros f Hf Heq. apply Hfresh.
  destruct (LocalStorageBackend.ls_files st !! username) as [userFiles|] eqn:Hu;
    cbn in Hf.
  - exists username, userFiles, f. done.
  - inversion Hf.
Qed.

Lemma localStorage_store_then_get `{DataURL}
    (st st' : LocalStorageBackend.state) (username : string) (file : File)
    (category : string) (metadata : gmap string value) (h h' : Host)
    (r : StoredFile) :
  LocalStorageBackend.storeFile st username file category metadata h
  = (Resolved r, st') ->
  ~ held_in_localStorage st (sf_id r) ->
  exists fileData,
    LocalStorageBackend.getFile st' (sf_id r) h'
    = Resolved
        (<["blob" := VBlob (file_bytes file)]>
           (<["url" := VStr (h_url h')]>
              (LocalStorageBackend.fileData_fields fileData)))
    /\ LocalStorageBackend.fd_metadata fileData
       = json <$> record_metadata metadata file
    /\ sf_size r = file_size file
    /\ sf_metadata r = record_metadata metadata file.
Proof.
  unfold LocalStorageBackend.storeFile, LocalStorageBackend.saveToLocalStorage.
  destruct (file_size file >? _); [discriminate|].
  destruct (h_reader h); [discriminate|].
  destruct (LocalStorageBackend.shadowed _ _); [discriminate|].
  destruct (h_setItem h 0%nat); [discriminate|].
  destruct (h_setItem h 1%nat); [discriminate|].
  intros [= <- <-] Hfresh. cbn [sf_id sf_size sf_metadata] in *.
  match goal with
  | |- context [default [] _ ++ [?fd]] =>
      exists fd; rewrite (localStorage_get_saved st fd username h' Hfresh)
  end.
  cbn [LocalStorageBackend.fd_data LocalStorageBackend.fd_metadata
       LocalStorageBackend.stringified].
  rewrite fetch_readAsDataURL. repeat split; reflexivity.
Qed.

Lemma store_metadata_originalSize (metadata : gmap string value) (file p : File)
    (compressed : bool) (directory : string) :
  record_metadata
    (StorageManager.store_metadata metadata file compressed directory) p
  !! "originalSize" = Some (VNum (file_size file)).
Proof.
  unfold record_metadata, StorageManager.store_metadata.
  by simplify_map_eq.
Qed.

Lemma store_metadata_lookup (metadata : gmap string value) (file : File)
    (compressed : bool) (directory : string) :
  StorageManager.store_metadata metadata file compressed directory
  !! "originalSize" = Some (VNum (file_size file))
  /\ StorageManager.store_metadata metadata file compressed directory
     !! "compressed" = Some (VBool compressed).
Proof. unfold StorageManager.store_metadata. by simplify_map_eq. Qed.

Lemma record_metadata_compressed (metadata : gmap string value) (file p : File)
    (compressed : bool) (directory : string) :
  record_metadata
    (StorageManager.store_metadata metadata file compressed directory) p
  !! "compressed" = Some (VBool compressed).
Proof.
  unfold record_metadata, StorageManager.store_metadata.
  by simplify_map_eq.
Qed.

(** A successful [storeFile] followed by [getFile] of the id returned. *)
Lemma store_then_get `{DataURL} (backends backends' : list StorageManager.backend)
    (username : string) (file : File) (category : string)
    (metadata : gmap string value) (h h' : Host) (r : StoredFile) :
  StorageManager.storeFile backends username file category metadata h
  = (Resolved r, backends') ->
  new_id backends (sf_id r) ->
  exists got,
    StorageManager.getFile backends' (sf_id r) h' = Resolved got
    /\ got !! "blob"
       = Some (VBlob (file_bytes (StorageManager.processedFile file h).1))
    /\ fetched_metadata (sf_storage r) got "originalSize"
       = Some (VNum (file_size file))
    /\ sf_size r = file_size (StorageManager.processedFile file h).1
    /\ sf_metadata r !! "compressed"
       = Some (VBool (StorageManager.processedFile file h).2)
    /\ sf_metadata r !! "originalSize" = Some (VNum (file_size file)).
Proof.
  unfold StorageManager.storeFile.
  destruct (StorageManager.processedFile file h) as [processed compressed].
  rewrite selectBackendForFile_first.
  destruct backends as [|b rest]; [discriminate|].
  cbn [lookup list_lookup fst snd].
  destruct b as [db|st]; cbn [StorageManager.backend_storeFile].
  - destruct (IndexedDBBackend.storeFile _ _ _ _ _ _) as [r0 db'] eqn:Hstore.
    intros [= -> <-] _.
    pose proof Hstore as Hr.
    apply (indexedDB_store_then_get _ _ _ _ _ _ h h') in Hstore
      as (fileData & metadataRecord & Hf & Hm & Hdata & Hmeta & Hsize & Hsf).
    assert (sf_storage r = "IndexedDB") as Hstorage.
    { revert Hr. unfold IndexedDBBackend.storeFile.
      repeat case_match; try discriminate. by intros [= <- _]. }
    cbn [StorageManager.getFile StorageManager.backend_getFile list_insert insert].
    unfold IndexedDBBackend.getFile. rewrite Hf, Hm.
    eexists. split; [reflexivity|].
    unfold fetched_metadata. rewrite Hstorage, Hdata, Hmeta, Hsize, Hsf.
    rewrite bool_decide_eq_true_2 by reflexivity.
    split_and!.
    + apply lookup_insert_eq.
    + rewrite !lookup_insert_ne by done. unfold spread.
      apply lookup_union_Some_l, store_metadata_originalSize.
    + reflexivity.
    + apply store_metadata_lookup.
    + apply store_metadata_lookup.
  - destruct (LocalStorageBackend.storeFile _ _ _ _ _ _) as [r0 st'] eqn:Hstore.
    intros [= -> <-] Hfresh.
    pose proof Hstore as Hr.
    apply (localStorage_store_then_get _ _ _ _ _ _ h h') in Hstore
      as (fileData & Hget & Hmeta & Hsize & Hsf);
      [|by apply Hfresh].
    assert (sf_storage r = "LocalStorage") as Hstorage.
    { revert Hr. unfold LocalStorageBackend.storeFile.
      repeat case_match; try discriminate. by intros [= <- _]. }
    cbn [StorageManager.getFile StorageManager.backend_getFile list_insert insert].
    rewrite Hget. eexists. split; [reflexivity|].
    unfold fetched_metadata. rewrite Hstorage, Hsize, Hsf.
    rewrite bool_decide_eq_false_2 by discriminate.
    split_and!.
    + apply lookup_insert_eq.
    + rewrite !lookup_insert_ne by done.
      unfold LocalStorageBackend.fileData_fields.
      rewrite !lookup_insert_ne, lookup_insert_eq by done.
      rewrite Hmeta, lookup_fmap, store_metadata_originalSize. reflexivity.
    + reflexivity.
    + apply record_metadata_compressed.
    + apply store_metadata_originalSize.
Qed.

(** ** Compression before storing *)


Lemma processedFile_cases (file : File) (h : Host) :
  StorageManager.processedFile file h = (file, false)
  \/ exists blob,
       startsWith (file_type file) "image/" = true
       /\ 500 * 1024 < file_size file
       /\ h_image h = ToBlob (Some blob)
       /\ blob_size blob < file_size file
       /\ StorageManager.processedFile file h
          = (StorageManager.compressedFile file blob, true).
Proof.
  unfold StorageManager.processedFile, StorageManager.compressImage.
  destruct (startsWith (file_type file) "image/"); [|by left].
  destruct (Z.gtb_spec (file_size file) (500 * 1024)); [|by left].
  destruct (h_image h) as [|[blob|]]; [by left| |by left].
  destruct (Z.ltb_spec (blob_size blob) (file_size file)); [|by left].
  right. exists blob. split_and!; (reflexivity || lia).
Qed.




(** The photo of 600 KiB is stored as the 200 KiB the encoder made of it;
    the text file is stored as it is. *)
Example processedFile_photo :
  StorageManager.processedFile photo_png
    (host_with (Some photo_jpeg) "1700000000000" "k3x9q2m1z")
  = ({| file_name := "photo.png"; file_type := "image/jpeg";
        file_size := 200 * 1024;
        file_bytes := [Byte.xff; Byte.xd8; Byte.xff] |}, true)
  /\ StorageManager.processedFile notes_txt
       (host_with (Some photo_jpeg) "1700000000000" "k3x9q2m1z")
     = (notes_txt, false).
Proof. split; reflexivity. Qed.

(** ** Round trip *)

(** C1: after a successful [storeFile], [getFile] of the id returned
    resolves, the id being new to the backend that took the file. If no
    compression was applied its blob holds the bytes of the file that was
    stored; if compression was applied its blob holds the bytes of the
    compressed image. In both cases the size of the incoming file is found
    as 'originalSize' in the metadata recorded with the file. *)
Theorem store_fetch_roundtrip `{DataURL}
    (backends backends' : list StorageManager.backend) (username : string)
    (file : File) (category : string) (metadata : gmap string value)
    (h h' : Host) (r : StoredFile) :
  StorageManager.storeFile backends username file category metadata h
  = (Resolved r, backends') ->
  new_id backends (sf_id r) ->
  exists got,
    StorageManager.getFile backends' (sf_id r) h' = Resolved got
    /\ fetched_metadata (sf_storage r) got "originalSize"
       = Some (VNum (file_size file))
    /\ ((sf_metadata r !! "compressed" = Some (VBool false)
         /\ got !! "blob" = Some (VBlob (file_bytes file)))
        \/ (exists blob,
              sf_metadata r !! "compressed" = Some (VBool true)
              /\ h_image h = ToBlob (Some blob)
              /\ blob_size blob < file_size file
              /\ got !! "blob" = Some (VBlob (blob_bytes blob)))).
Proof.
  intros Hstore Hfresh.
  destruct (store_then_get _ _ _ _ _ _ h h' r Hstore Hfresh)
    as (got & Hget & Hblob & Horiginal & _ & Hflag & _).
  exists got. split_and!; [done..|].
  destruct (processedFile_cases file h)
    as [Hsame | (blob & _ & _ & Himage & Hsmaller & Hcompressed)].
  - left. rewrite Hsame in Hblob, Hflag. done.
  - right. exists blob. rewrite Hcompressed in Hblob, Hflag. done.
Qed.

Lemma localStorage_vault_new_id (fileId : string) :
  new_id localStorage_vault fileId.
Proof.
  intros st [= <-] (username & userFiles & fileData & Hfiles & _).
  cbn in Hfiles. by rewrite lookup_empty in Hfiles.
Qed.

Lemma store_fetch_roundtrip_witness :
  exists r backends',
    @StorageManager.storeFile raw_DataURL localStorage_vault "asha" notes_txt
      "DOCUMENT_TXT" ∅ quiet_host
    = (Resolved r, backends')
    /\ new_id localStorage_vault (sf_id r)
    /\ exists got,
         @StorageManager.getFile raw_DataURL backends' (sf_id r) quiet_host
         = Resolved got
         /\ fetched_metadata (sf_storage r) got "originalSize"
            = Some (VNum (file_size notes_txt))
         /\ ((sf_metadata r !! "compressed" = Some (VBool false)
              /\ got !! "blob" = Some (VBlob (file_bytes notes_txt)))
             \/ (exists blob,
                   sf_metadata r !! "compressed" = Some (VBool true)
                   /\ h_image quiet_host = ToBlob (Some blob)
                   /\ blob_size blob < file_size notes_txt
                   /\ got !! "blob" = Some (VBlob (blob_bytes blob)))).
Proof.
  eexists _, _. split; [reflexivity|].
  split; [apply localStorage_vault_new_id|].
  apply (@store_fetch_roundtrip raw_DataURL localStorage_vault _ "asha"
           notes_txt "DOCUMENT_TXT" ∅ quiet_host quiet_host).
  - reflexivity.
  - apply localStorage_vault_new_id.
Defined.

(** ** Fetching across backends *)

Section Fetching.
Context `{DataURL}.

Lemma absent_rejects (b : StorageManager.backend) (fileId : string) (h : Host) :
  absent b fileId -> rejects b fileId h.
Proof.
  destruct b as [db|st]; cbn; intros Habsent; unfold rejects; cbn.
  - unfold IndexedDBBackend.getFile. rewrite Habsent. eauto.
  - unfold LocalStorageBackend.getFile. rewrite Habsent. eauto.
Qed.

Lemma getFile_skips_rejections (skipped rest : list StorageManager.backend)
    (fileId : string) (h : Host) :
  Forall (fun b => rejects b fileId h) skipped ->
  StorageManager.getFile (skipped ++ rest) fileId h
  = StorageManager.getFile rest fileId h.
Proof.
  induction 1 as [|b skipped [message Hb] _ IH]; cbn; [reflexivity|].
  rewrite Hb. exact IH.
Qed.

Lemma getFile_not_found (backends : list StorageManager.backend)
    (fileId : string) (h : Host) :
  Forall (fun b => rejects b fileId h) backends ->
  StorageManager.getFile backends fileId h
  = Rejected "File not found in any storage backend".
Proof.
  intros Hall. rewrite <- (app_nil_r backends).
  rewrite getFile_skips_rejections by exact Hall. reflexivity.
Qed.

Lemma getFile_resolved_inv (backends : list StorageManager.backend)
    (fileId : string) (h : Host) (file : gmap string value) :
  StorageManager.getFile backends fileId h = Resolved file ->
  exists skipped b rest,
    backends = skipped ++ b :: rest
    /\ Forall (fun b' => rejects b' fileId h) skipped
    /\ StorageManager.backend_getFile b fileId h = Resolved file.
Proof.
  induction backends as [|b backends IH]; cbn; [discriminate|].
  destruct (StorageManager.backend_getFile b fileId h) as [got|message|] eqn:Hb.
  - intros [= ->]. exists [], b, backends. split_and!; [done|constructor|done].
  - intros Hrest. destruct (IH Hrest) as (skipped & b' & rest & -> & Hsk & Hb').
    exists (b :: skipped), b', rest. split_and!; [done| |done].
    constructor; [by exists message|done].
  - discriminate.
Qed.

(** C6: [getFile] returns what the first backend that resolves returns,
    the backends before it having rejected; a rejecting backend is passed
    over and the ones after it are still asked; and when every backend
    rejects, as each does when it has no file under the id, the result is
    the rejection "File not found in any storage backend", never a file. *)
Theorem getFile_first_hit (fileId : string) (h : Host) :
  (forall skipped b rest file,
     Forall (fun b' => rejects b' fileId h) skipped ->
     StorageManager.backend_getFile b fileId h = Resolved file ->
     StorageManager.getFile (skipped ++ b :: rest) fileId h = Resolved file)
  /\ (forall backends file,
        StorageManager.getFile backends fileId h = Resolved file ->
        exists skipped b rest,
          backends = skipped ++ b :: rest
          /\ Forall (fun b' => rejects b' fileId h) skipped
          /\ StorageManager.backend_getFile b fileId h = Resolved file)
  /\ (forall b rest,
        rejects b fileId h ->
        StorageManager.getFile (b :: rest) fileId h
        = StorageManager.getFile rest fileId h)
  /\ (forall backends,
        Forall (fun b => rejects b fileId h) backends ->
        StorageManager.getFile backends fileId h
        = Rejected "File not found in any storage backend")
  /\ (forall backends,
        Forall (fun b => absent b fileId) backends ->
        StorageManager.getFile backends fileId h
        = Rejected "File not found in any storage backend").
Proof.
  split_and!.
  - intros skipped b rest file Hskipped Hb.
    rewrite getFile_skips_rejections by exact Hskipped. cbn. by rewrite Hb.
  - intros backends file. apply getFile_resolved_inv.
  - intros b rest Hb.
    apply (getFile_skips_rejections [b] rest). by constructor.
  - intros backends. apply getFile_not_found.
  - intros backends Habsent. apply getFile_not_found.
    eapply Forall_impl; [exact Habsent|]. intros b. apply absent_rejects.
Qed.

End Fetching.

(** ** Deleting across backends *)

Lemma backend_deleteFile_settles (b : StorageManager.backend)
    (fileId : string) (h : Host) :
  (StorageManager.backend_deleteFile b fileId h).1 <> Pending.
Proof.
  destruct b as [db|st]; unfold StorageManager.backend_deleteFile.
  - unfold IndexedDBBackend.deleteFile.
    destruct (h_request h 0%nat), (h_request h 1%nat); cbn; discriminate.
  - unfold LocalStorageBackend.deleteFile.
    repeat case_match; simplify_eq; cbn; discriminate.
Qed.

(** The flag [deleteFile] returns and the backends it leaves: the flag is
    set exactly if the promise of some backend resolved. *)
Lemma deleteFile_loop_flag (backends : list StorageManager.backend)
    (fileId : string) (h : Host) (deleted : bool) :
  StorageManager.deleteFile_loop backends fileId h deleted
  = (Resolved
       (deleted
        || existsb (fun b => resolves (StorageManager.backend_deleteFile b fileId h).1)
             backends),
     map (fun b => (StorageManager.backend_deleteFile b fileId h).2) backends).
Proof.
  revert deleted. induction backends as [|b backends IH]; intros deleted; cbn.
  - by rewrite orb_false_r.
  - pose proof (backend_deleteFile_settles b fileId h) as Hsettles.
    destruct (StorageManager.backend_deleteFile b fileId h) as [[ok|message|] b'];
      cbn in *; [| |done].
    + rewrite IH. by rewrite orb_true_r.
    + rewrite IH. reflexivity.
Qed.

Lemma indexedDB_deleteFile_resolves (db : IndexedDBBackend.state)
    (fileId : string) (h : Host) :
  h_request h 0%nat = None -> h_request h 1%nat = None ->
  (IndexedDBBackend.deleteFile db fileId h).1 = Resolved true.
Proof.
  intros H0 H1. unfold IndexedDBBackend.deleteFile. by rewrite H0, H1.
Qed.

(** C3, on the code: in a manager whose two stores are empty, so that the
    id is absent from both, [deleteFile] resolves with [true]. The
    IndexedDB backend answers [true] for any id; the localStorage backend
    rejects with "File not found in localStorage". *)
Theorem deleteFile_absent_id_reports_success :
  Forall (fun b => absent b "idb_1700000000000_k3x9q2m1z") fresh_vault
  /\ IndexedDBBackend.deleteFile IndexedDBBackend.empty
       "idb_1700000000000_k3x9q2m1z" quiet_host
     = (Resolved true, IndexedDBBackend.empty)
  /\ LocalStorageBackend.deleteFile LocalStorageBackend.empty
       "idb_1700000000000_k3x9q2m1z" quiet_host
     = (Rejected "File not found in localStorage", LocalStorageBackend.empty)
  /\ StorageManager.deleteFile fresh_vault "idb_1700000000000_k3x9q2m1z"
       quiet_host
     = (Resolved true, fresh_vault).
Proof.
  split_and!; try reflexivity.
  repeat constructor.
Qed.

(** What does hold of [deleteFile]: every backend is asked, the promise
    always resolves, and it resolves with [true] exactly if the promise of
    at least one backend resolved. With an IndexedDB backend whose
    transaction completes that is the case for every id. *)
Lemma deleteFile_flag (backends : list StorageManager.backend)
    (fileId : string) (h : Host) :
  exists deleted,
    StorageManager.deleteFile backends fileId h
    = (Resolved deleted,
       map (fun b => (StorageManager.backend_deleteFile b fileId h).2) backends)
    /\ (deleted = true
        <-> exists b,
              b ∈ backends
              /\ resolves (StorageManager.backend_deleteFile b fileId h).1 = true).
Proof.
  unfold StorageManager.deleteFile. rewrite deleteFile_loop_flag. cbn.
  eexists. split; [reflexivity|].
  rewrite existsb_exists. setoid_rewrite <- list_elem_of_In. reflexivity.
Qed.

Lemma deleteFile_with_indexedDB (db : IndexedDBBackend.state)
    (rest : list StorageManager.backend) (fileId : string) (h : Host) :
  h_request h 0%nat = None -> h_request h 1%nat = None ->
  (StorageManager.deleteFile (StorageManager.IndexedDB db :: rest) fileId h).1
  = Resolved true.
Proof.
  intros H0 H1. unfold StorageManager.deleteFile.
  rewrite deleteFile_loop_flag. cbn.
  unfold IndexedDBBackend.deleteFile. by rewrite H0, H1.
Qed.


(** ** Pairing of the two object stores *)

Lemma paired_empty : paired IndexedDBBackend.empty.
Proof. intros fileId [fd Hfd]. cbn in Hfd. by rewrite lookup_empty in Hfd. Qed.

(** [storeFile] writes both records or neither. *)
Lemma indexedDB_storeFile_atomic (db : IndexedDBBackend.state)
    (username : string) (file : File) (category : string)
    (metadata : gmap string value) (h : Host) :
  let result :=
    IndexedDBBackend.storeFile db username file category metadata h in
  (exists message, result = (Rejected message, db))
  \/ exists r fileData metadataRecord,
       result
       = (Resolved r,
          {| IndexedDBBackend.os_files :=
               <[sf_id r := fileData]> (IndexedDBBackend.os_files db);
             IndexedDBBackend.os_metadata :=
               <[sf_id r := metadataRecord]> (IndexedDBBackend.os_metadata db) |})
       /\ IndexedDBBackend.fd_id fileData = sf_id r
       /\ IndexedDBBackend.mr_id metadataRecord = sf_id r
       /\ IndexedDBBackend.os_files db !! sf_id r = None
       /\ IndexedDBBackend.os_metadata db !! sf_id r = None.
Proof.
  unfold IndexedDBBackend.storeFile, IndexedDBBackend.add. cbn zeta.
  destruct (h_reader h); [left; eauto|].
  destruct (h_request h 0%nat); [left; eauto|].
  destruct (IndexedDBBackend.os_files db !! _) eqn:Hfiles; [left; eauto|].
  destruct (h_request h 1%nat); [left; eauto|].
  destruct (IndexedDBBackend.os_metadata db !! _) eqn:Hmetadata; [left; eauto|].
  right. cbn [IndexedDBBackend.fd_id IndexedDBBackend.mr_id] in *.
  match goal with
  | |- context [(Resolved ?r,
                 {| IndexedDBBackend.os_files := <[_ := ?fd]> _;
                    IndexedDBBackend.os_metadata := <[_ := ?mr]> _ |})] =>
      exists r, fd, mr
  end.
  done.
Qed.

Lemma storeFile_preserves_paired (db : IndexedDBBackend.state)
    (username : string) (file : File) (category : string)
    (metadata : gmap string value) (h : Host) :
  paired db ->
  paired (IndexedDBBackend.storeFile db username file category metadata h).2.
Proof.
  intros Hpaired.
  destruct (indexedDB_storeFile_atomic db username file category metadata h)
    as [[message ->] | (r & fd & mr & -> & _ & Hid & _ & _)]; [exact Hpaired|].
  intros fileId. cbn.
  destruct (decide (fileId = sf_id r)) as [->|Hne].
  - intros _. exists mr. by rewrite lookup_insert_eq.
  - rewrite !lookup_insert_ne by done. apply Hpaired.
Qed.

Lemma deleteFile_preserves_paired (db : IndexedDBBackend.state)
    (fileId : string) (h : Host) :
  paired db -> paired (IndexedDBBackend.deleteFile db fileId h).2.
Proof.
  intros Hpaired. unfold IndexedDBBackend.deleteFile.
  destruct (h_request h 0%nat), (h_request h 1%nat); try exact Hpaired.
  intros fileId'. cbn.
  destruct (decide (fileId' = fileId)) as [->|Hne].
  - rewrite lookup_delete_eq. by intros [? ?].
  - rewrite !lookup_delete_ne by done. apply Hpaired.
Qed.

Lemma step_preserves_paired (db db' : IndexedDBBackend.state) :
  paired db -> indexedDB_step db db' -> paired db'.
Proof.
  intros Hpaired Hstep. revert Hpaired.
  destruct Hstep; intros Hpaired.
  - by apply storeFile_preserves_paired.
  - by apply deleteFile_preserves_paired.
Qed.

Lemma getFile_settles (db : IndexedDBBackend.state) (fileId : string)
    (h : Host) :
  paired db -> IndexedDBBackend.getFile db fileId h <> Pending.
Proof.
  intros Hpaired. unfold IndexedDBBackend.getFile.
  destruct (IndexedDBBackend.os_files db !! fileId) as [fd|] eqn:Hfd;
    [|discriminate].
  destruct (Hpaired fileId) as (mr & -> & _); [by eexists|discriminate].
Qed.

Lemma indexedDB_deleteFile_atomic (db : IndexedDBBackend.state)
    (fileId : string) (h : Host) :
  IndexedDBBackend.deleteFile db fileId h
  = (Rejected "Failed to delete file from IndexedDB", db)
  \/ IndexedDBBackend.deleteFile db fileId h
     = (Resolved true,
        {| IndexedDBBackend.os_files :=
             delete fileId (IndexedDBBackend.os_files db);
           IndexedDBBackend.os_metadata :=
             delete fileId (IndexedDBBackend.os_metadata db) |}).
Proof.
  unfold IndexedDBBackend.deleteFile.
  destruct (h_request h 0%nat), (h_request h 1%nat); by (left + right).
Qed.

(** C9: every operation of the IndexedDB backend that writes keeps each id
    of 'files' paired with a record of the same id in 'metadata':
    [storeFile] adds both records under the new id or changes nothing,
    [deleteFile] removes both or changes nothing, and so the pairing holds
    in every database reached from the empty one. On a paired database
    [getFile] always settles; on a database with a file record that has no
    metadata record it never does, which is the dereference without a
    test. *)
Theorem indexedDB_files_paired_with_metadata :
  paired IndexedDBBackend.empty
  /\ (forall db username file category metadata h,
        (exists message,
           IndexedDBBackend.storeFile db username file category metadata h
           = (Rejected message, db))
        \/ exists r fileData metadataRecord,
             IndexedDBBackend.storeFile db username file category metadata h
             = (Resolved r,
                {| IndexedDBBackend.os_files :=
                     <[sf_id r := fileData]> (IndexedDBBackend.os_files db);
                   IndexedDBBackend.os_metadata :=
                     <[sf_id r := metadataRecord]>
                       (IndexedDBBackend.os_metadata db) |})
             /\ IndexedDBBackend.fd_id fileData = sf_id r
             /\ IndexedDBBackend.mr_id metadataRecord = sf_id r)
  /\ (forall db fileId h,
        IndexedDBBackend.deleteFile db fileId h
        = (Rejected "Failed to delete file from IndexedDB", db)
        \/ IndexedDBBackend.deleteFile db fileId h
           = (Resolved true,
              {| IndexedDBBackend.os_files :=
                   delete fileId (IndexedDBBackend.os_files db);
                 IndexedDBBackend.os_metadata :=
                   delete fileId (IndexedDBBackend.os_metadata db) |}))
  /\ (forall db db', paired db -> indexedDB_step db db' -> paired db')
  /\ (forall db, rtc indexedDB_step IndexedDBBackend.empty db -> paired db)
  /\ (forall db fileId h,
        paired db -> IndexedDBBackend.getFile db fileId h <> Pending)
  /\ (forall db fileId h fileData,
        IndexedDBBackend.os_files db !! fileId = Some fileData ->
        IndexedDBBackend.os_metadata db !! fileId = None ->
        IndexedDBBackend.getFile db fileId h = Pending).
Proof.
  split_and!.
  - exact paired_empty.
  - intros db username file category metadata h.
    destruct (indexedDB_storeFile_atomic db username file category metadata h)
      as [Hrejected | (r & fd & mr & Hstored & Hfd & Hmr & _)].
    + by left.
    + right. by exists r, fd, mr.
  - apply indexedDB_deleteFile_atomic.
  - apply step_preserves_paired.
  - intros db Hreach. revert db Hreach. apply rtc_ind_r.
    + exact paired_empty.
    + intros db db' _ Hstep IH.
      eapply step_preserves_paired; [exact IH|exact Hstep].
  - intros. by apply getFile_settles.
  - intros db fileId h fd Hfd Hmr. unfold IndexedDBBackend.getFile.
    by rewrite Hfd, Hmr.
Qed.

(** A database in which the pairing is broken, and the fetch that hangs. *)
Example getFile_unpaired_pending :
  IndexedDBBackend.getFile
    {| IndexedDBBackend.os_files :=
         {[ "idb_1_a" :=
              {| IndexedDBBackend.fd_id := "idb_1_a";
                 IndexedDBBackend.fd_filename := "notes.txt";
                 IndexedDBBackend.fd_filetype := "text/plain";
                 IndexedDBBackend.fd_size := 3;
                 IndexedDBBackend.fd_category := "DOCUMENT_TXT";
                 IndexedDBBackend.fd_uploadDate := "2024-01-01T00:00:00.000Z";
                 IndexedDBBackend.fd_username := "asha";
                 IndexedDBBackend.fd_data := [Byte.x61; Byte.x62; Byte.x63] |} ]};
       IndexedDBBackend.os_metadata := ∅ |}
    "idb_1_a" quiet_host
  = Pending.
Proof. reflexivity. Qed.

(** ** The merged listing *)

Section Listing.
Variable backend_getUserFiles :
  StorageManager.backend -> string -> string + list StorageManager.Summary.


Lemma collected_add_unseen acc file :
  collected acc -> collected (StorageManager.add_unseen acc file).
Proof.
  intros [Hnodup Hseen]. unfold StorageManager.add_unseen.
  case_bool_decide as Hin; [done|]. split; cbn.
  - rewrite fmap_app. apply NoDup_app. split_and!; [done| |apply NoDup_singleton].
    intros fileId Hleft Hright. apply list_elem_of_singleton in Hright as ->.
    apply Hin, Hseen, Hleft.
  - intros fileId. rewrite fmap_app, elem_of_app, elem_of_union, Hseen.
    cbn. rewrite elem_of_singleton, list_elem_of_singleton. tauto.
Qed.

Lemma collected_fold files acc :
  collected acc -> collected (fold_left StorageManager.add_unseen files acc).
Proof.
  revert acc. induction files as [|file files IH]; intros acc Hacc; cbn.
  - exact Hacc.
  - apply IH, collected_add_unseen, Hacc.
Qed.

(** What the inner loop collects: what was collected before, and of the
    files visited the first with each id not seen before. *)
Lemma fold_add_unseen_elem files acc file :
  file ∈ (fold_left StorageManager.add_unseen files acc).1
  <-> file ∈ acc.1
      \/ ((StorageManager.s_id file ∉ acc.2)
          /\ first_with_id files (StorageManager.s_id file) = Some file).
Proof.
  revert acc. induction files as [|x files IH]; intros acc; cbn.
  - unfold first_with_id. cbn. split; [by left|]. by intros [?|[_ ?]].
  - rewrite IH. unfold StorageManager.add_unseen, first_with_id. cbn.
    case_bool_decide as Hseen; cbn.
    + case_bool_decide as Hid; [|done].
      split; (intros [?|[Hnew ?]]; [by left|]); exfalso; apply Hnew;
        by rewrite <- Hid.
    + rewrite elem_of_app, list_elem_of_singleton, not_elem_of_union,
        not_elem_of_singleton.
      case_bool_decide as Hid.
      * split.
        -- intros [[Hin|Heq]|[[Hne _] _]].
           ++ by left.
           ++ subst file. by right.
           ++ exfalso. apply Hne. by rewrite Hid.
        -- intros [Hin|[_ Heq]].
           ++ by left; left.
           ++ injection Heq as ->. by left; right.
      * split.
        -- intros [[Hin|Heq]|[[_ Hnew] Hfirst]].
           ++ by left.
           ++ subst file. by destruct Hid.
           ++ by right.
        -- intros [Hin|[Hnew Hfirst]].
           ++ by left; left.
           ++ right. split; [split|]; [|done|done].
              intros Heq. apply Hid. by rewrite Heq.
Qed.

Lemma fold_add_backend username backends acc :
  fold_left (StorageManager.add_backend backend_getUserFiles username)
    backends acc
  = fold_left StorageManager.add_unseen (visited backend_getUserFiles backends username) acc.
Proof.
  revert acc. induction backends as [|b backends IH]; intros acc; cbn;
    [reflexivity|].
  rewrite IH. unfold visited. cbn. rewrite fold_left_app.
  unfold StorageManager.add_backend, listed.
  by destruct (backend_getUserFiles b username).
Qed.

(** C5: the list [getUserFiles] returns has no id twice, whatever the
    backends list; and a file is in it exactly if, of the files the
    backends list in the order of preference, it is the first with its
    id. *)
Theorem getUserFiles_no_duplicate_ids
    (backends : list StorageManager.backend) (username : string) :
  NoDup (ids (StorageManager.getUserFiles backend_getUserFiles backends
                username))
  /\ forall file,
       file ∈ StorageManager.getUserFiles backend_getUserFiles backends username
       <-> first_with_id (visited backend_getUserFiles backends username)
             (StorageManager.s_id file)
           = Some file.
Proof.
  unfold StorageManager.getUserFiles. rewrite fold_add_backend. split.
  - apply collected_fold. split; cbn; [constructor|].
    intros fileId. cbn. rewrite elem_of_empty, elem_of_nil. tauto.
  - intros file. rewrite fold_add_unseen_elem. cbn.
    rewrite elem_of_nil. split; [by intros [[]|[_ ?]]|].
    intros Hfirst. right. split; [apply not_elem_of_empty|done].
Qed.

End Listing.

(** ** The percentage used *)

(** [totalSize / (1024 * 1024 * 1024) * 100]. *)
Lemma percent_fraction (total : Z) :
  (inject_Z total / inject_Z (1024 * 1024 * 1024) * 100
   == (100 * total) # 1073741824)%Q.
Proof.
  change (inject_Z (1024 * 1024 * 1024)) with (1073741824 # 1)%Q.
  unfold Qeq, Qdiv, Qmult, Qinv, inject_Z. simpl Qnum. simpl Qden. lia.
Qed.

Lemma fixed_digits_below_cap (total : Z) :
  0 <= total <= 2 ^ 30 ->
  fixed_digits 1
    (Qmin (inject_Z total / inject_Z (1024 * 1024 * 1024) * 100) 100)
  = (2000 * total + 2 ^ 30) / 2 ^ 31.
Proof.
  intros Hrange. unfold fixed_digits.
  change ((2000 * total + 2 ^ 30) / 2 ^ 31)
    with (Qfloor ((2000 * total + 1073741824) # 2147483648)).
  apply Qfloor_comp.
  rewrite percent_fraction.
  assert ((100 * total # 1073741824) <= 100)%Q as Hle.
  { unfold Qle. simpl Qnum. simpl Qden. lia. }
  rewrite (Q.min_l _ _ Hle).
  rewrite Qabs_pos by (unfold Qle; simpl Qnum; simpl Qden; lia).
  change (inject_Z (10 ^ Z.of_nat 1)) with (10 # 1)%Q.
  unfold Qeq, Qmult, Qplus. simpl Qnum. simpl Qden. lia.
Qed.

Lemma fixed_digits_at_cap (total : Z) :
  2 ^ 30 <= total ->
  fixed_digits 1
    (Qmin (inject_Z total / inject_Z (1024 * 1024 * 1024) * 100) 100)
  = 1000.
Proof.
  intros Hrange. unfold fixed_digits.
  change 1000 with (Qfloor (2001 # 2)).
  apply Qfloor_comp.
  rewrite percent_fraction.
  assert (100 <= (100 * total # 1073741824))%Q as Hle.
  { unfold Qle. simpl Qnum. simpl Qden. lia. }
  rewrite (Q.min_r _ _ Hle). reflexivity.
Qed.

Lemma pad_digit (d : Z) : 0 <= d < 10 -> pad 1 (pretty d) = pretty d.
Proof.
  intros Hd.
  assert (d = 0 \/ d = 1 \/ d = 2 \/ d = 3 \/ d = 4 \/ d = 5 \/ d = 6
          \/ d = 7 \/ d = 8 \/ d = 9) as Hcases by lia.
  repeat (destruct Hcases as [-> | Hcases]; [reflexivity|]).
  subst d. reflexivity.
Qed.

Lemma toFixed_1_nonnegative (x : Q) :
  (0 <= x)%Q ->
  toFixed x 1
  = pretty (fixed_digits 1 x / 10) +:+ "." +:+ pretty (fixed_digits 1 x mod 10).
Proof.
  intros Hx. unfold toFixed.
  destruct (Qlt_le_dec x 0) as [Hneg|_].
  - exfalso. exact (Qlt_not_le _ _ Hneg Hx).
  - change (10 ^ Z.of_nat 1) with 10. rewrite pad_digit; [reflexivity|].
    apply Z.mod_pos_bound. lia.
Qed.

Lemma sum_sizes_from (files : list StorageManager.Summary) (acc : Z) :
  fold_left (fun sum file => sum + StorageManager.s_size file) files acc
  = acc + StorageManager.sum_sizes files.
Proof.
  unfold StorageManager.sum_sizes. revert acc.
  induction files as [|file files IH]; intros acc; [cbn; lia|].
  cbn [fold_left]. rewrite (IH (acc + _)), (IH (0 + _)). lia.
Qed.

Lemma sum_sizes_cons file files :
  StorageManager.sum_sizes (file :: files)
  = StorageManager.s_size file + StorageManager.sum_sizes files.
Proof. unfold StorageManager.sum_sizes at 1. cbn. apply sum_sizes_from. Qed.

Lemma sum_sizes_total (files : list StorageManager.Summary) :
  StorageManager.sum_sizes files = total_bytes files.
Proof.
  induction files as [|file files IH]; [reflexivity|].
  rewrite sum_sizes_cons, IH. reflexivity.
Qed.

Section Statistics.
Variable backend_getUserFiles :
  StorageManager.backend -> string -> string + list StorageManager.Summary.

(** C10: [totalSize] is the sum of the sizes of the files [getUserFiles]
    returns, and [usedPercentage] is computed from that sum and the
    constant 1 GiB alone: written [t] tenths of a percent, it is "100.0"
    from 1 GiB on, and below that [t] is the number of tenths nearest to
    the sum times 100 over 2^30, the upper one of two equally near.
    Neither a backend's [maxSize] nor the browser's quota enters. *)
Theorem usedPercentage_of_one_GiB (backends : list StorageManager.backend)
    (username : string) :
  StorageManager.totalSize
    (StorageManager.getStorageStats backend_getUserFiles backends username)
  = total_bytes
      (StorageManager.getUserFiles backend_getUserFiles backends username)
  /\ (0 <= total_bytes
             (StorageManager.getUserFiles backend_getUserFiles backends
                username) ->
      exists t,
        StorageManager.usedPercentage
          (StorageManager.getStorageStats backend_getUserFiles backends
             username)
        = pretty (t / 10) +:+ "." +:+ pretty (t mod 10)
        /\ 0 <= t <= 1000
        /\ (2 ^ 30
            <= total_bytes
                 (StorageManager.getUserFiles backend_getUserFiles backends
                    username) ->
            t = 1000)
        /\ (total_bytes
              (StorageManager.getUserFiles backend_getUserFiles backends
                 username)
            <= 2 ^ 30 ->
            2 ^ 30 * (2 * t - 1)
            <= 2000
               * total_bytes
                   (StorageManager.getUserFiles backend_getUserFiles backends
                      username)
            /\ 2000
               * total_bytes
                   (StorageManager.getUserFiles backend_getUserFiles backends
                      username)
               < 2 ^ 30 * (2 * t + 1))).
Proof.
  rewrite <- sum_sizes_total.
  split; [reflexivity|].
  unfold StorageManager.getStorageStats.
  cbn [StorageManager.totalSize StorageManager.usedPercentage].
  set (total := StorageManager.sum_sizes _). intros Htotal.
  eexists. split.
  - apply toFixed_1_nonnegative.
    apply Q.min_glb; [|done].
    rewrite percent_fraction. unfold Qle. simpl Qnum. simpl Qden. lia.
  - destruct (Z_le_gt_dec total (2 ^ 30)) as [Hbelow|Habove].
    + rewrite fixed_digits_below_cap by lia.
      pose proof (Z.div_mod (2000 * total + 2 ^ 30) (2 ^ 31) ltac:(lia)) as Hdiv.
      pose proof (Z.mod_pos_bound (2000 * total + 2 ^ 30) (2 ^ 31) ltac:(lia))
        as Hmod.
      split_and!; lia.
    + rewrite fixed_digits_at_cap by lia. split_and!; lia.
Qed.

End Statistics.

(** Two backends that both list the id "ls_1_b": the merged list has it
    once, as IndexedDB lists it; the total is 64 MiB, which is 6.25 per
    cent of 1 GiB and prints as "6.3". *)
Example getUserFiles_both_hold_a_copy :
  StorageManager.s_filename
    <$> StorageManager.getUserFiles two_copies fresh_vault "asha"
  = ["movie.mkv"; "notes (migrated).txt"; "todo.txt"]
  /\ ids (StorageManager.getUserFiles two_copies fresh_vault "asha")
     = ["idb_1_a"; "ls_1_b"; "ls_2_c"]
  /\ StorageManager.totalSize
       (StorageManager.getStorageStats two_copies fresh_vault "asha")
     = 64 * 1024 * 1024
  /\ StorageManager.usedPercentage
       (StorageManager.getStorageStats two_copies fresh_vault "asha")
     = "6.3".
Proof. split_and!; vm_compute; reflexivity. Qed.

(** From 1 GiB on the percentage is "100.0", and nothing stored is "0.0". *)
Example usedPercentage_capped :
  StorageManager.usedPercentage
    (StorageManager.getStorageStats
       (fun _ _ => inr [summary "idb_1_a" "disk.img" (3 * 1024 * 1024 * 1024)])
       fresh_vault "asha")
  = "100.0"
  /\ StorageManager.usedPercentage
       (StorageManager.getStorageStats (fun _ _ => inr []) fresh_vault "asha")
     = "0.0"
  /\ StorageManager.usedPercentage
       (StorageManager.getStorageStats (fun _ _ => inl "no index")
          fresh_vault "asha")
     = "0.0".
Proof. split_and!; vm_compute; reflexivity. Qed.

(** ** Worked runs *)

(** Without IndexedDB the text file goes to localStorage and comes back
    byte for byte. *)
Example roundtrip_through_localStorage :
  exists r backends' got,
    @StorageManager.storeFile raw_DataURL localStorage_vault "asha" notes_txt
      "DOCUMENT_TXT" ∅ quiet_host
    = (Resolved r, backends')
    /\ sf_id r = "ls_1700000000000_k3x9q2m1z"
    /\ @StorageManager.getFile raw_DataURL backends' (sf_id r) quiet_host
       = Resolved got
    /\ got !! "blob" = Some (VBlob [Byte.x61; Byte.x62; Byte.x63]).
Proof. eexists _, _, _. split_and!; reflexivity. Qed.

(** With both stores the photo goes to IndexedDB in its compressed form;
    a later delete removes it, and fetching it then finds nothing. *)
Example store_delete_fetch :
  exists r backends' deleted backends'',
    @StorageManager.storeFile raw_DataURL fresh_vault "asha" photo_png
      "MEDIA_IMAGE" ∅ photo_host
    = (Resolved r, backends')
    /\ sf_storage r = "IndexedDB"
    /\ sf_size r = 200 * 1024
    /\ StorageManager.deleteFile backends' (sf_id r) quiet_host
       = (Resolved deleted, backends'')
    /\ deleted = true
    /\ backends'' = fresh_vault
    /\ @StorageManager.getFile raw_DataURL backends'' (sf_id r) quiet_host
       = Rejected "File not found in any storage backend".
Proof. eexists _, _, _, _. split_and!; reflexivity. Qed.

(** When the database cannot be opened the manager has no backend, and
    storing fails on the missing backend. *)
Example no_backend_at_all :
  @StorageManager.storeFile raw_DataURL
    (StorageManager.initializeBackends StorageManager.OpenFails
       (Some LocalStorageBackend.empty))
    "asha" notes_txt "DOCUMENT_TXT" ∅ quiet_host
  = (Rejected "Cannot read properties of undefined (reading 'storeFile')", []).
Proof. reflexivity. Qed.

(** * Further properties *)

(** ** Deleting, then fetching *)

Lemma find_by_id_filter (userFiles : list LocalStorageBackend.FileData)
    (fileId fileId' : string) :
  fileId' <> fileId ->
  LocalStorageBackend.find_by_id
    (List.filter
       (fun f => negb (bool_decide (LocalStorageBackend.fd_id f = fileId)))
       userFiles) fileId'
  = LocalStorageBackend.find_by_id userFiles fileId'.
Proof.
  intros Hne. unfold LocalStorageBackend.find_by_id.
  induction userFiles as [|f rest IH]; [reflexivity|]. cbn.
  destruct (decide (LocalStorageBackend.fd_id f = fileId)) as [Heq|Hneq].
  - rewrite (bool_decide_eq_true_2 _ Heq). cbn.
    rewrite bool_decide_eq_false_2 by congruence. exact IH.
  - rewrite (bool_decide_eq_false_2 _ Hneq). cbn. by rewrite IH.
Qed.

Lemma find_by_id_filter_gone (userFiles : list LocalStorageBackend.FileData)
    (fileId : string) :
  LocalStorageBackend.find_by_id
    (List.filter
       (fun f => negb (bool_decide (LocalStorageBackend.fd_id f = fileId)))
       userFiles) fileId
  = None.
Proof.
  unfold LocalStorageBackend.find_by_id.
  induction userFiles as [|f rest IH]; [reflexivity|]. cbn.
  destruct (decide (LocalStorageBackend.fd_id f = fileId)) as [Heq|Hneq].
  - rewrite (bool_decide_eq_true_2 _ Heq). cbn. exact IH.
  - rewrite (bool_decide_eq_false_2 _ Hneq). cbn.
    rewrite (bool_decide_eq_false_2 _ Hneq). exact IH.
Qed.

Section DeleteThenFetch.
Context `{DataURL}.

Lemma backend_deleted_rejects (b : StorageManager.backend) (fileId : string)
    (h h' : Host) :
  writes_succeed h ->
  rejects (StorageManager.backend_deleteFile b fileId h).2 fileId h'.
Proof.
  intros [Hrequest HsetItem]. unfold rejects.
  destruct b as [db|st]; cbn.
  - unfold IndexedDBBackend.deleteFile. rewrite !Hrequest. cbn.
    unfold IndexedDBBackend.getFile. cbn. rewrite lookup_delete_eq. eauto.
  - unfold LocalStorageBackend.deleteFile.
    destruct (LocalStorageBackend.ls_index st !! fileId) as [fileInfo|] eqn:Hindex.
    + destruct (bool_decide (LocalStorageBackend.ie_backend fileInfo = "localStorage"))
        eqn:Hbackend; cbn.
      * destruct (LocalStorageBackend.shadowed _ _) eqn:Hshadowed; cbn.
        -- unfold LocalStorageBackend.getFile. rewrite Hindex, Hbackend. cbn.
           unfold LocalStorageBackend.shadowed in Hshadowed.
           destruct (LocalStorageBackend.ls_files st !! _); [done|].
           rewrite Hshadowed. eauto.
        -- rewrite !HsetItem. cbn. unfold LocalStorageBackend.getFile. cbn.
           rewrite lookup_delete_eq. eauto.
      * unfold LocalStorageBackend.getFile. rewrite Hindex, Hbackend. cbn. eauto.
    + cbn. unfold LocalStorageBackend.getFile. rewrite Hindex. eauto.
Qed.

(** X1: once [deleteFile] has run in a browser that refuses no write,
    [getFile] of the same id rejects with "File not found in any storage
    backend", whatever the backends held before. *)
Theorem deleteFile_then_getFile (backends : list StorageManager.backend)
    (fileId : string) (h h' : Host) :
  writes_succeed h ->
  StorageManager.getFile (StorageManager.deleteFile backends fileId h).2
    fileId h'
  = Rejected "File not found in any storage backend".
Proof.
  intros Hwrites. unfold StorageManager.deleteFile.
  rewrite deleteFile_loop_flag. cbn [snd].
  apply getFile_not_found. apply Forall_fmap, Forall_forall.
  intros b _. by apply backend_deleted_rejects.
Qed.

Lemma backend_delete_other (b : StorageManager.backend)
    (fileId fileId' : string) (h h' : Host) :
  fileId' <> fileId ->
  StorageManager.backend_getFile
    (StorageManager.backend_deleteFile b fileId h).2 fileId' h'
  = StorageManager.backend_getFile b fileId' h'.
Proof.
  intros Hne. destruct b as [db|st]; cbn.
  - destruct (indexedDB_deleteFile_atomic db fileId h) as [-> | ->];
      [reflexivity|].
    cbn. unfold IndexedDBBackend.getFile. cbn.
    by rewrite !lookup_delete_ne.
  - unfold LocalStorageBackend.deleteFile.
    destruct (LocalStorageBackend.ls_index st !! fileId) as [fileInfo|] eqn:Hindex;
      [|reflexivity].
    destruct (negb _); [reflexivity|].
    destruct (LocalStorageBackend.shadowed _ _); [reflexivity|].
    assert (forall index,
              index !! fileId' = LocalStorageBackend.ls_index st !! fileId' ->
              LocalStorageBackend.getFile
                {| LocalStorageBackend.ls_files :=
                     match LocalStorageBackend.ls_files st
                           !! LocalStorageBackend.ie_username fileInfo with
                     | Some userFiles =>
                         <[LocalStorageBackend.ie_username fileInfo :=
                             List.filter
                               (fun f =>
                                  negb (bool_decide
                                          (LocalStorageBackend.fd_id f = fileId)))
                               userFiles]> (LocalStorageBackend.ls_files st)
                     | None => LocalStorageBackend.ls_files st
                     end;
                   LocalStorageBackend.ls_index := index |} fileId' h'
              = LocalStorageBackend.getFile st fileId' h') as Hsame.
    { intros index Hlookup. unfold LocalStorageBackend.getFile. cbn.
      rewrite Hlookup.
      destruct (LocalStorageBackend.ls_index st !! fileId') as [fileInfo'|];
        [|reflexivity].
      destruct (negb _); [reflexivity|].
      destruct (LocalStorageBackend.ls_files st
                !! LocalStorageBackend.ie_username fileInfo)
        as [userFiles|] eqn:Hfiles; [|reflexivity].
      destruct (decide (LocalStorageBackend.ie_username fileInfo'
                        = LocalStorageBackend.ie_username fileInfo)) as [Hu|Hu].
      - rewrite Hu, lookup_insert_eq, Hfiles.
        by rewrite find_by_id_filter.
      - by rewrite lookup_insert_ne. }
    destruct (h_setItem h 0%nat); [reflexivity|].
    destruct (h_setItem h 1%nat); cbn.
    + by apply Hsame.
    + apply Hsame. by apply lookup_delete_ne.
Qed.

(** X2: [deleteFile] of one id leaves [getFile] of every other id as it
    was, in every browser, also when a write is refused half way. *)
Theorem deleteFile_keeps_other_files (backends : list StorageManager.backend)
    (fileId fileId' : string) (h h' : Host) :
  fileId' <> fileId ->
  StorageManager.getFile (StorageManager.deleteFile backends fileId h).2
    fileId' h'
  = StorageManager.getFile backends fileId' h'.
Proof.
  intros Hne. unfold StorageManager.deleteFile.
  rewrite deleteFile_loop_flag. cbn [snd].
  induction backends as [|b backends IH]; [reflexivity|]. cbn.
  by rewrite backend_delete_other, IH.
Qed.

End DeleteThenFetch.

Lemma quiet_host_writes_succeed : writes_succeed quiet_host.
Proof. split; reflexivity. Qed.

Lemma deleteFile_then_getFile_witness :
  writes_succeed quiet_host
  /\ (exists got,
        @StorageManager.getFile raw_DataURL vault_with_photo
          "idb_1700000000000_k3x9q2m1z" quiet_host
        = Resolved got)
  /\ @StorageManager.getFile raw_DataURL
       (StorageManager.deleteFile vault_with_photo
          "idb_1700000000000_k3x9q2m1z" quiet_host).2
       "idb_1700000000000_k3x9q2m1z" quiet_host
     = Rejected "File not found in any storage backend".
Proof.
  split; [exact quiet_host_writes_succeed|]. split; [by eexists|].
  apply (@deleteFile_then_getFile raw_DataURL vault_with_photo).
  exact quiet_host_writes_succeed.
Defined.

Lemma deleteFile_keeps_other_files_witness :
  "idb_1700000000000_k3x9q2m1z" <> "ls_1700000000000_k3x9q2m1z"
  /\ @StorageManager.getFile raw_DataURL
       (StorageManager.deleteFile vault_with_photo
          "ls_1700000000000_k3x9q2m1z" quiet_host).2
       "idb_1700000000000_k3x9q2m1z" quiet_host
     = @StorageManager.getFile raw_DataURL vault_with_photo
         "idb_1700000000000_k3x9q2m1z" quiet_host.
Proof.
  split; [discriminate|].
  apply (@deleteFile_keeps_other_files raw_DataURL vault_with_photo).
  discriminate.
Defined.

(** ** Storing next to what is stored *)

Lemma find_by_id_app_other (userFiles : list LocalStorageBackend.FileData)
    (fileData : LocalStorageBackend.FileData) (fileId' : string) :
  fileId' <> LocalStorageBackend.fd_id fileData ->
  LocalStorageBackend.find_by_id (userFiles ++ [fileData]) fileId'
  = LocalStorageBackend.find_by_id userFiles fileId'.
Proof.
  intros Hne. unfold LocalStorageBackend.find_by_id.
  induction userFiles as [|f rest IH]; cbn.
  - by rewrite bool_decide_eq_false_2.
  - by rewrite IH.
Qed.

Lemma find_by_id_app_found (userFiles : list LocalStorageBackend.FileData)
    (fileData found : LocalStorageBackend.FileData) (fileId' : string) :
  LocalStorageBackend.find_by_id userFiles fileId' = Some found ->
  LocalStorageBackend.find_by_id (userFiles ++ [fileData]) fileId' = Some found.
Proof.
  unfold LocalStorageBackend.find_by_id.
  induction userFiles as [|f rest IH]; cbn; [discriminate|].
  destruct (bool_decide _); [done|exact IH].
Qed.

(** The states in which [storeFile] of the localStorage backend can leave
    the two items: untouched, the array written and the index not, or both
    written. *)
Lemma localStorage_storeFile_states `{DataURL} (st : LocalStorageBackend.state)
    (username : string) (file : File) (category : string)
    (metadata : gmap string value) (h : Host) :
  exists fileData,
    LocalStorageBackend.fd_id fileData = LocalStorageBackend.generateFileId h
    /\ LocalStorageBackend.fd_metadata fileData
       = json <$> record_metadata metadata file
    /\ LocalStorageBackend.fd_data fileData = readAsDataURL file
    /\ let files :=
         <[username :=
             default [] (LocalStorageBackend.ls_files st !! username)
             ++ [fileData]]> (LocalStorageBackend.ls_files st) in
       let index :=
         <[LocalStorageBackend.generateFileId h :=
             {| LocalStorageBackend.ie_username := username;
                LocalStorageBackend.ie_backend := "localStorage" |}]>
           (LocalStorageBackend.ls_index st) in
       (exists message,
          LocalStorageBackend.storeFile st username file category metadata h
          = (Rejected message, st))
       \/ (exists e,
             h_setItem h 1%nat = Some e
             /\ LocalStorageBackend.storeFile st username file category
                  metadata h
                = (Rejected (LocalStorageBackend.rethrow e),
                   {| LocalStorageBackend.ls_files := files;
                      LocalStorageBackend.ls_index :=
                        LocalStorageBackend.ls_index st |}))
       \/ (exists r,
             LocalStorageBackend.storeFile st username file category metadata h
             = (Resolved r,
                {| LocalStorageBackend.ls_files := files;
                   LocalStorageBackend.ls_index := index |})
             /\ sf_id r = LocalStorageBackend.generateFileId h).
Proof.
  unfold LocalStorageBackend.storeFile, LocalStorageBackend.saveToLocalStorage.
  eexists
    (LocalStorageBackend.stringified
       {| LocalStorageBackend.fd_id := LocalStorageBackend.generateFileId h |}).
  split_and!; [reflexivity..|]. cbn zeta.
  destruct (file_size file >? _); [left; eauto|].
  destruct (h_reader h); [left; eauto|].
  destruct (LocalStorageBackend.shadowed _ _); [left; eauto|].
  destruct (h_setItem h 0%nat); [left; eauto|].
  destruct (h_setItem h 1%nat) as [e|].
  - right. left. exists e. split; reflexivity.
  - right. right. eexists. split; reflexivity.
Qed.

Section StoreFrame.
Context `{DataURL}.

Lemma localStorage_getFile_cases (st : LocalStorageBackend.state)
    (fileId : string) (h : Host) :
  (exists fileInfo userFiles fileData,
     LocalStorageBackend.ls_index st !! fileId = Some fileInfo
     /\ LocalStorageBackend.ls_files st !! LocalStorageBackend.ie_username fileInfo
        = Some userFiles
     /\ LocalStorageBackend.find_by_id userFiles fileId = Some fileData
     /\ LocalStorageBackend.getFile st fileId h
        = Resolved
            (<["blob" := VBlob (fetch_blob (LocalStorageBackend.fd_data fileData))]>
               (<["url" := VStr (h_url h)]>
                  (LocalStorageBackend.fileData_fields fileData))))
  \/ exists message, LocalStorageBackend.getFile st fileId h = Rejected message.
Proof.
  unfold LocalStorageBackend.getFile.
  destruct (LocalStorageBackend.ls_index st !! fileId) as [fileInfo|];
    [|right; eauto].
  destruct (negb _); [right; eauto|].
  destruct (LocalStorageBackend.ls_files st !! _) as [userFiles|] eqn:Hfiles;
    [|right; destruct (inherited _); eauto].
  destruct (LocalStorageBackend.find_by_id userFiles fileId) as [fileData|]
    eqn:Hfind; [|right; eauto].
  left. by exists fileInfo, userFiles, fileData.
Qed.

(** Appending an element with another id to a user's array changes no
    fetch that resolved, and lets no fetch resolve that was rejected. *)
Lemma localStorage_getFile_appended (st : LocalStorageBackend.state)
    (username : string) (fileData : LocalStorageBackend.FileData)
    (index : gmap string LocalStorageBackend.IndexEntry)
    (fileId' : string) (h' : Host) :
  fileId' <> LocalStorageBackend.fd_id fileData ->
  index !! fileId' = LocalStorageBackend.ls_index st !! fileId' ->
  let st' :=
    {| LocalStorageBackend.ls_files :=
         <[username :=
             default [] (LocalStorageBackend.ls_files st !! username)
             ++ [fileData]]> (LocalStorageBackend.ls_files st);
       LocalStorageBackend.ls_index := index |} in
  LocalStorageBackend.getFile st' fileId' h'
  = LocalStorageBackend.getFile st fileId' h'
  \/ ((exists message,
         LocalStorageBackend.getFile st' fileId' h' = Rejected message)
      /\ exists message,
           LocalStorageBackend.getFile st fileId' h' = Rejected message).
Proof.
  intros Hne Hindex st'. unfold LocalStorageBackend.getFile.
  cbn -[LocalStorageBackend.find_by_id]. rewrite Hindex.
  destruct (LocalStorageBackend.ls_index st !! fileId') as [fileInfo|];
    [|by left].
  destruct (negb _); [by left|].
  destruct (decide (LocalStorageBackend.ie_username fileInfo = username))
    as [->|Hu].
  - rewrite lookup_insert_eq.
    destruct (LocalStorageBackend.ls_files st !! username) as [userFiles|];
      cbn -[LocalStorageBackend.find_by_id].
    + left. by rewrite find_by_id_app_other.
    + right. unfold LocalStorageBackend.find_by_id. cbn.
      rewrite bool_decide_eq_false_2 by congruence.
      destruct (inherited username); eauto.
  - left. by rewrite lookup_insert_ne.
Qed.

Lemma backend_store_other (b : StorageManager.backend) (username : string)
    (file : File) (category : string) (metadata : gmap string value)
    (h h' : Host) (fileId' : string) :
  fileId' <> IndexedDBBackend.generateFileId h ->
  fileId' <> LocalStorageBackend.generateFileId h ->
  let b' :=
    (StorageManager.backend_storeFile b username file category metadata h).2 in
  StorageManager.backend_getFile b' fileId' h'
  = StorageManager.backend_getFile b fileId' h'
  \/ (rejects b' fileId' h' /\ rejects b fileId' h').
Proof.
  intros Hidb Hls. destruct b as [db|st]; cbn.
  - left.
    destruct (indexedDB_storeFile_atomic db username file category metadata h)
      as [[message ->] | (r & fd & mr & Hstored & _)]; [reflexivity|].
    rewrite Hstored. cbn.
    assert (sf_id r = IndexedDBBackend.generateFileId h) as Hid.
    { revert Hstored. unfold IndexedDBBackend.storeFile.
      repeat case_match; try discriminate. by intros [= <- _]. }
    unfold IndexedDBBackend.getFile. cbn.
    rewrite !lookup_insert_ne by congruence. reflexivity.
  - destruct (localStorage_storeFile_states st username file category metadata h)
      as (fd & Hid & _ & _ & [[message ->] | [(e & _ & ->) | (r & -> & _)]]);
      cbn.
    + by left.
    + apply localStorage_getFile_appended; [congruence|reflexivity].
    + apply localStorage_getFile_appended; [congruence|].
      by rewrite lookup_insert_ne.
Qed.

(** X3: [storeFile], whether it resolves or rejects and whatever the
    browser refuses on the way, leaves [getFile] of every id other than the
    one it generated as it was. *)
Theorem storeFile_keeps_other_files (backends : list StorageManager.backend)
    (username : string) (file : File) (category : string)
    (metadata : gmap string value) (h h' : Host) (fileId' : string) :
  fileId' <> IndexedDBBackend.generateFileId h ->
  fileId' <> LocalStorageBackend.generateFileId h ->
  StorageManager.getFile
    (StorageManager.storeFile backends username file category metadata h).2
    fileId' h'
  = StorageManager.getFile backends fileId' h'.
Proof.
  intros Hidb Hls. unfold StorageManager.storeFile.
  destruct (StorageManager.processedFile file h) as [processed compressed].
  rewrite selectBackendForFile_first.
  destruct backends as [|b rest]; [reflexivity|]. cbn [lookup list_lookup].
  destruct (StorageManager.backend_storeFile b username processed category _ h)
    as [r b'] eqn:Hstore.
  cbn [snd list_insert insert StorageManager.getFile].
  pose proof (backend_store_other b username processed category
                (StorageManager.store_metadata metadata file compressed
                   (StorageManager.determineDirectory category metadata))
                h h' fileId' Hidb Hls) as Hother.
  rewrite Hstore in Hother. cbn in Hother.
  destruct Hother as [-> | [[m' ->] [m ->]]]; reflexivity.
Qed.

End StoreFrame.

Lemma storeFile_keeps_other_files_witness :
  "idb_1700000000000_k3x9q2m1z" <> IndexedDBBackend.generateFileId
                                     (host_with None "1700000000001" "zzzzzzzzz")
  /\ "idb_1700000000000_k3x9q2m1z" <> LocalStorageBackend.generateFileId
                                        (host_with None "1700000000001" "zzzzzzzzz")
  /\ @StorageManager.getFile raw_DataURL
       (@StorageManager.storeFile raw_DataURL vault_with_photo "asha" notes_txt
          "DOCUMENT_TXT" ∅ (host_with None "1700000000001" "zzzzzzzzz")).2
       "idb_1700000000000_k3x9q2m1z" quiet_host
     = @StorageManager.getFile raw_DataURL vault_with_photo
         "idb_1700000000000_k3x9q2m1z" quiet_host.
Proof.
  split; [discriminate|]. split; [discriminate|].
  apply (@storeFile_keeps_other_files raw_DataURL vault_with_photo);
    discriminate.
Defined.

(** ** Refused writes *)

Lemma shadowed_false (files : gmap string (list LocalStorageBackend.FileData))
    (username : string) :
  is_Some (files !! username) \/ username ∉ Object_prototype_keys ->
  LocalStorageBackend.shadowed files username = false.
Proof.
  unfold LocalStorageBackend.shadowed, inherited.
  intros [[userFiles ->] | Hown]; [reflexivity|].
  destruct (files !! username); [reflexivity|].
  by apply bool_decide_eq_false_2.
Qed.

Lemma shadowed_true (files : gmap string (list LocalStorageBackend.FileData))
    (username : string) :
  files !! username = None ->
  username ∈ Object_prototype_keys ->
  LocalStorageBackend.shadowed files username = true.
Proof.
  unfold LocalStorageBackend.shadowed, inherited. intros -> Hin.
  by apply bool_decide_eq_true_2.
Qed.

(** X4: when the browser accepts the write of the files item and refuses
    the write of the index, [storeFile] of the localStorage backend rejects
    although the file is already in its owner's array; the id is not in
    the index, so [getFile] and [deleteFile] of that id both reject with
    "File not found in localStorage" and the element stays. The user has
    an array already or a name that is no property of [Object.prototype];
    for the other user names nothing is ever written, as the next result
    shows. *)
Theorem localStorage_refused_index_write `{DataURL}
    (st : LocalStorageBackend.state) (username : string) (file : File)
    (category : string) (metadata : gmap string value) (h : Host)
    (e : DOMException) :
  is_Some (LocalStorageBackend.ls_files st !! username)
  \/ username ∉ Object_prototype_keys ->
  file_size file <= LocalStorageBackend.maxFileSize ->
  h_reader h = None ->
  h_setItem h 0%nat = None ->
  h_setItem h 1%nat = Some e ->
  LocalStorageBackend.ls_index st !! LocalStorageBackend.generateFileId h = None ->
  exists st',
    LocalStorageBackend.storeFile st username file category metadata h
    = (Rejected (LocalStorageBackend.rethrow e), st')
    /\ (exists userFiles fileData,
          LocalStorageBackend.ls_files st' !! username = Some userFiles
          /\ fileData ∈ userFiles
          /\ LocalStorageBackend.fd_id fileData
             = LocalStorageBackend.generateFileId h
          /\ LocalStorageBackend.fd_data fileData = readAsDataURL file)
    /\ LocalStorageBackend.ls_index st' = LocalStorageBackend.ls_index st
    /\ forall h',
         LocalStorageBackend.getFile st' (LocalStorageBackend.generateFileId h) h'
         = Rejected "File not found in localStorage"
         /\ LocalStorageBackend.deleteFile st'
              (LocalStorageBackend.generateFileId h) h'
            = (Rejected "File not found in localStorage", st').
Proof.
  intros Hown Hsize Hreader Hfirst Hsecond Hindex.
  unfold LocalStorageBackend.storeFile, LocalStorageBackend.saveToLocalStorage.
  destruct (Z.gtb_spec (file_size file) LocalStorageBackend.maxFileSize);
    [lia|].
  rewrite Hreader, (shadowed_false _ _ Hown), Hfirst, Hsecond.
  eexists. split; [reflexivity|].
  split_and!.
  - match goal with
    | |- context [default [] ?old ++ [?fd]] => exists (default [] old ++ [fd]), fd
    end.
    cbn [LocalStorageBackend.ls_files LocalStorageBackend.fd_id
         LocalStorageBackend.fd_data LocalStorageBackend.stringified].
    rewrite lookup_insert_eq. split_and!; [reflexivity| |reflexivity..].
    apply elem_of_app. right. by apply list_elem_of_singleton.
  - reflexivity.
  - intros h'. unfold LocalStorageBackend.getFile, LocalStorageBackend.deleteFile.
    cbn. by rewrite Hindex.
Qed.

Lemma localStorage_refused_index_write_witness :
  exists st',
    @LocalStorageBackend.storeFile raw_DataURL LocalStorageBackend.empty "asha"
      notes_txt "DOCUMENT_TXT" ∅ nearly_full_host
    = (Rejected quota_message, st')
    /\ (exists userFiles fileData,
          LocalStorageBackend.ls_files st' !! "asha" = Some userFiles
          /\ fileData ∈ userFiles
          /\ LocalStorageBackend.fd_id fileData = "ls_1700000000000_k3x9q2m1z"
          /\ LocalStorageBackend.fd_data fileData
             = @readAsDataURL raw_DataURL notes_txt)
    /\ LocalStorageBackend.ls_index st' = ∅
    /\ forall h',
         @LocalStorageBackend.getFile raw_DataURL st'
           "ls_1700000000000_k3x9q2m1z" h'
         = Rejected "File not found in localStorage"
         /\ LocalStorageBackend.deleteFile st' "ls_1700000000000_k3x9q2m1z" h'
            = (Rejected "File not found in localStorage", st').
Proof.
  apply (@localStorage_refused_index_write raw_DataURL
           LocalStorageBackend.empty "asha" notes_txt "DOCUMENT_TXT" ∅
           nearly_full_host quota_exceeded); try reflexivity.
  - right. unfold Object_prototype_keys. rewrite !not_elem_of_cons.
    split_and!; try discriminate. apply not_elem_of_nil.
  - vm_compute. discriminate.
Defined.

(** X21: a user whose name is a property of [Object.prototype]
    ('constructor', 'toString', '__proto__', ...) and who has no array yet
    cannot store in localStorage. Once the file is read, [storeFile]
    rejects in every browser, not with the quota message, and neither
    item is written: [files[username]] is the inherited property, the
    array is never created, and [push] on it throws before the first
    [setItem]. *)
Theorem localStorage_inherited_user_name `{DataURL}
    (st : LocalStorageBackend.state) (username : string) (file : File)
    (category : string) (metadata : gmap string value) (h : Host) :
  username ∈ Object_prototype_keys ->
  LocalStorageBackend.ls_files st !! username = None ->
  h_reader h = None ->
  exists message,
    LocalStorageBackend.storeFile st username file category metadata h
    = (Rejected message, st)
    /\ message <> quota_message.
Proof.
  intros Hname Hnone Hreader. unfold LocalStorageBackend.storeFile.
  destruct (file_size file >? _).
  - eexists. split; [reflexivity|].
    rewrite formatFileSize_maxFileSize. discriminate.
  - rewrite Hreader. unfold LocalStorageBackend.saveToLocalStorage.
    rewrite (shadowed_true _ _ Hnone Hname).
    eexists. split; [reflexivity|]. discriminate.
Qed.

Lemma localStorage_inherited_user_name_witness :
  exists message,
    @LocalStorageBackend.storeFile raw_DataURL LocalStorageBackend.empty
      "constructor" notes_txt "DOCUMENT_TXT" ∅ nearly_full_host
    = (Rejected message, LocalStorageBackend.empty)
    /\ message <> quota_message.
Proof.
  apply (@localStorage_inherited_user_name raw_DataURL
           LocalStorageBackend.empty "constructor" notes_txt "DOCUMENT_TXT" ∅
           nearly_full_host).
  - unfold Object_prototype_keys. apply elem_of_cons. by left.
  - reflexivity.
  - reflexivity.
Defined.

(** X5: [storeFile] of the IndexedDB backend never replaces or drops a
    record that is in the database, in either store; when the id it
    generates is taken in one of them it rejects and the database is as it
    was. *)
Theorem indexedDB_storeFile_keeps_records (db : IndexedDBBackend.state)
    (username : string) (file : File) (category : string)
    (metadata : gmap string value) (h : Host) :
  (forall fileId fileData,
     IndexedDBBackend.os_files db !! fileId = Some fileData ->
     IndexedDBBackend.os_files
       (IndexedDBBackend.storeFile db username file category metadata h).2
     !! fileId = Some fileData)
  /\ (forall fileId metadataRecord,
        IndexedDBBackend.os_metadata db !! fileId = Some metadataRecord ->
        IndexedDBBackend.os_metadata
          (IndexedDBBackend.storeFile db username file category metadata h).2
        !! fileId = Some metadataRecord)
  /\ (is_Some (IndexedDBBackend.os_files db
               !! IndexedDBBackend.generateFileId h)
      \/ is_Some (IndexedDBBackend.os_metadata db
                  !! IndexedDBBackend.generateFileId h) ->
      exists message,
        IndexedDBBackend.storeFile db username file category metadata h
        = (Rejected message, db)).
Proof.
  destruct (indexedDB_storeFile_atomic db username file category metadata h)
    as [[message Hrejected] | (r & fd & mr & Hstored & _ & _ & Hfiles & Hmeta)].
  - rewrite Hrejected. cbn. split_and!; [done..|]. eauto.
  - assert (sf_id r = IndexedDBBackend.generateFileId h) as Hid.
    { revert Hstored. unfold IndexedDBBackend.storeFile.
      repeat case_match; try discriminate. by intros [= <- _]. }
    rewrite Hstored. cbn. split_and!.
    + intros fileId fileData Hheld. rewrite lookup_insert_ne; [done|].
      intros <-. by rewrite Hfiles in Hheld.
    + intros fileId metadataRecord Hheld. rewrite lookup_insert_ne; [done|].
      intros <-. by rewrite Hmeta in Hheld.
    + rewrite <- Hid, Hfiles, Hmeta. intros [[? ?]|[? ?]]; discriminate.
Qed.

(** X6: there is no failover. With the IndexedDB backend first, a
    [storeFile] that rejects leaves every backend as it was: the file is
    not offered to the localStorage backend behind it. *)
Theorem storeFile_rejected_no_failover `{DataURL}
    (db : IndexedDBBackend.state) (rest : list StorageManager.backend)
    (username : string) (file : File) (category : string)
    (metadata : gmap string value) (h : Host) (message : string) :
  (StorageManager.storeFile (StorageManager.IndexedDB db :: rest) username
     file category metadata h).1
  = Rejected message ->
  (StorageManager.storeFile (StorageManager.IndexedDB db :: rest) username
     file category metadata h).2
  = StorageManager.IndexedDB db :: rest.
Proof.
  unfold StorageManager.storeFile.
  destruct (StorageManager.processedFile file h) as [processed compressed].
  rewrite selectBackendForFile_first. cbn [lookup list_lookup].
  cbn [StorageManager.backend_storeFile].
  destruct (indexedDB_storeFile_atomic db username processed category
              (StorageManager.store_metadata metadata file compressed
                 (StorageManager.determineDirectory category metadata)) h)
    as [[message' ->] | (r & fd & mr & -> & _)]; cbn; [done|discriminate].
Qed.

Lemma storeFile_rejected_no_failover_witness :
  (@StorageManager.storeFile raw_DataURL fresh_vault "asha" notes_txt
     "DOCUMENT_TXT" ∅ full_disk_host).1
  = Rejected quota_message
  /\ (@StorageManager.storeFile raw_DataURL fresh_vault "asha" notes_txt
        "DOCUMENT_TXT" ∅ full_disk_host).2
     = fresh_vault.
Proof.
  split; [reflexivity|].
  apply (@storeFile_rejected_no_failover raw_DataURL IndexedDBBackend.empty
           [StorageManager.LocalStorage LocalStorageBackend.empty] "asha"
           notes_txt "DOCUMENT_TXT" ∅ full_disk_host quota_message).
  reflexivity.
Defined.

(** ** The index of the localStorage backend *)

Lemma find_by_id_app_last (userFiles : list LocalStorageBackend.FileData)
    (fileData : LocalStorageBackend.FileData) :
  is_Some
    (LocalStorageBackend.find_by_id (userFiles ++ [fileData])
       (LocalStorageBackend.fd_id fileData)).
Proof.
  unfold LocalStorageBackend.find_by_id.
  induction userFiles as [|f rest IH]; cbn.
  - rewrite bool_decide_eq_true_2 by reflexivity. by eexists.
  - destruct (bool_decide _); [by eexists|exact IH].
Qed.

Lemma indexed_appended (st : LocalStorageBackend.state) (username : string)
    (fileData : LocalStorageBackend.FileData) :
  indexed st ->
  indexed
    {| LocalStorageBackend.ls_files :=
         <[username :=
             default [] (LocalStorageBackend.ls_files st !! username)
             ++ [fileData]]> (LocalStorageBackend.ls_files st);
       LocalStorageBackend.ls_index := LocalStorageBackend.ls_index st |}.
Proof.
  intros Hindexed fileId fileInfo Hentry. cbn in Hentry.
  destruct (Hindexed fileId fileInfo Hentry)
    as (Hbackend & userFiles & found & Hfiles & Hfind).
  split; [exact Hbackend|]. cbn -[LocalStorageBackend.find_by_id].
  destruct (decide (LocalStorageBackend.ie_username fileInfo = username))
    as [Hu|Hu].
  - rewrite Hu in *. rewrite lookup_insert_eq, Hfiles.
    eexists _, found. split; [reflexivity|].
    by apply find_by_id_app_found.
  - rewrite lookup_insert_ne by done. by exists userFiles, found.
Qed.

Lemma indexed_saved (st : LocalStorageBackend.state) (username : string)
    (fileData : LocalStorageBackend.FileData) :
  indexed st ->
  indexed
    {| LocalStorageBackend.ls_files :=
         <[username :=
             default [] (LocalStorageBackend.ls_files st !! username)
             ++ [fileData]]> (LocalStorageBackend.ls_files st);
       LocalStorageBackend.ls_index :=
         <[LocalStorageBackend.fd_id fileData :=
             {| LocalStorageBackend.ie_username := username;
                LocalStorageBackend.ie_backend := "localStorage" |}]>
           (LocalStorageBackend.ls_index st) |}.
Proof.
  intros Hindexed fileId fileInfo Hentry. cbn in Hentry.
  destruct (decide (fileId = LocalStorageBackend.fd_id fileData)) as [->|Hid].
  - rewrite lookup_insert_eq in Hentry. injection Hentry as <-.
    split; [reflexivity|]. cbn -[LocalStorageBackend.find_by_id].
    rewrite lookup_insert_eq.
    destruct (find_by_id_app_last
                (default [] (LocalStorageBackend.ls_files st !! username))
                fileData) as [found Hfound].
    by eexists _, found.
  - rewrite lookup_insert_ne in Hentry by done.
    by apply (indexed_appended st username fileData Hindexed).
Qed.

Lemma indexed_storeFile `{DataURL} (st : LocalStorageBackend.state)
    (username : string) (file : File) (category : string)
    (metadata : gmap string value) (h : Host) :
  indexed st ->
  indexed
    (LocalStorageBackend.storeFile st username file category metadata h).2.
Proof.
  intros Hindexed.
  destruct (localStorage_storeFile_states st username file category metadata h)
    as (fd & Hid & _ & _ & [[message ->] | [(e & _ & ->) | (r & -> & _)]]);
    cbn [snd].
  - exact Hindexed.
  - by apply indexed_appended.
  - rewrite <- Hid. by apply indexed_saved.
Qed.

Lemma indexed_deleteFile (st : LocalStorageBackend.state) (fileId : string)
    (h : Host) :
  h_setItem h 1%nat = None ->
  indexed st ->
  indexed (LocalStorageBackend.deleteFile st fileId h).2.
Proof.
  intros Hsecond Hindexed. unfold LocalStorageBackend.deleteFile.
  destruct (LocalStorageBackend.ls_index st !! fileId) as [fileInfo|] eqn:Hindex;
    [|exact Hindexed].
  destruct (negb _); [exact Hindexed|].
  destruct (LocalStorageBackend.shadowed _ _); [exact Hindexed|].
  destruct (h_setItem h 0%nat); [exact Hindexed|].
  rewrite Hsecond. cbn [snd].
  intros fileId' fileInfo' Hentry. cbn in Hentry.
  destruct (decide (fileId' = fileId)) as [->|Hne].
  - by rewrite lookup_delete_eq in Hentry.
  - rewrite lookup_delete_ne in Hentry by done.
    destruct (Hindexed fileId' fileInfo' Hentry)
      as (Hbackend & userFiles & found & Hfiles & Hfind).
    split; [exact Hbackend|]. cbn -[LocalStorageBackend.find_by_id].
    destruct (LocalStorageBackend.ls_files st
              !! LocalStorageBackend.ie_username fileInfo)
      as [owned|] eqn:Howned; [|by exists userFiles, found].
    destruct (decide (LocalStorageBackend.ie_username fileInfo'
                      = LocalStorageBackend.ie_username fileInfo)) as [Hu|Hu].
    + rewrite Hu, lookup_insert_eq. rewrite Hu, Howned in Hfiles.
      injection Hfiles as ->.
      eexists _, found. split; [reflexivity|].
      by rewrite find_by_id_filter.
    + rewrite lookup_insert_ne by done. by exists userFiles, found.
Qed.

(** X7: the index of the localStorage backend stays sound: from the empty
    state on, after any [storeFile] (also one cut short by a refused
    write) and after any [deleteFile] whose second write is not refused,
    every id in the index leads to an element of the array of the user it
    names. In such a state [getFile] resolves for exactly the ids of the
    index. *)
Theorem localStorage_index_sound `{DataURL} :
  indexed LocalStorageBackend.empty
  /\ (forall st username file category metadata h,
        indexed st ->
        indexed
          (LocalStorageBackend.storeFile st username file category metadata h).2)
  /\ (forall st fileId h,
        h_setItem h 1%nat = None ->
        indexed st ->
        indexed (LocalStorageBackend.deleteFile st fileId h).2)
  /\ (forall st fileId h,
        indexed st ->
        (is_Some (LocalStorageBackend.ls_index st !! fileId)
         <-> exists got, LocalStorageBackend.getFile st fileId h = Resolved got)).
Proof.
  split_and!.
  - intros fileId fileInfo Hentry. cbn in Hentry.
    by rewrite lookup_empty in Hentry.
  - intros. by apply indexed_storeFile.
  - intros. by apply indexed_deleteFile.
  - intros st fileId h Hindexed. split.
    + intros [fileInfo Hentry].
      destruct (Hindexed fileId fileInfo Hentry)
        as (Hbackend & userFiles & found & Hfiles & Hfind).
      unfold LocalStorageBackend.getFile.
      rewrite Hentry, Hbackend, Hfiles, Hfind. cbn. by eexists.
    + intros [got Hgot]. unfold LocalStorageBackend.getFile in Hgot.
      destruct (LocalStorageBackend.ls_index st !! fileId); [by eexists|].
      discriminate.
Qed.

(** A [deleteFile] whose second write is refused breaks the index: the
    element is gone from the array, the id is still in the index, and
    [getFile] of it rejects. *)
Example deleteFile_refused_index_write :
  exists st',
    LocalStorageBackend.deleteFile
      (@LocalStorageBackend.storeFile raw_DataURL LocalStorageBackend.empty
         "asha" notes_txt "DOCUMENT_TXT" ∅ quiet_host).2
      "ls_1700000000000_k3x9q2m1z" nearly_full_host
    = (Rejected "The quota has been exceeded.", st')
    /\ LocalStorageBackend.ls_files st' !! "asha" = Some []
    /\ is_Some (LocalStorageBackend.ls_index st' !! "ls_1700000000000_k3x9q2m1z")
    /\ @LocalStorageBackend.getFile raw_DataURL st'
         "ls_1700000000000_k3x9q2m1z" quiet_host
       = Rejected "File not found in localStorage".
Proof. eexists. split_and!; try reflexivity. by eexists. Qed.

(** ** The caller's metadata *)

Lemma recorded_metadata_lookup (metadata : gmap string value)
    (file processed : File) (compressed : bool) (directory key : string) :
  key ∉ reserved_keys ->
  record_metadata
    (StorageManager.store_metadata metadata file compressed directory)
    processed
  !! key = metadata !! key.
Proof.
  unfold reserved_keys. rewrite !not_elem_of_cons.
  intros (H1 & H2 & H3 & H4 & H5 & H6 & _).
  unfold record_metadata, StorageManager.store_metadata.
  rewrite !lookup_insert_ne by congruence. reflexivity.
Qed.

Lemma as_stored_localStorage (v : value) :
  as_stored "LocalStorage" v = json v.
Proof. by destruct v. Qed.

(** X8: what the caller puts into the metadata comes back. After a
    successful [storeFile], [getFile] of the id returned carries every key
    of the caller's metadata, except the eight keys that the manager, the
    backend and [getFile] set themselves, with its value as the backend
    keeps it: the value itself from IndexedDB, and from localStorage what
    JSON makes of it, where a Blob or an ArrayBuffer has become [{}]. *)
Theorem metadata_roundtrip `{DataURL}
    (backends backends' : list StorageManager.backend) (username : string)
    (file : File) (category : string) (metadata : gmap string value)
    (h h' : Host) (r : StoredFile) (key : string) (v : value) :
  StorageManager.storeFile backends username file category metadata h
  = (Resolved r, backends') ->
  new_id backends (sf_id r) ->
  metadata !! key = Some v ->
  key ∉ reserved_keys ->
  exists got,
    StorageManager.getFile backends' (sf_id r) h' = Resolved got
    /\ fetched_metadata (sf_storage r) got key
       = Some (as_stored (sf_storage r) v).
Proof.
  unfold StorageManager.storeFile.
  destruct (StorageManager.processedFile file h) as [processed compressed].
  rewrite selectBackendForFile_first.
  destruct backends as [|b rest]; [discriminate|].
  cbn [lookup list_lookup].
  destruct b as [db|st]; cbn [StorageManager.backend_storeFile].
  - destruct (IndexedDBBackend.storeFile _ _ _ _ _ _) as [r0 db'] eqn:Hstore.
    intros [= -> <-] _ Hvalue Hkey.
    pose proof Hstore as Hr.
    apply (indexedDB_store_then_get _ _ _ _ _ _ h h') in Hstore
      as (fileData & metadataRecord & Hf & Hm & _ & Hmeta & _).
    assert (sf_storage r = "IndexedDB") as Hstorage.
    { revert Hr. unfold IndexedDBBackend.storeFile.
      repeat case_match; try discriminate. by intros [= <- _]. }
    cbn [StorageManager.getFile StorageManager.backend_getFile list_insert insert].
    unfold IndexedDBBackend.getFile. rewrite Hf, Hm.
    eexists. split; [reflexivity|].
    unfold fetched_metadata, as_stored. rewrite Hstorage.
    rewrite !bool_decide_eq_true_2 by reflexivity.
    assert (key <> "url" /\ key <> "blob") as [Hurl Hblob].
    { revert Hkey. unfold reserved_keys. rewrite !not_elem_of_cons.
      by intros (_ & _ & _ & _ & _ & _ & ? & ? & _). }
    rewrite !lookup_insert_ne by congruence. unfold spread.
    apply lookup_union_Some_l. rewrite Hmeta.
    by rewrite recorded_metadata_lookup.
  - destruct (LocalStorageBackend.storeFile _ _ _ _ _ _) as [r0 st'] eqn:Hstore.
    intros [= -> <-] Hfresh Hvalue Hkey.
    pose proof Hstore as Hr.
    apply (localStorage_store_then_get _ _ _ _ _ _ h h') in Hstore
      as (fileData & Hget & Hmeta & _); [|by apply Hfresh].
    assert (sf_storage r = "LocalStorage") as Hstorage.
    { revert Hr. unfold LocalStorageBackend.storeFile.
      repeat case_match; try discriminate. by intros [= <- _]. }
    cbn [StorageManager.getFile StorageManager.backend_getFile list_insert insert].
    rewrite Hget. eexists. split; [reflexivity|].
    unfold fetched_metadata. rewrite Hstorage, as_stored_localStorage.
    rewrite !bool_decide_eq_false_2 by discriminate.
    rewrite !lookup_insert_ne by done.
    unfold LocalStorageBackend.fileData_fields.
    rewrite !lookup_insert_ne, lookup_insert_eq by done.
    rewrite Hmeta, lookup_fmap, recorded_metadata_lookup by done.
    by rewrite Hvalue.
Qed.

Lemma metadata_roundtrip_witness :
  exists r backends',
    @StorageManager.storeFile raw_DataURL localStorage_vault "asha" notes_txt
      "DOCUMENT_TXT"
      {[ "description" := VStr "shopping list";
         "thumbnail" := VBlob [Byte.x68; Byte.x69] ]} quiet_host
    = (Resolved r, backends')
    /\ exists got,
         @StorageManager.getFile raw_DataURL backends' (sf_id r) quiet_host
         = Resolved got
         /\ fetched_metadata (sf_storage r) got "thumbnail"
            = Some (as_stored (sf_storage r) (VBlob [Byte.x68; Byte.x69])).
Proof.
  eexists _, _. split; [reflexivity|].
  apply (@metadata_roundtrip raw_DataURL localStorage_vault _ "asha" notes_txt
           "DOCUMENT_TXT"
           {[ "description" := VStr "shopping list";
              "thumbnail" := VBlob [Byte.x68; Byte.x69] ]}
           quiet_host quiet_host).
  - reflexivity.
  - apply localStorage_vault_new_id.
  - reflexivity.
  - unfold reserved_keys. rewrite !not_elem_of_cons.
    split_and!; try discriminate. apply not_elem_of_nil.
Defined.

(** The same file with a thumbnail in its metadata: from IndexedDB the
    thumbnail comes back as the Blob it was, from localStorage as an empty
    object, and the description comes back from both. *)
Example thumbnail_through_both_backends :
  exists r backends' got r' backends'' got',
    @StorageManager.storeFile raw_DataURL fresh_vault "asha" notes_txt
      "DOCUMENT_TXT"
      {[ "description" := VStr "shopping list";
         "thumbnail" := VBlob [Byte.x68; Byte.x69] ]} quiet_host
    = (Resolved r, backends')
    /\ @StorageManager.getFile raw_DataURL backends' (sf_id r) quiet_host
       = Resolved got
    /\ got !! "thumbnail" = Some (VBlob [Byte.x68; Byte.x69])
    /\ got !! "description" = Some (VStr "shopping list")
    /\ @StorageManager.storeFile raw_DataURL localStorage_vault "asha"
         notes_txt "DOCUMENT_TXT"
         {[ "description" := VStr "shopping list";
            "thumbnail" := VBlob [Byte.x68; Byte.x69] ]} quiet_host
       = (Resolved r', backends'')
    /\ @StorageManager.getFile raw_DataURL backends'' (sf_id r') quiet_host
       = Resolved got'
    /\ got' !! "metadata"
       = Some (VObj (<["filetype" := VStr "text/plain"]>
                       (<["size" := VNum 3]>
                          (<["filename" := VStr "notes.txt"]>
                             (<["directory" := VStr "/files/"]>
                                (<["compressed" := VBool false]>
                                   (<["originalSize" := VNum 3]>
                                      (<["description" := VStr "shopping list"]>
                                         (<["thumbnail" := VObj ∅]> ∅))))))))).
Proof.
  eexists _, _, _, _, _, _. split_and!; [reflexivity..|].
  vm_compute. reflexivity.
Qed.

(** A caller's key named like a reserved one is overwritten: the
    'originalSize' that comes back is the size of the file, not the
    caller's value. *)
Example reserved_key_overwritten :
  exists r backends' got,
    @StorageManager.storeFile raw_DataURL fresh_vault "asha" notes_txt
      "DOCUMENT_TXT" {[ "originalSize" := VNum 999 ]} quiet_host
    = (Resolved r, backends')
    /\ @StorageManager.getFile raw_DataURL backends' (sf_id r) quiet_host
       = Resolved got
    /\ got !! "originalSize" = Some (VNum 3).
Proof. eexists _, _, _. split_and!; reflexivity. Qed.

(** ** Sizes in words *)

Lemma power_of_1024 (bytes i : Z) :
  0 <= i ->
  2 ^ (10 * i) <= bytes < 2 ^ (10 * (i + 1)) ->
  Z.log2 bytes / Z.log2 1024 = i.
Proof.
  intros Hi [Hlow Hhigh].
  assert (0 < bytes) as Hpos.
  { pose proof (Z.pow_pos_nonneg 2 (10 * i)). lia. }
  change (Z.log2 1024) with 10.
  assert (10 * i <= Z.log2 bytes).
  { rewrite <- (Z.log2_pow2 (10 * i)) by lia. by apply Z.log2_le_mono. }
  assert (Z.log2 bytes < 10 * (i + 1)).
  { apply Z.log2_lt_pow2; lia. }
  symmetry. apply (Z.div_unique _ 10 i (Z.log2 bytes - 10 * i)); lia.
Qed.

Lemma fixed_digits_whole (n : Z) :
  0 <= n -> fixed_digits 2 (inject_Z n) = 100 * n.
Proof.
  intros Hn. unfold fixed_digits.
  rewrite (Qfloor_comp _ ((200 * n + 1) # 2)).
  - cbn. symmetry. apply Z.div_unique with 1; lia.
  - rewrite Qabs_pos by (unfold Qle; cbn; lia).
    change (inject_Z (10 ^ Z.of_nat 2)) with (100 # 1)%Q.
    unfold Qeq, Qmult, Qplus, inject_Z. simpl Qnum. simpl Qden. lia.
Qed.

Lemma parseFloat_toFixed2_whole (n : Z) (q : Q) :
  0 <= n -> (q == inject_Z n)%Q -> parseFloat_toFixed2 q = pretty n.
Proof.
  intros Hn Hq. unfold parseFloat_toFixed2, fixed_digits.
  rewrite (Qfloor_comp _ (Qabs (inject_Z n) * inject_Z (10 ^ Z.of_nat 2) + (1 # 2))).
  - fold (fixed_digits 2 (inject_Z n)). rewrite fixed_digits_whole by done.
    replace (100 * n mod 100) with 0
      by (apply Z.mod_unique with n; lia).
    replace (100 * n / 100) with n
      by (apply Z.div_unique with 0; lia).
    reflexivity.
  - by rewrite Hq.
Qed.

(** X9: [formatFileSize] picks the unit by the power of 1024 the number
    lies in: Bytes below 1024, then KB, MB and GB. From 1024^4 on there is
    no unit left and the text ends in " undefined"; a negative number
    gives "NaN undefined". A whole multiple [n * 1024^i] with [n] below
    1024 is written as [n] and the unit, without decimals. *)
Theorem formatFileSize_units (bytes : Z) :
  (bytes < 0 -> formatFileSize bytes = "NaN undefined")
  /\ (forall (i : nat) unit,
        sizes !! i = Some unit ->
        1024 ^ Z.of_nat i <= bytes < 1024 ^ (Z.of_nat i + 1) ->
        exists digits, formatFileSize bytes = digits +:+ " " +:+ unit)
  /\ (1024 ^ 4 <= bytes ->
      exists digits, formatFileSize bytes = digits +:+ " undefined")
  /\ (forall (i : nat) unit n,
        sizes !! i = Some unit ->
        0 < n < 1024 ->
        bytes = n * 1024 ^ Z.of_nat i ->
        formatFileSize bytes = pretty n +:+ " " +:+ unit).
Proof.
  split_and!.
  - intros Hneg. unfold formatFileSize.
    destruct (Z.eqb_spec bytes 0); [lia|].
    destruct (Z.ltb_spec bytes 0); [reflexivity|lia].
  - intros i unit Hunit [Hlow Hhigh].
    assert (0 < bytes) as Hpos.
    { pose proof (Z.pow_pos_nonneg 1024 (Z.of_nat i)). lia. }
    unfold formatFileSize.
    destruct (Z.eqb_spec bytes 0); [lia|].
    destruct (Z.ltb_spec bytes 0); [lia|].
    cbn zeta. rewrite (power_of_1024 bytes (Z.of_nat i)).
    + rewrite Nat2Z.id, Hunit. by eexists.
    + lia.
    + change 1024 with (2 ^ 10) in Hlow, Hhigh.
      rewrite <- !Z.pow_mul_r in Hlow, Hhigh by lia. lia.
  - intros Hlarge. unfold formatFileSize.
    destruct (Z.eqb_spec bytes 0); [lia|].
    destruct (Z.ltb_spec bytes 0); [lia|].
    cbn zeta.
    assert (4 <= Z.log2 bytes / Z.log2 1024) as Hfour.
    { change (Z.log2 1024) with 10. apply Z.div_le_lower_bound; [lia|].
      change (10 * 4) with (Z.log2 (1024 ^ 4)). by apply Z.log2_le_mono. }
    rewrite (lookup_ge_None_2 sizes)
      by (change (length sizes) with 4%nat; lia).
    by eexists.
  - intros i unit n Hunit [Hn Hn'] ->.
    assert (0 < 1024 ^ Z.of_nat i) as Hpow by (apply Z.pow_pos_nonneg; lia).
    unfold formatFileSize.
    destruct (Z.eqb_spec (n * 1024 ^ Z.of_nat i) 0); [nia|].
    destruct (Z.ltb_spec (n * 1024 ^ Z.of_nat i) 0); [nia|].
    cbn zeta. rewrite (power_of_1024 _ (Z.of_nat i)).
    + rewrite Nat2Z.id, Hunit. cbn [default from_option id].
      rewrite (parseFloat_toFixed2_whole n); [reflexivity|lia|].
      rewrite inject_Z_mult. apply Qdiv_mult_l.
      unfold Qeq, inject_Z. cbn. lia.
    + lia.
    + assert (2 ^ (10 * Z.of_nat i) = 1024 ^ Z.of_nat i) as ->.
      { change 1024 with (2 ^ 10). by rewrite <- Z.pow_mul_r by lia. }
      assert (2 ^ (10 * (Z.of_nat i + 1)) = 1024 * 1024 ^ Z.of_nat i) as ->.
      { replace (10 * (Z.of_nat i + 1)) with (10 + 10 * Z.of_nat i) by lia.
        rewrite Z.pow_add_r by lia. change (2 ^ 10) with 1024.
        change 1024 with (2 ^ 10) at 3. by rewrite <- Z.pow_mul_r by lia. }
      nia.
Qed.

(** Just below a power of 1024 the number rounds up into the next power's
    digits but keeps the smaller unit. *)
Example formatFileSize_rounding :
  formatFileSize (1024 * 1024 - 1) = "1024 KB"
  /\ formatFileSize 1536 = "1.5 KB"
  /\ formatFileSize (1024 ^ 4) = "1 undefined".
Proof. split_and!; vm_compute; reflexivity. Qed.

(** ** Admission, further *)

(** X10: admission is monotone: a size that is admitted admits every
    smaller size, and a batch whose total [storeAndProcessFiles] gets
    admitted contains, sizes not being negative, only files that would be
    admitted alone. *)
Theorem canStoreFile_monotone (host : StorageManager.StorageEstimate) :
  (forall fileSize fileSize',
     fileSize' <= fileSize ->
     StorageManager.canStore (StorageManager.canStoreFile host fileSize) = true ->
     StorageManager.canStore (StorageManager.canStoreFile host fileSize') = true)
  /\ (forall files file,
        Forall (fun f => 0 <= file_size f) files ->
        file ∈ files ->
        StorageManager.canStore
          (StorageManager.canStoreFile host (batch_totalSize files)) = true ->
        StorageManager.canStore
          (StorageManager.canStoreFile host (file_size file)) = true).
Proof.
  assert (forall fileSize fileSize',
            fileSize' <= fileSize ->
            StorageManager.canStore (StorageManager.canStoreFile host fileSize)
            = true ->
            StorageManager.canStore (StorageManager.canStoreFile host fileSize')
            = true) as Hmono.
  { intros fileSize fileSize' Hle. unfold StorageManager.canStoreFile.
    destruct (StorageManager.checkStorageQuota host) as [q|]; [|done]. cbn.
    destruct (Z.ltb_spec (StorageManager.qi_available q)
                (fileSize + 10 * 1024 * 1024)); [discriminate|].
    destruct (Z.ltb_spec (StorageManager.qi_available q)
                (fileSize' + 10 * 1024 * 1024)); [lia|done]. }
  split; [exact Hmono|].
  intros files file Hsizes Hin. apply Hmono.
  unfold batch_totalSize.
  assert (forall l acc,
            Forall (fun f => 0 <= file_size f) l ->
            acc <= fold_left (fun sum f => sum + file_size f) l acc
            /\ (file ∈ l ->
                acc + file_size file
                <= fold_left (fun sum f => sum + file_size f) l acc)) as Hsum.
  { induction l as [|x l IH]; intros acc Hall; cbn.
    - split; [lia|]. by intros ?%elem_of_nil.
    - apply Forall_cons in Hall as [Hx Hall].
      destruct (IH (acc + file_size x) Hall) as [Hacc Hmember].
      split; [lia|].
      intros [-> | Hl]%elem_of_cons; [lia|]. specialize (Hmember Hl). lia. }
  destruct (Hsum files 0 Hsizes) as [_ Hmember]. specialize (Hmember Hin). lia.
Qed.

(** X11: when the browser reports more usage than quota, [canStoreFile]
    refuses every file that is not of negative size, and its reason gives
    the available space as "NaN undefined". *)
Theorem canStoreFile_over_quota (usage quota fileSize : Z) :
  quota < usage ->
  0 <= fileSize ->
  StorageManager.canStoreFile (StorageManager.Estimate usage quota) fileSize
  = {| StorageManager.canStore := false;
       StorageManager.reason :=
         Some ("Insufficient storage. File size: " +:+
               formatFileSize fileSize +:+ ", Available: NaN undefined") |}.
Proof.
  intros Hover Hsize. unfold StorageManager.canStoreFile. cbn.
  destruct (Z.ltb_spec (quota - usage) (fileSize + 10 * 1024 * 1024)); [|lia].
  unfold formatFileSize at 2.
  destruct (Z.eqb_spec (quota - usage) 0); [lia|].
  destruct (Z.ltb_spec (quota - usage) 0); [reflexivity|lia].
Qed.

Lemma canStoreFile_over_quota_witness :
  500 < 800 /\ 0 <= 2048
  /\ StorageManager.canStoreFile (StorageManager.Estimate 800 500) 2048
     = {| StorageManager.canStore := false;
          StorageManager.reason :=
            Some "Insufficient storage. File size: 2 KB, Available: NaN undefined" |}.
Proof.
  split; [lia|]. split; [lia|].
  apply (canStoreFile_over_quota 800 500 2048); lia.
Defined.

(** ** The merged listing, further *)

Section ListingTotals.
Variable backend_getUserFiles :
  StorageManager.backend -> string -> string + list StorageManager.Summary.

Lemma fold_add_unseen_sublist files acc :
  exists kept,
    (fold_left StorageManager.add_unseen files acc).1 = acc.1 ++ kept
    /\ sublist kept files.
Proof.
  revert acc. induction files as [|file files IH]; intros acc; cbn.
  - exists []. by rewrite app_nil_r.
  - destruct (IH (StorageManager.add_unseen acc file)) as (kept & -> & Hsub).
    unfold StorageManager.add_unseen. case_bool_decide; cbn.
    + exists kept. split; [done|]. by apply sublist_cons.
    + exists (file :: kept). rewrite <- app_assoc. split; [done|].
      by apply sublist_skip.
Qed.

Lemma fold_add_unseen_all files acc :
  NoDup (ids files) ->
  (forall file, file ∈ files -> StorageManager.s_id file ∉ acc.2) ->
  (fold_left StorageManager.add_unseen files acc).1 = acc.1 ++ files.
Proof.
  revert acc. induction files as [|file files IH]; intros acc Hnodup Hnew; cbn.
  - by rewrite app_nil_r.
  - apply NoDup_cons in Hnodup as [Hfile Hnodup].
    unfold StorageManager.add_unseen at 2.
    rewrite bool_decide_eq_false_2 by (apply Hnew; left).
    rewrite IH; cbn.
    + by rewrite <- app_assoc.
    + done.
    + intros file' Hin. rewrite not_elem_of_union, not_elem_of_singleton.
      split.
      * intros Heq. apply Hfile. rewrite <- Heq.
        apply list_elem_of_fmap. by exists file'.
      * apply Hnew. by right.
Qed.

Lemma sum_sizes_app files files' :
  StorageManager.sum_sizes (files ++ files')
  = StorageManager.sum_sizes files + StorageManager.sum_sizes files'.
Proof.
  induction files as [|file files IH]; [reflexivity|].
  rewrite <- app_comm_cons, !sum_sizes_cons, IH. lia.
Qed.

Lemma sum_sizes_sublist kept files :
  sublist kept files ->
  Forall (fun file => 0 <= StorageManager.s_size file) files ->
  0 <= StorageManager.sum_sizes kept <= StorageManager.sum_sizes files.
Proof.
  induction 1 as [|file kept files _ IH|file kept files _ IH]; intros Hall.
  - done.
  - apply Forall_cons in Hall as [Hfile Hall]. rewrite !sum_sizes_cons.
    specialize (IH Hall). lia.
  - apply Forall_cons in Hall as [Hfile Hall]. rewrite sum_sizes_cons.
    specialize (IH Hall). lia.
Qed.

Lemma getUserFiles_sublist backends username :
  sublist (StorageManager.getUserFiles backend_getUserFiles backends username)
    (visited backend_getUserFiles backends username).
Proof.
  unfold StorageManager.getUserFiles. rewrite fold_add_backend.
  destruct (fold_add_unseen_sublist
              (visited backend_getUserFiles backends username) ([], ∅))
    as (kept & -> & Hsub).
  exact Hsub.
Qed.

Lemma filter_filter {A : Type} (f g : A -> bool) (l : list A) :
  List.filter f (List.filter g l) = List.filter (fun x => g x && f x) l.
Proof.
  induction l as [|x l IH]; [reflexivity|]. cbn.
  destruct (g x); cbn; [|exact IH]. destruct (f x); by rewrite IH.
Qed.

(** The loop of [getUserFiles] from any state of its set of seen ids. *)
Lemma fold_add_unseen_first files acc :
  (fold_left StorageManager.add_unseen files acc).1
  = acc.1
    ++ List.filter
         (fun file => negb (bool_decide (StorageManager.s_id file ∈ acc.2)))
         (first_of_each_id files).
Proof.
  revert acc. induction files as [|file files IH]; intros acc.
  - cbn. by rewrite app_nil_r.
  - cbn [fold_left first_of_each_id List.filter]. rewrite IH.
    unfold StorageManager.add_unseen. case_bool_decide as Hseen; cbn [negb].
    + f_equal. rewrite filter_filter. apply filter_ext. intros later.
      repeat case_bool_decide; cbn; try reflexivity; exfalso; congruence.
    + cbn [fst snd]. rewrite <- app_assoc. cbn [app]. do 2 f_equal.
      rewrite filter_filter. apply filter_ext. intros later.
      repeat case_bool_decide; cbn; try reflexivity; exfalso;
        repeat match goal with
               | Hin : _ ∈ _ ∪ _ |- _ =>
                   apply elem_of_union in Hin as [Hin%elem_of_singleton|Hin]
               | Hout : _ ∉ _ ∪ _ |- _ =>
                   apply not_elem_of_union in Hout
                     as [Hout%not_elem_of_singleton ?]
               end; congruence.
Qed.

Lemma getUserFiles_first backends username :
  StorageManager.getUserFiles backend_getUserFiles backends username
  = first_of_each_id (visited backend_getUserFiles backends username).
Proof.
  unfold StorageManager.getUserFiles.
  rewrite fold_add_backend, fold_add_unseen_first. cbn [fst snd app].
  rewrite <- (filter_ext (fun _ => true)).
  - induction (first_of_each_id _) as [|file files IH]; [reflexivity|].
    cbn. by rewrite IH.
  - intros file. by rewrite bool_decide_eq_false_2 by apply not_elem_of_empty.
Qed.

(** The totals the backends report, added up. *)
Lemma backendStats_total backends username :
  foldr (fun stats sum => StorageManager.bs_totalSize stats + sum) 0
    (StorageManager.backendStats
       (StorageManager.getStorageStats backend_getUserFiles backends username))
  = StorageManager.sum_sizes (visited backend_getUserFiles backends username).
Proof.
  unfold StorageManager.getStorageStats. cbn [StorageManager.backendStats].
  unfold visited.
  induction backends as [|b backends IH]; [reflexivity|].
  rewrite bind_cons, sum_sizes_app, <- IH.
  change (omap ?f (b :: backends))
    with (match f b with Some y => y :: omap f backends | None => omap f backends end).
  unfold StorageManager.backend_getStats, listed.
  destruct (backend_getUserFiles b username); reflexivity.
Qed.

(** X12: [getUserFiles] returns the files the backends list, in their
    order, with exactly the later entries of a repeated id left out; if no
    id is listed twice it returns them all. The total of [getStorageStats]
    is then the sum of the totals the backends report, and with sizes that
    are not negative it is never more than that sum. *)
Theorem getUserFiles_and_backend_totals
    (backends : list StorageManager.backend) (username : string) :
  StorageManager.getUserFiles backend_getUserFiles backends username
  = first_of_each_id (visited backend_getUserFiles backends username)
  /\ sublist
       (StorageManager.getUserFiles backend_getUserFiles backends username)
       (visited backend_getUserFiles backends username)
  /\ (NoDup (ids (visited backend_getUserFiles backends username)) ->
      StorageManager.getUserFiles backend_getUserFiles backends username
      = visited backend_getUserFiles backends username
      /\ StorageManager.totalSize
           (StorageManager.getStorageStats backend_getUserFiles backends
              username)
         = foldr (fun stats sum => StorageManager.bs_totalSize stats + sum) 0
             (StorageManager.backendStats
                (StorageManager.getStorageStats backend_getUserFiles backends
                   username)))
  /\ (Forall (fun file => 0 <= StorageManager.s_size file)
        (visited backend_getUserFiles backends username) ->
      StorageManager.totalSize
        (StorageManager.getStorageStats backend_getUserFiles backends username)
      <= foldr (fun stats sum => StorageManager.bs_totalSize stats + sum) 0
           (StorageManager.backendStats
              (StorageManager.getStorageStats backend_getUserFiles backends
                 username))).
Proof.
  split_and!.
  - apply getUserFiles_first.
  - apply getUserFiles_sublist.
  - intros Hnodup.
    assert (StorageManager.getUserFiles backend_getUserFiles backends username
            = visited backend_getUserFiles backends username) as Hall.
    { unfold StorageManager.getUserFiles. rewrite fold_add_backend.
      rewrite fold_add_unseen_all; [reflexivity|done|].
      intros file _. apply not_elem_of_empty. }
    split; [exact Hall|].
    rewrite backendStats_total. unfold StorageManager.getStorageStats.
    cbn [StorageManager.totalSize]. by rewrite Hall.
  - intros Hsizes. rewrite backendStats_total.
    unfold StorageManager.getStorageStats. cbn [StorageManager.totalSize].
    by apply sum_sizes_sublist; [apply getUserFiles_sublist|].
Qed.

Lemma set_order_spec (xs acc : list string) :
  NoDup acc ->
  NoDup (fold_left
           (fun acc x => if bool_decide (x ∈ acc) then acc else acc ++ [x])
           xs acc)
  /\ forall x,
       x ∈ fold_left
             (fun acc x => if bool_decide (x ∈ acc) then acc else acc ++ [x])
             xs acc
       <-> x ∈ acc \/ x ∈ xs.
Proof.
  revert acc. induction xs as [|y xs IH]; intros acc Hacc; cbn.
  - split; [done|]. intros x. rewrite elem_of_nil. tauto.
  - case_bool_decide as Hy.
    + destruct (IH acc Hacc) as [Hnodup Helem]. split; [done|].
      intros x. rewrite Helem, elem_of_cons. split; [tauto|].
      intros [?|[->|?]]; tauto.
    + destruct (IH (acc ++ [y])) as [Hnodup Helem].
      { apply NoDup_app. split_and!; [done| |apply NoDup_singleton].
        by intros x Hx ->%list_elem_of_singleton. }
      split; [done|].
      intros x. rewrite Helem, elem_of_app, list_elem_of_singleton, elem_of_cons.
      tauto.
Qed.

Lemma first_with_id_found files fileId :
  fileId ∈ ids files ->
  exists file,
    first_with_id files fileId = Some file /\ StorageManager.s_id file = fileId.
Proof.
  unfold first_with_id, ids.
  induction files as [|f files IH]; cbn; [by intros ?%elem_of_nil|].
  intros [Heq|Hin]%elem_of_cons.
  - exists f. by rewrite bool_decide_eq_true_2.
  - case_bool_decide as Hf; [by exists f|]. by apply IH.
Qed.

Lemma getUserFiles_nodup backends username :
  NoDup (ids (StorageManager.getUserFiles backend_getUserFiles backends
                username)).
Proof.
  unfold StorageManager.getUserFiles. rewrite fold_add_backend.
  apply collected_fold. split; cbn; [constructor|].
  intros fileId. cbn. rewrite elem_of_empty, elem_of_nil. tauto.
Qed.

Lemma getUserFiles_ids backends username fileId :
  fileId ∈ ids (visited backend_getUserFiles backends username)
  <-> fileId ∈ ids (StorageManager.getUserFiles backend_getUserFiles backends
                      username).
Proof.
  split.
  - intros (file & Hfirst & <-)%first_with_id_found.
    apply list_elem_of_fmap. exists file. split; [done|].
    unfold StorageManager.getUserFiles.
    rewrite fold_add_backend, fold_add_unseen_elem.
    right. split; [apply not_elem_of_empty|done].
  - unfold ids. intros (file & -> & Hin)%list_elem_of_fmap.
    apply list_elem_of_fmap. exists file. split; [done|].
    by apply (sublist_subseteq _ _ (getUserFiles_sublist backends username)).
Qed.

(** X13: [categories] of [getStorageStats] names every category of the
    user's files once, and nothing else; [fileCount] is the number of
    different ids listed. *)
Theorem getStorageStats_categories (backends : list StorageManager.backend)
    (username : string) :
  NoDup (StorageManager.categories
           (StorageManager.getStorageStats backend_getUserFiles backends
              username))
  /\ (forall category,
        category ∈ StorageManager.categories
                     (StorageManager.getStorageStats backend_getUserFiles
                        backends username)
        <-> exists file,
              file ∈ StorageManager.getUserFiles backend_getUserFiles backends
                       username
              /\ StorageManager.s_category file = category)
  /\ StorageManager.fileCount
       (StorageManager.getStorageStats backend_getUserFiles backends username)
     = length (remove_dups
                 (ids (visited backend_getUserFiles backends username))).
Proof.
  unfold StorageManager.getStorageStats, StorageManager.set_order.
  cbn [StorageManager.categories StorageManager.fileCount].
  destruct (set_order_spec
              (map StorageManager.s_category
                 (StorageManager.getUserFiles backend_getUserFiles backends
                    username)) [] (NoDup_nil_2)) as [Hnodup Helem].
  split_and!; [exact Hnodup| |].
  - intros category. rewrite Helem, elem_of_nil.
    change (map StorageManager.s_category ?l)
      with (StorageManager.s_category <$> l).
    rewrite list_elem_of_fmap. split.
    + intros [[]|(file & -> & Hin)]. by exists file.
    + intros (file & Hin & <-). right. by exists file.
  - rewrite <- (length_fmap StorageManager.s_id).
    apply Permutation_length, NoDup_Permutation.
    + apply getUserFiles_nodup.
    + apply NoDup_remove_dups.
    + intros fileId. rewrite elem_of_remove_dups.
      symmetry. apply getUserFiles_ids.
Qed.

End ListingTotals.

(** ** Searching *)

Lemma includes_empty (s : string) : includes s "" = true.
Proof. by destruct s. Qed.

Section Searching.
Variable toLowerCase : string -> string.
Variable backend_getUserFiles :
  StorageManager.backend -> string -> string + list StorageManager.Summary.

Lemma filter_matches_inr searchTerm files found :
  Search.filter_matches toLowerCase searchTerm files = inr found ->
  sublist found files
  /\ forall file,
       file ∈ found
       <-> file ∈ files
           /\ Search.matches toLowerCase searchTerm file = inr true.
Proof.
  revert found. induction files as [|f files IH]; intros found; cbn.
  - intros [= <-]. split; [constructor|].
    intros file. rewrite elem_of_nil. tauto.
  - destruct (Search.matches toLowerCase searchTerm f) as [e|keep] eqn:Hf;
      [discriminate|].
    destruct (Search.filter_matches toLowerCase searchTerm files)
      as [e|kept]; [discriminate|].
    destruct (IH kept eq_refl) as [Hsub Helem].
    intros [= <-]. destruct keep.
    + split; [by apply sublist_skip|].
      intros file. rewrite !elem_of_cons, Helem. split.
      * intros [->|[? ?]]; [by split; [left|]|by split; [right|]].
      * intros [[->|?] ?]; [by left|by right].
    + split; [by apply sublist_cons|].
      intros file. rewrite elem_of_cons, Helem. split.
      * intros [? ?]. by split; [right|].
      * intros [[->|?] Hm]; [congruence|done].
Qed.

Lemma filter_matches_all files :
  Search.filter_matches toLowerCase "" files = inr files.
Proof.
  induction files as [|f files IH]; [reflexivity|]. cbn.
  unfold Search.matches. rewrite includes_empty. by rewrite IH.
Qed.

Lemma filter_matches_settles searchTerm files :
  Forall
    (fun file =>
       forall description,
         StorageManager.s_metadata file !! "description" = Some description ->
         Conditions.truthy description = true ->
         exists text, description = VStr text) files ->
  exists found,
    Search.filter_matches toLowerCase searchTerm files = inr found.
Proof.
  induction 1 as [|f files Hf _ [kept IH]]; cbn; [by eexists|].
  assert (exists keep, Search.matches toLowerCase searchTerm f = inr keep)
    as [keep ->].
  { unfold Search.matches.
    destruct (includes _ _); [by eexists|].
    destruct (includes _ _); [by eexists|].
    destruct (StorageManager.s_metadata f !! "description") as [d|] eqn:Hd;
      [|by eexists].
    destruct (Conditions.truthy d) eqn:Ht; [|by eexists].
    destruct (Hf d eq_refl Ht) as [text ->]. by eexists. }
  rewrite IH. by eexists.
Qed.

(** X14: what [searchFiles] finds is taken from the merged listing, in its
    order and so without a repeated id, and it is exactly the listed files
    whose name, category or description contains the query in lower case.
    A query that is empty in lower case finds every file. The search
    throws only over a description that is neither empty nor a string. *)
Theorem searchFiles_finds (backends : list StorageManager.backend)
    (username query : string) :
  (forall found,
     Search.searchFiles toLowerCase backend_getUserFiles backends username query
     = inr found ->
     sublist found
       (StorageManager.getUserFiles backend_getUserFiles backends username)
     /\ NoDup (ids found)
     /\ forall file,
          file ∈ found
          <-> file ∈ StorageManager.getUserFiles backend_getUserFiles backends
                       username
              /\ Search.matches toLowerCase (toLowerCase query) file = inr true)
  /\ (toLowerCase query = "" ->
      Search.searchFiles toLowerCase backend_getUserFiles backends username
        query
      = inr (StorageManager.getUserFiles backend_getUserFiles backends username))
  /\ (Forall
        (fun file =>
           forall description,
             StorageManager.s_metadata file !! "description" = Some description ->
             Conditions.truthy description = true ->
             exists text, description = VStr text)
        (StorageManager.getUserFiles backend_getUserFiles backends username) ->
      exists found,
        Search.searchFiles toLowerCase backend_getUserFiles backends username
          query
        = inr found).
Proof.
  unfold Search.searchFiles. split_and!.
  - intros found Hfound.
    destruct (filter_matches_inr _ _ _ Hfound) as [Hsub Helem].
    split_and!; [done| |done].
    eapply sublist_NoDup; [apply getUserFiles_nodup|].
    unfold ids. by apply fmap_sublist.
  - intros ->. apply filter_matches_all.
  - apply filter_matches_settles.
Qed.

End Searching.
(** ** Listings of the backends *)

Lemma indexedDB_listing_elem (db : IndexedDBBackend.state) (username : string)
    (e : ListedFile) :
  e ∈ IndexedDBListing.getUserFiles db username
  <-> exists fileId item,
        IndexedDBBackend.os_metadata db !! fileId = Some item
        /\ IndexedDBBackend.mr_username item = username
        /\ e = IndexedDBListing.listed item.
Proof.
  unfold IndexedDBListing.getUserFiles, IndexedDBListing.getAll.
  rewrite list_elem_of_fmap. split.
  - intros (item & -> & Hin).
    apply list_elem_of_In, filter_In in Hin. destruct Hin as [Hin Huser].
    apply list_elem_of_In, list_elem_of_fmap in Hin.
    destruct Hin as ([fileId item'] & -> & Hin).
    rewrite merge_sort_Permutation in Hin.
    apply elem_of_map_to_list in Hin.
    exists fileId, item'. split_and!; [done | | done].
    by apply bool_decide_eq_true in Huser.
  - intros (fileId & item & Hitem & Huser & ->).
    exists item. split; [done |].
    apply list_elem_of_In, filter_In. split.
    + apply list_elem_of_In, list_elem_of_fmap. exists (fileId, item).
      split; [done |]. rewrite merge_sort_Permutation.
      by apply elem_of_map_to_list.
    + by apply bool_decide_eq_true.
Qed.

Lemma catalogued_empty : catalogued IndexedDBBackend.empty.
Proof. intros fileId item Hitem. cbn in Hitem. by rewrite lookup_empty in Hitem. Qed.

Lemma catalogued_storeFile (db : IndexedDBBackend.state) (username : string)
    (file : File) (category : string) (metadata : gmap string value)
    (h : Host) :
  catalogued db ->
  catalogued
    (IndexedDBBackend.storeFile db username file category metadata h).2.
Proof.
  intros Hcat. unfold IndexedDBBackend.storeFile, IndexedDBBackend.add.
  repeat case_match; simplify_eq; cbn; try done.
  intros fileId item. cbn.
  destruct (decide (fileId = IndexedDBBackend.generateFileId h)) as [-> | Hne].
  - rewrite !lookup_insert_eq. intros [= <-]. by split.
  - rewrite !lookup_insert_ne by done. apply Hcat.
Qed.

Lemma catalogued_deleteFile (db : IndexedDBBackend.state) (fileId : string)
    (h : Host) :
  catalogued db -> catalogued (IndexedDBBackend.deleteFile db fileId h).2.
Proof.
  intros Hcat. unfold IndexedDBBackend.deleteFile.
  repeat case_match; cbn; try done.
  intros fileId' item. cbn.
  destruct (decide (fileId' = fileId)) as [-> | Hne].
  - by rewrite lookup_delete_eq.
  - rewrite !lookup_delete_ne by done. apply Hcat.
Qed.

Lemma reachable_catalogued (db : IndexedDBBackend.state) :
  rtc indexedDB_step IndexedDBBackend.empty db -> catalogued db.
Proof.
  intros Hreach. revert db Hreach. apply rtc_ind_r.
  - apply catalogued_empty.
  - intros db db' _ Hstep Hcat. revert Hcat. destruct Hstep; intros Hcat.
    + by apply catalogued_storeFile.
    + by apply catalogued_deleteFile.
Qed.
(** ** Storing, then listing *)

Lemma indexedDB_storeFile_listing (db db' : IndexedDBBackend.state)
    (username : string) (file : File) (category : string)
    (metadata : gmap string value) (h : Host) (r : StoredFile) :
  IndexedDBBackend.storeFile db username file category metadata h
  = (Resolved r, db') ->
  exists item,
    IndexedDBBackend.mr_id item = sf_id r
    /\ IndexedDBBackend.mr_username item = username
    /\ IndexedDBBackend.mr_category item = category
    /\ IndexedDBBackend.mr_metadata item = record_metadata metadata file
    /\ sf_size r = file_size file
    /\ sf_storage r = "IndexedDB"
    /\ forall u e,
         e ∈ IndexedDBListing.getUserFiles db' u
         <-> e ∈ IndexedDBListing.getUserFiles db u
             \/ (u = username /\ e = IndexedDBListing.listed item).
Proof.
  unfold IndexedDBBackend.storeFile, IndexedDBBackend.add.
  intros Hstore. repeat case_match; simplify_eq.
  exists {| IndexedDBBackend.mr_id := IndexedDBBackend.generateFileId h;
            IndexedDBBackend.mr_username := username;
            IndexedDBBackend.mr_metadata := record_metadata metadata file;
            IndexedDBBackend.mr_category := category;
            IndexedDBBackend.mr_uploadDate := h_date h 1%nat |}.
  cbn [IndexedDBBackend.mr_id IndexedDBBackend.fd_id] in *.
  split_and!; [reflexivity .. |].
  intros u e. rewrite !indexedDB_listing_elem. cbn. split.
  - intros (fileId & item & Hitem & Huser & ->).
    destruct (decide (fileId = IndexedDBBackend.generateFileId h))
      as [-> | Hne].
    + rewrite lookup_insert_eq in Hitem. injection Hitem as <-.
      right. by split.
    + rewrite lookup_insert_ne in Hitem by done. left. by exists fileId, item.
  - intros [(fileId & item & Hitem & Huser & ->) | [-> ->]].
    + exists fileId, item. split_and!; [| done | done].
      rewrite lookup_insert_ne; [done |]. intros <-. congruence.
    + eexists _, _. split_and!; [apply lookup_insert_eq | done | done].
Qed.

Lemma localStorage_storeFile_listing `{DataURL}
    (st st' : LocalStorageBackend.state) (username : string) (file : File)
    (category : string) (metadata : gmap string value) (h : Host)
    (r : StoredFile) :
  LocalStorageBackend.storeFile st username file category metadata h
  = (Resolved r, st') ->
  exists fileData,
    LocalStorageBackend.fd_id fileData = sf_id r
    /\ LocalStorageBackend.fd_username fileData = username
    /\ LocalStorageBackend.fd_category fileData = category
    /\ LocalStorageBackend.fd_metadata fileData
       = json <$> record_metadata metadata file
    /\ LocalStorageBackend.fd_filename fileData = file_name file
    /\ LocalStorageBackend.fd_filetype fileData = file_type file
    /\ LocalStorageBackend.fd_size fileData = file_size file
    /\ sf_size r = file_size file
    /\ sf_storage r = "LocalStorage"
    /\ forall u,
         backend_listing (StorageManager.LocalStorage st') u
         = backend_listing (StorageManager.LocalStorage st) u
           ++ (if bool_decide (u = username)
               then [LocalStorageListing.listed fileData] else []).
Proof.
  unfold LocalStorageBackend.storeFile, LocalStorageBackend.saveToLocalStorage.
  intros Hstore.
  destruct (file_size file >? _); [discriminate|].
  destruct (h_reader h); [discriminate|].
  destruct (LocalStorageBackend.shadowed _ _) eqn:Hshadowed; [discriminate|].
  destruct (h_setItem h 0%nat); [discriminate|].
  destruct (h_setItem h 1%nat); [discriminate|].
  injection Hstore as <- <-.
  exists
    (LocalStorageBackend.stringified
       {| LocalStorageBackend.fd_id := LocalStorageBackend.generateFileId h;
          LocalStorageBackend.fd_filename := file_name file;
          LocalStorageBackend.fd_filetype := file_type file;
          LocalStorageBackend.fd_size := file_size file;
          LocalStorageBackend.fd_category := category;
          LocalStorageBackend.fd_uploadDate := h_date h 0%nat;
          LocalStorageBackend.fd_username := username;
          LocalStorageBackend.fd_metadata := record_metadata metadata file;
          LocalStorageBackend.fd_data := readAsDataURL file |}).
  split_and!; [reflexivity .. |].
  intros u. unfold backend_listing, LocalStorageListing.getUserFiles.
  cbn [LocalStorageBackend.ls_files].
  case_bool_decide as Hu.
  - subst u. rewrite lookup_insert_eq.
    unfold LocalStorageBackend.shadowed in Hshadowed.
    destruct (LocalStorageBackend.ls_files st !! username) as [userFiles|].
    + cbn [default from_option]. by rewrite fmap_app.
    + rewrite Hshadowed. reflexivity.
  - rewrite lookup_insert_ne by done. by rewrite app_nil_r.
Qed.

(** What a resolved [storeFile] of the manager adds to the listing of the
    backend it chose, and the record the entry is made from. *)
Lemma storeFile_listing_entry `{DataURL}
    (backends backends' : list StorageManager.backend) (username : string)
    (file : File) (category : string) (metadata : gmap string value)
    (h : Host) (r : StoredFile) :
  StorageManager.storeFile backends username file category metadata h
  = (Resolved r, backends') ->
  let processed := (StorageManager.processedFile file h).1 in
  let recorded :=
    record_metadata
      (StorageManager.store_metadata metadata file
         (StorageManager.processedFile file h).2
         (StorageManager.determineDirectory category metadata))
      processed in
  exists i b b' e,
    backends !! i = Some b
    /\ backends' = <[i := b']> backends
    /\ sf_size r = file_size processed
    /\ ((exists item,
           e = IndexedDBListing.listed item
           /\ sf_storage r = "IndexedDB"
           /\ IndexedDBBackend.mr_id item = sf_id r
           /\ IndexedDBBackend.mr_username item = username
           /\ IndexedDBBackend.mr_category item = category
           /\ IndexedDBBackend.mr_metadata item = recorded)
        \/ (exists fileData,
              e = LocalStorageListing.listed fileData
              /\ sf_storage r = "LocalStorage"
              /\ LocalStorageBackend.fd_id fileData = sf_id r
              /\ LocalStorageBackend.fd_username fileData = username
              /\ LocalStorageBackend.fd_category fileData = category
              /\ LocalStorageBackend.fd_metadata fileData = json <$> recorded
              /\ LocalStorageBackend.fd_filename fileData = file_name processed
              /\ LocalStorageBackend.fd_filetype fileData = file_type processed
              /\ LocalStorageBackend.fd_size fileData = file_size processed))
    /\ forall u e',
         e' ∈ backend_listing b' u
         <-> e' ∈ backend_listing b u \/ (u = username /\ e' = e).
Proof.
  unfold StorageManager.storeFile.
  destruct (StorageManager.processedFile file h) as [processed compressed].
  destruct (StorageManager.selectBackendForFile backends processed)
    as [i |]; [| done].
  destruct (backends !! i) as [b |] eqn:Hb; [| done].
  destruct (StorageManager.backend_storeFile _ _ _ _ _ _) as [r' b'] eqn:Hstore.
  intros [= -> <-]. cbn zeta. cbn [fst snd]. exists i, b, b'.
  destruct b as [db | st]; cbn in Hstore.
  - destruct (IndexedDBBackend.storeFile _ _ _ _ _ _) as [r'' db'] eqn:Hidb.
    injection Hstore as -> <-.
    destruct (indexedDB_storeFile_listing _ _ _ _ _ _ _ _ Hidb)
      as (item & Hid & Huser & Hcat & Hmeta & Hsize & Hstorage & Hlist).
    exists (IndexedDBListing.listed item).
    split_and!; [done .. | | done].
    left. by exists item.
  - destruct (LocalStorageBackend.storeFile _ _ _ _ _ _) as [r'' st'] eqn:Hls.
    injection Hstore as -> <-.
    destruct (localStorage_storeFile_listing _ _ _ _ _ _ _ _ Hls)
      as (fileData & Hid & Huser & Hcat & Hmeta & Hname & Htype & Hsize
          & Hsize' & Hstorage & Hlist).
    exists (LocalStorageListing.listed fileData).
    split_and!; [done .. | |].
    + right. by exists fileData.
    + intros u e'. rewrite Hlist, elem_of_app. case_bool_decide as Hu.
      * rewrite list_elem_of_singleton. split.
        -- intros [Hin | ->]; [by left | by right].
        -- intros [Hin | [_ ->]]; [by left | by right].
      * rewrite elem_of_nil. split.
        -- intros [Hin | []]. by left.
        -- intros [Hin | [Heq _]]; [by left | done].
Qed.

(** X15: storing, then listing. When [storeFile] of the manager resolves,
    one backend has changed, and what that backend lists has gained
    exactly one entry: it is in the listing of the user the file was
    stored for, carries the id the call resolved with, the category, and
    the caller's metadata under every key the code does not write itself,
    each value as the backend keeps it (from localStorage a Blob or an
    ArrayBuffer is listed as [{}]). What the backend lists for any other
    user is as before. *)
Theorem storeFile_then_listing `{DataURL}
    (backends backends' : list StorageManager.backend) (username : string)
    (file : File) (category : string) (metadata : gmap string value)
    (h : Host) (r : StoredFile) :
  StorageManager.storeFile backends username file category metadata h
  = (Resolved r, backends') ->
  exists i b b' e,
    backends !! i = Some b
    /\ backends' = <[i := b']> backends
    /\ l_id e = sf_id r
    /\ l_username e = username
    /\ l_category e = category
    /\ (forall key,
          key ∉ reserved_keys ->
          l_metadata e !! key = as_stored (sf_storage r) <$> metadata !! key)
    /\ forall u e',
         e' ∈ backend_listing b' u
         <-> e' ∈ backend_listing b u \/ (u = username /\ e' = e).
Proof.
  intros Hstore.
  destruct (storeFile_listing_entry _ _ _ _ _ _ _ _ Hstore)
    as (i & b & b' & e & Hb & Hbackends & _ & Hentry & Hlist).
  exists i, b, b', e. split_and!; [done | done | .. | done].
  - by destruct Hentry as [(item & -> & _ & Hid & _)
                          | (fileData & -> & _ & Hid & _)].
  - by destruct Hentry as [(item & -> & _ & _ & Huser & _)
                          | (fileData & -> & _ & _ & Huser & _)].
  - by destruct Hentry as [(item & -> & _ & _ & _ & Hcat & _)
                          | (fileData & -> & _ & _ & _ & Hcat & _)].
  - intros key Hkey.
    destruct Hentry as [(item & -> & -> & _ & _ & _ & Hmeta)
                       | (fileData & -> & -> & _ & _ & _ & Hmeta & _)]; cbn.
    + rewrite Hmeta, recorded_metadata_lookup by done.
      by destruct (metadata !! key).
    + rewrite Hmeta, lookup_fmap, recorded_metadata_lookup by done.
      destruct (metadata !! key) as [v|]; [|reflexivity].
      cbn. by rewrite as_stored_localStorage.
Qed.

Lemma storeFile_then_listing_witness :
  exists r backends',
    @StorageManager.storeFile raw_DataURL localStorage_vault "asha" notes_txt
      "DOCUMENT_TXT" {[ "thumbnail" := VBlob [Byte.x68; Byte.x69] ]}
      quiet_host
    = (Resolved r, backends')
    /\ exists i b b' e,
         localStorage_vault !! i = Some b
         /\ backends' = <[i := b']> localStorage_vault
         /\ l_id e = sf_id r
         /\ l_username e = "asha"
         /\ l_category e = "DOCUMENT_TXT"
         /\ (forall key,
               key ∉ reserved_keys ->
               l_metadata e !! key
               = as_stored (sf_storage r)
                 <$> ({[ "thumbnail" := VBlob [Byte.x68; Byte.x69] ]}
                      : gmap string value) !! key)
         /\ forall u e',
              e' ∈ backend_listing b' u
              <-> e' ∈ backend_listing b u \/ (u = "asha" /\ e' = e).
Proof.
  eexists _, _. split; [reflexivity|].
  apply (@storeFile_then_listing raw_DataURL localStorage_vault _ "asha"
           notes_txt "DOCUMENT_TXT"
           {[ "thumbnail" := VBlob [Byte.x68; Byte.x69] ]} quiet_host).
  reflexivity.
Defined.

(** The listing of the text file stored with a thumbnail: in localStorage
    the thumbnail is listed as an empty object. *)
Example listing_after_store :
  l_metadata
  <$> backend_listing
        (StorageManager.LocalStorage
           (@LocalStorageBackend.storeFile raw_DataURL
              LocalStorageBackend.empty "asha" notes_txt "DOCUMENT_TXT"
              {[ "thumbnail" := VBlob [Byte.x68; Byte.x69] ]} quiet_host).2)
        "asha"
  = [<["filetype" := VStr "text/plain"]>
       (<["size" := VNum 3]>
          (<["filename" := VStr "notes.txt"]>
             (<["thumbnail" := VObj ∅]> ∅)))].
Proof. vm_compute. reflexivity. Qed.

(** ** Deleting, then listing *)

(** X16: deleting from IndexedDB, then listing. In a database that was
    only ever changed by [storeFile] and [deleteFile], once the two delete
    requests are accepted, what the backend lists for any user is what it
    listed before without the entries of the deleted id. *)
Theorem indexedDB_deleteFile_then_listing (db : IndexedDBBackend.state)
    (fileId : string) (h : Host) :
  rtc indexedDB_step IndexedDBBackend.empty db ->
  h_request h 0%nat = None ->
  h_request h 1%nat = None ->
  (IndexedDBBackend.deleteFile db fileId h).1 = Resolved true
  /\ forall username e,
       e ∈ IndexedDBListing.getUserFiles
             (IndexedDBBackend.deleteFile db fileId h).2 username
       <-> e ∈ IndexedDBListing.getUserFiles db username /\ l_id e <> fileId.
Proof.
  intros Hreach H0 H1. apply reachable_catalogued in Hreach.
  unfold IndexedDBBackend.deleteFile. rewrite H0, H1. split; [done |].
  intros username e. rewrite !indexedDB_listing_elem. cbn. split.
  - intros (fileId' & item & Hitem & Huser & ->).
    destruct (decide (fileId' = fileId)) as [-> | Hne].
    + by rewrite lookup_delete_eq in Hitem.
    + rewrite lookup_delete_ne in Hitem by done.
      split; [by exists fileId', item |].
      cbn. by rewrite (proj1 (Hreach _ _ Hitem)).
  - intros [(fileId' & item & Hitem & Huser & ->) Hne]. cbn in Hne.
    rewrite (proj1 (Hreach _ _ Hitem)) in Hne.
    exists fileId', item. by rewrite lookup_delete_ne.
Qed.

Lemma indexedDB_deleteFile_then_listing_witness :
  (IndexedDBBackend.deleteFile
     (IndexedDBBackend.storeFile IndexedDBBackend.empty "asha" notes_txt
        "DOCUMENT_TXT" ∅ quiet_host).2
     "idb_1700000000000_k3x9q2m1z" quiet_host).1
  = Resolved true
  /\ forall username e,
       e ∈ IndexedDBListing.getUserFiles
             (IndexedDBBackend.deleteFile
                (IndexedDBBackend.storeFile IndexedDBBackend.empty "asha"
                   notes_txt "DOCUMENT_TXT" ∅ quiet_host).2
                "idb_1700000000000_k3x9q2m1z" quiet_host).2 username
       <-> e ∈ IndexedDBListing.getUserFiles
                 (IndexedDBBackend.storeFile IndexedDBBackend.empty "asha"
                    notes_txt "DOCUMENT_TXT" ∅ quiet_host).2 username
           /\ l_id e <> "idb_1700000000000_k3x9q2m1z".
Proof.
  apply (indexedDB_deleteFile_then_listing
           (IndexedDBBackend.storeFile IndexedDBBackend.empty "asha"
              notes_txt "DOCUMENT_TXT" ∅ quiet_host).2
           "idb_1700000000000_k3x9q2m1z" quiet_host).
  - apply rtc_once, step_storeFile.
  - reflexivity.
  - reflexivity.
Defined.

Lemma listed_filter (userFiles : list LocalStorageBackend.FileData)
    (fileId : string) :
  LocalStorageListing.listed
  <$> List.filter
        (fun f => negb (bool_decide (LocalStorageBackend.fd_id f = fileId)))
        userFiles
  = List.filter (fun e => negb (bool_decide (l_id e = fileId)))
      (LocalStorageListing.listed <$> userFiles).
Proof.
  induction userFiles as [| f userFiles IH]; [done |].
  cbn [List.filter fmap list_fmap].
  change (l_id (LocalStorageListing.listed f))
    with (LocalStorageBackend.fd_id f).
  destruct (negb _); [| exact IH].
  cbn [fmap list_fmap]. f_equal. exact IH.
Qed.

(** X17: deleting from localStorage, then listing. When [deleteFile]
    resolves, the index named a user for the id; that user's listing is
    the one before without the entries of the id, in the same order, and
    every other user's listing, or the exception in its place, is
    unchanged. *)
Theorem localStorage_deleteFile_then_listing
    (st st' : LocalStorageBackend.state) (fileId : string) (h : Host)
    (flag : bool) :
  LocalStorageBackend.deleteFile st fileId h = (Resolved flag, st') ->
  exists fileInfo listing,
    LocalStorageBackend.ls_index st !! fileId = Some fileInfo
    /\ LocalStorageListing.getUserFiles st
         (LocalStorageBackend.ie_username fileInfo)
       = inr listing
    /\ LocalStorageListing.getUserFiles st'
         (LocalStorageBackend.ie_username fileInfo)
       = inr (List.filter (fun e => negb (bool_decide (l_id e = fileId)))
                listing)
    /\ forall username,
         username <> LocalStorageBackend.ie_username fileInfo ->
         LocalStorageListing.getUserFiles st' username
         = LocalStorageListing.getUserFiles st username.
Proof.
  unfold LocalStorageBackend.deleteFile. intros Hdelete.
  destruct (LocalStorageBackend.ls_index st !! fileId) as [fileInfo |];
    [| done].
  destruct (negb _); [done |].
  destruct (LocalStorageBackend.shadowed _ _) eqn:Hshadowed; [done |].
  destruct (h_setItem h 0%nat); [done |].
  destruct (h_setItem h 1%nat); [done |].
  injection Hdelete as _ <-.
  unfold LocalStorageBackend.shadowed in Hshadowed.
  unfold LocalStorageListing.getUserFiles. cbn [LocalStorageBackend.ls_files].
  destruct (LocalStorageBackend.ls_files st
            !! LocalStorageBackend.ie_username fileInfo)
    as [userFiles |] eqn:Hfiles.
  - exists fileInfo, (LocalStorageListing.listed <$> userFiles).
    rewrite Hfiles, lookup_insert_eq. split_and!; [done | done | |].
    + f_equal. apply listed_filter.
    + intros username Hne. by rewrite lookup_insert_ne.
  - exists fileInfo, []. rewrite Hfiles, Hshadowed. by split_and!.
Qed.

Lemma localStorage_deleteFile_then_listing_witness :
  exists st,
    vault_with_notes = [StorageManager.LocalStorage st]
    /\ exists fileInfo listing,
         LocalStorageBackend.ls_index st !! "ls_1700000000000_k3x9q2m1z"
         = Some fileInfo
         /\ LocalStorageListing.getUserFiles st
              (LocalStorageBackend.ie_username fileInfo)
            = inr listing
         /\ LocalStorageListing.getUserFiles
              (LocalStorageBackend.deleteFile st "ls_1700000000000_k3x9q2m1z"
                 quiet_host).2
              (LocalStorageBackend.ie_username fileInfo)
            = inr (List.filter
                     (fun e =>
                        negb (bool_decide
                                (l_id e = "ls_1700000000000_k3x9q2m1z")))
                     listing)
         /\ forall username,
              username <> LocalStorageBackend.ie_username fileInfo ->
              LocalStorageListing.getUserFiles
                (LocalStorageBackend.deleteFile st
                   "ls_1700000000000_k3x9q2m1z" quiet_host).2 username
              = LocalStorageListing.getUserFiles st username.
Proof.
  eexists. split; [reflexivity |].
  eapply (localStorage_deleteFile_then_listing _ _
            "ls_1700000000000_k3x9q2m1z" quiet_host true).
  reflexivity.
Defined.

(** ** Listed and fetchable *)

Lemma reachable_paired (db : IndexedDBBackend.state) :
  rtc indexedDB_step IndexedDBBackend.empty db -> paired db.
Proof.
  intros Hreach. revert db Hreach. apply rtc_ind_r.
  - apply paired_empty.
  - intros db db' _ Hstep Hpaired. by apply (step_preserves_paired db).
Qed.

(** X18: in IndexedDB the listings and [getFile] agree. In a database that
    was only ever changed by [storeFile] and [deleteFile], an id appears in
    some user's listing exactly when [getFile] resolves for it, and the
    user whose listing shows it is the one its metadata record names. *)
Theorem indexedDB_listed_iff_fetchable (db : IndexedDBBackend.state)
    (fileId : string) (h : Host) :
  rtc indexedDB_step IndexedDBBackend.empty db ->
  ((exists username e,
      e ∈ IndexedDBListing.getUserFiles db username /\ l_id e = fileId)
   <-> exists got, IndexedDBBackend.getFile db fileId h = Resolved got)
  /\ forall username e,
       e ∈ IndexedDBListing.getUserFiles db username ->
       l_username e = username
       /\ exists item,
            IndexedDBBackend.os_metadata db !! l_id e = Some item
            /\ e = IndexedDBListing.listed item.
Proof.
  intros Hreach.
  pose proof (reachable_catalogued _ Hreach) as Hcat.
  pose proof (reachable_paired _ Hreach) as Hpaired.
  split; [split |].
  - intros (username & e & Hin & <-).
    apply indexedDB_listing_elem in Hin.
    destruct Hin as (fileId & item & Hitem & _ & ->).
    destruct (Hcat _ _ Hitem) as [Hid [fileData HfileData]].
    cbn. rewrite Hid. unfold IndexedDBBackend.getFile.
    rewrite HfileData, Hitem. by eexists.
  - intros [got Hgot]. unfold IndexedDBBackend.getFile in Hgot.
    destruct (IndexedDBBackend.os_files db !! fileId) as [fileData |] eqn:Hfd;
      [| done].
    destruct (Hpaired fileId) as (item & Hitem & Hid); [by eexists |].
    exists (IndexedDBBackend.mr_username item), (IndexedDBListing.listed item).
    split; [| done].
    apply indexedDB_listing_elem. by exists fileId, item.
  - intros username e Hin. apply indexedDB_listing_elem in Hin.
    destruct Hin as (fileId' & item & Hitem & Huser & ->).
    split; [done |]. exists item. split; [| done].
    cbn. by rewrite (proj1 (Hcat _ _ Hitem)).
Qed.

Lemma indexedDB_listed_iff_fetchable_witness :
  (exists username e,
     e ∈ IndexedDBListing.getUserFiles
           (IndexedDBBackend.storeFile IndexedDBBackend.empty "asha"
              notes_txt "DOCUMENT_TXT" ∅ quiet_host).2 username
     /\ l_id e = "idb_1700000000000_k3x9q2m1z")
  <-> exists got,
        IndexedDBBackend.getFile
          (IndexedDBBackend.storeFile IndexedDBBackend.empty "asha"
             notes_txt "DOCUMENT_TXT" ∅ quiet_host).2
          "idb_1700000000000_k3x9q2m1z" quiet_host
        = Resolved got.
Proof.
  apply (indexedDB_listed_iff_fetchable
           (IndexedDBBackend.storeFile IndexedDBBackend.empty "asha"
              notes_txt "DOCUMENT_TXT" ∅ quiet_host).2
           "idb_1700000000000_k3x9q2m1z" quiet_host).
  apply rtc_once, step_storeFile.
Defined.

(** ** Uploading through the data processor *)

Lemma processedFile_name (file : File) (h : Host) :
  file_name (StorageManager.processedFile file h).1 = file_name file.
Proof.
  destruct (processedFile_cases file h)
    as [-> | (blob & _ & _ & _ & _ & ->)]; reflexivity.
Qed.

Lemma processedFile_empty (file : File) (h : Host) :
  file_size file = 0 -> file_size (StorageManager.processedFile file h).1 = 0.
Proof.
  intros Hsize.
  destruct (processedFile_cases file h)
    as [-> | (blob & _ & Hlarge & _)]; [done | lia].
Qed.

Lemma recorded_lookups (metadata analysis : gmap string value)
    (uploadedAt : string) (file processed : File) (compressed : bool)
    (directory : string) :
  let recorded :=
    record_metadata
      (StorageManager.store_metadata
         (<["uploadedAt" := VStr uploadedAt]>
            (<["intelligentAnalysis" := VObj analysis]> metadata))
         file compressed directory)
      processed in
  recorded !! "intelligentAnalysis" = Some (VObj analysis)
  /\ recorded !! "filename" = Some (VStr (file_name processed))
  /\ recorded !! "size" = Some (VNum (file_size processed))
  /\ recorded !! "originalSize" = Some (VNum (file_size file)).
Proof.
  cbn zeta. unfold record_metadata, StorageManager.store_metadata.
  split_and!.
  - rewrite !lookup_insert_ne by discriminate. apply lookup_insert_eq.
  - rewrite !lookup_insert_ne by discriminate. apply lookup_insert_eq.
  - rewrite lookup_insert_ne by discriminate. apply lookup_insert_eq.
  - rewrite !lookup_insert_ne by discriminate. apply lookup_insert_eq.
Qed.

Lemma or_else_assoc (a b c : option value) :
  Conditions.or_else (Conditions.or_else a b) c
  = Conditions.or_else a (Conditions.or_else b c).
Proof.
  destruct a as [v |]; [| done]. cbn.
  destruct (Conditions.truthy v) eqn:Hv; [| done]. cbn. by rewrite Hv.
Qed.

Lemma shown_name (blobs : bool) (analysis : gmap string value)
    (name : string) (recorded : option value) :
  analysis !! "filename" = Some (VStr name) ->
  (name = "" -> recorded = Some (VStr "")) ->
  Conditions.or_value
    (Conditions.or_else
       (Conditions.prop blobs (Some (VObj analysis)) "filename") recorded)
    (VStr "file")
  = VStr (if bool_decide (name = "") then "file" else name).
Proof.
  intros Hname Hrecorded. cbn. rewrite Hname. cbn.
  case_bool_decide as Hempty; cbn.
  - by rewrite Hrecorded.
  - by rewrite bool_decide_eq_false_2.
Qed.

Lemma shown_size (blobs : bool) (analysis : gmap string value)
    (size : Z) (recorded : option value) :
  analysis !! "size" = Some (VNum size) ->
  (size = 0 -> recorded = Some (VNum 0)) ->
  Conditions.or_value
    (Conditions.or_else
       (Conditions.prop blobs (Some (VObj analysis)) "size") recorded)
    (VNum 0)
  = VNum size.
Proof.
  intros Hsize Hrecorded. cbn. rewrite Hsize. cbn.
  destruct (Z.eqb_spec size 0) as [-> | Hne]; cbn.
  - by rewrite Hrecorded.
  - by destruct (Z.eqb_spec size 0).
Qed.

Section Uploading.
Context `{DataURL}.
Variable detectFileType : File -> gmap string value.
Variable analyzeJsonContent : File -> gmap string value.
Variable analyzeMediaContent : File -> gmap string value -> gmap string value.
Variable lastModified : File -> value.
Variable toUpperCase : string -> string.
Variable uploadedAt : string.

Lemma analyzeFile_lookups (file : File) :
  let analysis :=
    IntelligentDataProcessor.analyzeFile detectFileType analyzeJsonContent
      analyzeMediaContent lastModified file in
  analysis !! "filename" = Some (VStr (file_name file))
  /\ analysis !! "size" = Some (VNum (file_size file)).
Proof.
  cbn zeta. unfold IntelligentDataProcessor.analyzeFile. split.
  - rewrite !lookup_insert_ne by discriminate. apply lookup_insert_eq.
  - rewrite lookup_insert_ne by discriminate. apply lookup_insert_eq.
Qed.

(** X19: what the listing shows of an upload. When [storeFile] of the data
    processor resolves, the backend that took the file lists an entry with
    the id of the result whose name and size are those of the file as it
    was handed in ('file' for an empty name), whatever the analysis found,
    while the size in the result and in the recorded metadata is that of
    the file as stored, which for a compressed image is smaller. *)
Theorem upload_listed_with_original_size
    (backends backends' : list StorageManager.backend) (username : string)
    (file : File) (metadata : gmap string value) (h : Host) (r : StoredFile) :
  IntelligentDataProcessor.storeFile detectFileType analyzeJsonContent
    analyzeMediaContent lastModified toUpperCase uploadedAt
    backends username file metadata h
  = (Resolved r, backends') ->
  exists i b' e,
    backends' !! i = Some b'
    /\ e ∈ backend_listing b' username
    /\ l_id e = sf_id r
    /\ l_filename e
       = VStr (if bool_decide (file_name file = "") then "file"
               else file_name file)
    /\ l_size e = VNum (file_size file)
    /\ sf_size r = file_size (StorageManager.processedFile file h).1
    /\ l_metadata e !! "size" = Some (VNum (sf_size r))
    /\ l_metadata e !! "originalSize" = Some (VNum (file_size file)).
Proof.
  unfold IntelligentDataProcessor.storeFile.
  destruct (IntelligentDataProcessor.generateCategory _ _)
    as [message | category]; [done |].
  intros Hstore.
  destruct (storeFile_listing_entry _ _ _ _ _ _ _ _ Hstore)
    as (i & b & b' & e & Hb & -> & Hsize & Hentry & Hlist).
  cbn zeta in Hentry.
  match type of Hentry with
  | context [record_metadata (StorageManager.store_metadata _ _ ?c ?d) ?p] =>
      destruct (recorded_lookups metadata
                  (IntelligentDataProcessor.analyzeFile detectFileType
                     analyzeJsonContent analyzeMediaContent lastModified file)
                  uploadedAt file p c d)
        as (Hanalysis & Hfilename & Hrecsize & Horiginal)
  end.
  destruct (analyzeFile_lookups file) as [Haname Hasize].
  pose proof (processedFile_name file h) as Hname.
  pose proof (processedFile_empty file h) as Hempty.
  exists i, b', e. split_and!.
  - rewrite list_lookup_insert_eq; [done |]. by eapply lookup_lt_Some.
  - apply Hlist. by right.
  - by destruct Hentry as [(item & -> & _ & Hid & _)
                          | (fileData & -> & _ & Hid & _)].
  - destruct Hentry as [(item & -> & _ & _ & _ & _ & Hmeta)
                       | (fileData & -> & _ & _ & _ & _ & Hmeta & Hfdname & _)];
      cbn [l_filename IndexedDBListing.listed LocalStorageListing.listed];
      rewrite Hmeta.
    + rewrite Hanalysis, Hfilename.
      apply shown_name; [done |]. intros Hn. by rewrite Hname, Hn.
    + rewrite Hfdname, or_else_assoc, !lookup_fmap, Hanalysis, Hfilename.
      cbn [fmap option_fmap option_map json].
      apply shown_name; [by rewrite lookup_fmap, Haname |].
      intros Hn. by rewrite Hname, Hn.
  - destruct Hentry as [(item & -> & _ & _ & _ & _ & Hmeta)
                       | (fileData & -> & _ & _ & _ & _ & Hmeta & _ & _
                          & Hfdsize)];
      cbn [l_size IndexedDBListing.listed LocalStorageListing.listed];
      rewrite Hmeta.
    + rewrite Hanalysis, Hrecsize.
      apply shown_size; [done |]. intros Hz. by rewrite Hempty.
    + rewrite Hfdsize, or_else_assoc, !lookup_fmap, Hanalysis, Hrecsize.
      cbn [fmap option_fmap option_map json].
      apply shown_size; [by rewrite lookup_fmap, Hasize |].
      intros Hz. by rewrite Hempty.
  - done.
  - destruct Hentry as [(item & -> & _ & _ & _ & _ & Hmeta)
                       | (fileData & -> & _ & _ & _ & _ & Hmeta & _)];
      cbn [l_metadata IndexedDBListing.listed LocalStorageListing.listed];
      rewrite Hmeta, ?lookup_fmap, Hrecsize, Hsize; reflexivity.
  - destruct Hentry as [(item & -> & _ & _ & _ & _ & Hmeta)
                       | (fileData & -> & _ & _ & _ & _ & Hmeta & _)];
      cbn [l_metadata IndexedDBListing.listed LocalStorageListing.listed];
      rewrite Hmeta, ?lookup_fmap, Horiginal; reflexivity.
Qed.

End Uploading.

Lemma upload_listed_with_original_size_witness :
  exists r backends',
    @IntelligentDataProcessor.storeFile raw_DataURL image_analysis (fun _ => ∅)
      unloaded_image (fun _ => VNum 1700000000000) upper_letters
      "2024-01-01T00:00:00.000Z" fresh_vault "asha" photo_png ∅ photo_host
    = (Resolved r, backends')
    /\ sf_size r = 200 * 1024
    /\ exists i b' e,
         backends' !! i = Some b'
         /\ e ∈ backend_listing b' "asha"
         /\ l_id e = sf_id r
         /\ l_filename e = VStr "photo.png"
         /\ l_size e = VNum (600 * 1024)
         /\ sf_size r = file_size (StorageManager.processedFile photo_png photo_host).1
         /\ l_metadata e !! "size" = Some (VNum (sf_size r))
         /\ l_metadata e !! "originalSize" = Some (VNum (600 * 1024)).
Proof.
  eexists _, _. split; [reflexivity |]. split; [reflexivity |].
  apply (@upload_listed_with_original_size raw_DataURL image_analysis
           (fun _ => ∅) unloaded_image (fun _ => VNum 1700000000000)
           upper_letters "2024-01-01T00:00:00.000Z" fresh_vault _ "asha"
           photo_png ∅ photo_host).
  reflexivity.
Defined.

(** ** Labels of the file cards *)

Lemma prefix_app (p q s : string) :
  String.prefix (p +:+ q) s = true -> String.prefix p s = true.
Proof.
  revert s. induction p as [| a p IH]; intros s; [by destruct s |].
  change (String a p +:+ q) with (String a (p +:+ q)).
  destruct s as [| b s]; [done |]. cbn.
  destruct (Ascii.ascii_dec a b); [apply IH | done].
Qed.

Lemma includes_app (s p q : string) :
  includes s (p +:+ q) = true -> includes s p = true.
Proof.
  induction s as [| c s IH]; cbn [includes]; rewrite !orb_true_iff.
  - intros [Hprefix | Hfalse]; [| done]. left. by apply (prefix_app p q).
  - intros [Hprefix | Hrest].
    + left. by apply (prefix_app p q).
    + right. by apply IH.
Qed.

Lemma includes_longer (s p q r : string) :
  r = p +:+ q -> includes s r = true -> includes s p = true.
Proof. intros ->. apply includes_app. Qed.

Lemma not_includes_longer (s p q r : string) :
  r = p +:+ q -> includes s p = false -> includes s r = false.
Proof.
  intros -> Hnot. destruct (includes s (p +:+ q)) eqn:Hwith; [| done].
  apply includes_app in Hwith. congruence.
Qed.

(** X20: the label of a SQLite database. A category that contains
    'DATABASE_SQLITE' also contains 'DATABASE_SQL', and that rule comes
    first: unless a media or JSON rule applies, the card of such a file is
    labelled 'SQL Database', and no category is ever labelled
    'SQLite Database' by the rule written for it. *)
Theorem formatCategoryLabel_sqlite (titleCase : string -> string)
    (category : string) :
  (includes category "DATABASE_SQLITE" = true ->
   includes category "MEDIA_" = false ->
   includes category "JSON_" = false ->
   formatCategoryLabel titleCase category = "SQL Database")
  /\ (formatCategoryLabel titleCase category = "SQLite Database" ->
      titleCase category = "SQLite Database").
Proof.
  split.
  - intros Hsqlite Hmedia Hjson. unfold formatCategoryLabel.
    rewrite (not_includes_longer category "MEDIA_" "IMAGE" "MEDIA_IMAGE" eq_refl Hmedia).
    rewrite (not_includes_longer category "MEDIA_" "VIDEO" "MEDIA_VIDEO" eq_refl Hmedia).
    rewrite (not_includes_longer category "MEDIA_" "AUDIO" "MEDIA_AUDIO" eq_refl Hmedia).
    rewrite Hmedia.
    rewrite (not_includes_longer category "JSON_" "SQL" "JSON_SQL" eq_refl Hjson).
    rewrite (not_includes_longer category "JSON_" "NOSQL" "JSON_NOSQL" eq_refl Hjson).
    rewrite (not_includes_longer category "JSON_" "GENERIC" "JSON_GENERIC" eq_refl Hjson).
    rewrite (not_includes_longer category "JSON_" "UNKNOWN" "JSON_UNKNOWN" eq_refl Hjson).
    rewrite Hjson.
    by rewrite (includes_longer category "DATABASE_SQL" "ITE" "DATABASE_SQLITE" eq_refl Hsqlite).
  - unfold formatCategoryLabel.
    destruct (includes category "DATABASE_SQL") eqn:Hsql.
    + repeat (case_match; [discriminate |]). discriminate.
    + rewrite (not_includes_longer category "DATABASE_SQL" "ITE" "DATABASE_SQLITE" eq_refl Hsql).
      repeat (case_match; [discriminate |]). done.
Qed.

Example formatCategoryLabel_database_files (titleCase : string -> string) :
  formatCategoryLabel titleCase "DATABASE_SQLITE" = "SQL Database"
  /\ formatCategoryLabel titleCase "DATABASE_SQL" = "SQL Database"
  /\ formatCategoryLabel titleCase "DOCUMENT_TEXT" = "Text File".
Proof. by split_and!. Qed.
